(** * funfunzmc: the table controller and its query utilities

    A shallow embedding of the query/relation engine of funfunzmc
    (api/utils/index.ts and the table controller), with the properties
    of its specification stated and proved over it.

    Conventions of the embedding.
    - A JavaScript object used as a dictionary is an association list in
      property-enumeration order; a read also consults [Object.prototype],
      so a key such as [toString] is never "missing".
    - The Knex query builder is mutated in place by the source.  It is
      modelled by the list of builder calls made so far, and a function
      that mutates the builder returns the new list.  A function that can
      throw returns the builder as it stands at the throw together with
      the exception: the mutation done before a throw is not rolled back.
    - JavaScript numbers are restricted to integers, the two infinities
      and NaN ([num]); negative zero is identified with zero. *)

From Stdlib Require Import List String Ascii ZArith Bool Lia.
From Stdlib Require Import DecimalString.
Import ListNotations.

Local Open Scope string_scope.
Local Open Scope Z_scope.
Local Open Scope list_scope.
Local Set Warnings "-register-all".

(* ================================================================== *)
(** ** JavaScript values *)
(* ================================================================== *)

Module Js.

(** Numbers: an integer, an infinity or NaN. *)
Inductive num : Type :=
| Int (z : Z)
| NaN
| Infinity (negative : bool).

(** The double nearest to the integer [z], ties going to the even
    significand of 53 bits; an integer of magnitude 2^1024 or more
    after rounding is an infinity.  Up to 2^53 every integer is a
    double. *)
Definition to_double (z : Z) : num :=
  let a := Z.abs z in
  if a <? 2 ^ 53 then Int z
  else
    let e := Z.log2 a - 52 in
    let q := a / 2 ^ e in
    let r := a mod 2 ^ e in
    let half := 2 ^ (e - 1) in
    let q :=
      if r <? half then q
      else if half <? r then q + 1
      else if Z.even q then q else q + 1 in
    let m := q * 2 ^ e in
    if 2 ^ 1024 <=? m then Infinity (z <? 0) else Int (Z.sgn z * m).

(** [a * b] on doubles: the exact product of two integers, rounded. *)
Definition num_mul (a b : num) : num :=
  match a, b with
  | Int x, Int y => to_double (x * y)
  | Infinity n, Int y | Int y, Infinity n =>
      if y =? 0 then NaN else Infinity (xorb n (y <? 0))
  | Infinity n, Infinity m => Infinity (xorb n m)
  | NaN, _ | _, NaN => NaN
  end.

(** [a > 0]; every comparison with NaN is false. *)
Definition num_gt0 (a : num) : bool :=
  match a with
  | Int x => 0 <? x
  | NaN => false
  | Infinity negative => negb negative
  end.

Definition num_truthy (a : num) : bool :=
  match a with
  | Int x => negb (x =? 0)
  | NaN => false
  | Infinity _ => true
  end.

Inductive Value : Type :=
| VUndefined
| VNull
| VBool (b : bool)
| VNum (n : num)
| VStr (s : string)
| VArr (items : list Value)
| VObj (props : list (string * Value))
| VNative (name : string).

Definition string_truthy (s : string) : bool := negb (s =? "")%string.

Definition truthy (v : Value) : bool :=
  match v with
  | VUndefined | VNull => false
  | VBool b => b
  | VNum n => num_truthy n
  | VStr s => string_truthy s
  | VArr _ | VObj _ | VNative _ => true
  end.

(** [Array.isArray]. *)
Definition isArray (v : Value) : bool :=
  match v with
  | VArr _ => true
  | _ => false
  end.

(** [v === undefined]. *)
Definition is_undefined (v : Value) : bool :=
  match v with
  | VUndefined => true
  | _ => false
  end.

Definition Z_to_string (z : Z) : string :=
  NilZero.string_of_int (Z.to_int z).

Definition num_to_string (n : num) : string :=
  match n with
  | Int z => Z_to_string z
  | NaN => "NaN"
  | Infinity false => "Infinity"
  | Infinity true => "-Infinity"
  end.

(** [ToString], as applied by string concatenation and by property
    access.  An array joins its elements with a comma, [null] and
    [undefined] elements giving the empty string. *)
Fixpoint toString (v : Value) : string :=
  match v with
  | VUndefined => "undefined"
  | VNull => "null"
  | VBool true => "true"
  | VBool false => "false"
  | VNum n => num_to_string n
  | VStr s => s
  | VArr items =>
      String.concat ","
        (map (fun x => match x with
                       | VUndefined | VNull => ""
                       | _ => toString x
                       end) items)
  | VObj _ => "[object Object]"
  | VNative name => "function " ++ name ++ "() { [native code] }"
  end.

(** *** Objects used as dictionaries *)

(** The members every plain object inherits from [Object.prototype]. *)
Definition Object_prototype : list string :=
  [ "constructor"; "__defineGetter__"; "__defineSetter__"; "hasOwnProperty";
    "__lookupGetter__"; "__lookupSetter__"; "isPrototypeOf";
    "propertyIsEnumerable"; "toString"; "valueOf"; "__proto__";
    "toLocaleString" ].

Definition inherited (k : string) : bool :=
  existsb (String.eqb k) Object_prototype.

Fixpoint own {A : Type} (o : list (string * A)) (k : string) : option A :=
  match o with
  | [] => None
  | (k', a) :: rest => if (k' =? k)%string then Some a else own rest k
  end.

(** The outcome of reading [o[k]] on a dictionary of [A]s. *)
Inductive Lookup (A : Type) : Type :=
| Own (a : A)
| Inherited (k : string)
| Missing.
Arguments Own {A} a.
Arguments Inherited {A} k.
Arguments Missing {A}.

Definition lookup {A : Type} (o : list (string * A)) (k : string) : Lookup A :=
  match own o k with
  | Some a => Own a
  | None => if inherited k then Inherited k else Missing
  end.

(** [o[k] = a]: an existing property keeps its place, a new one is
    appended. *)
Fixpoint set {A : Type} (o : list (string * A)) (k : string) (a : A)
  : list (string * A) :=
  match o with
  | [] => [(k, a)]
  | (k', a') :: rest =>
      if (k' =? k)%string then (k', a) :: rest else (k', a') :: set rest k a
  end.

Definition keys {A : Type} (o : list (string * A)) : list string := map fst o.
Definition values {A : Type} (o : list (string * A)) : list A := map snd o.

(** [o[k]] on an object of values. *)
Definition get (o : list (string * Value)) (k : string) : Value :=
  match lookup o k with
  | Own v => v
  | Inherited name => if (name =? "__proto__")%string then VObj [] else VNative name
  | Missing => VUndefined
  end.

(** [Array.prototype.find]. *)
Definition find {A : Type} (p : A -> bool) (l : list A) : option A :=
  List.find p l.

(** [Array.prototype.indexOf] on an array of strings. *)
Fixpoint array_indexOf_from (i : Z) (l : list string) (x : string) : Z :=
  match l with
  | [] => -1
  | y :: rest => if (y =? x)%string then i else array_indexOf_from (i + 1) rest x
  end.

Definition array_indexOf (l : list string) (x : string) : Z :=
  array_indexOf_from 0 l x.

(** [String.prototype.indexOf]: the position of the first occurrence of
    [x] as a substring of [s]. *)
Definition string_indexOf (s x : string) : Z :=
  match String.index 0 x s with
  | Some i => Z.of_nat i
  | None => -1
  end.

(** *** parseInt(s, 10) *)

Definition is_space (c : ascii) : bool :=
  let n := nat_of_ascii c in
  ((9 <=? n) && (n <=? 13))%nat || (n =? 32)%nat.

Fixpoint skip_spaces (s : string) : string :=
  match s with
  | String c rest => if is_space c then skip_spaces rest else s
  | EmptyString => s
  end.

Definition digit_of (c : ascii) : option Z :=
  let n := nat_of_ascii c in
  if ((48 <=? n) && (n <=? 57))%nat then Some (Z.of_nat (n - 48)) else None.

(** Reads the longest prefix of decimal digits; [acc] is the value read
    so far, [None] while no digit has been seen. *)
Fixpoint read_digits (acc : option Z) (s : string) : option Z :=
  match s with
  | String c rest =>
      match digit_of c with
      | Some d =>
          read_digits (Some (10 * match acc with Some a => a | None => 0 end + d)) rest
      | None => acc
      end
  | EmptyString => acc
  end.

(** The integer read is returned as a number, that is, rounded to a
    double. *)
Definition parseInt (s : string) : num :=
  let s1 := skip_spaces s in
  let '(sign, s2) :=
    match s1 with
    | String "-"%char rest => (-1, rest)
    | String "+"%char rest => (1, rest)
    | _ => (1, s1)
    end in
  match read_digits None s2 with
  | Some m => to_double (sign * m)
  | None => NaN
  end.

(** *** Property access on any value *)

Fixpoint indexed {A : Type} (i : nat) (l : list A) : list (string * A) :=
  match l with
  | [] => []
  | x :: rest => (Z_to_string (Z.of_nat i), x) :: indexed (S i) rest
  end.

(** The own enumerable properties of a value, in the order of
    [Object.keys]: those of an object, the indices of an array or of a
    string, none for the other values. *)
Definition entries (v : Value) : list (string * Value) :=
  match v with
  | VObj props => props
  | VArr items => indexed 0 items
  | VStr s => indexed 0 (map (fun c => VStr (String c EmptyString)) (list_ascii_of_string s))
  | _ => []
  end.

(** [v[k]] and [v.k] for an own property or a member of
    [Object.prototype]; [length] and the methods of arrays and strings
    read as [undefined]. *)
Definition member (v : Value) (k : string) : Value :=
  match v with
  | VUndefined | VNull => VUndefined
  | _ => get (entries v) k
  end.

(** The equality of [Set.prototype.add] (SameValueZero) on primitive
    values; two arrays or two objects are taken to be distinct
    references. *)
Definition same_value_zero (a b : Value) : bool :=
  match a, b with
  | VUndefined, VUndefined | VNull, VNull => true
  | VBool x, VBool y => Bool.eqb x y
  | VNum (Int x), VNum (Int y) => x =? y
  | VNum NaN, VNum NaN => true
  | VNum (Infinity n), VNum (Infinity m) => Bool.eqb n m
  | VStr s, VStr t => (s =? t)%string
  | _, _ => false
  end.

(** [set.add(v)] on a [Set] kept as the list of its members in
    insertion order. *)
Definition set_add (members : list Value) (v : Value) : list Value :=
  if existsb (same_value_zero v) members then members else members ++ [v].

End Js.

(* ================================================================== *)
(** ** Exceptions *)
(* ================================================================== *)

(** Modelled from the spec: the class [HttpException] of api/types is
    not among the sources; it is built from an HTTP status and a
    message, the status being what section 7 maps the error kinds to.
    Beside it stands the runtime's [TypeError], raised by a property
    read on [undefined] or [null]; its message depends on the runtime
    and is left out.  [UndefinedBinding] is the Error with which Knex
    rejects a query that has [undefined] among the values bound to its
    WHERE statements; its message, which quotes the query, is left out
    as well. *)
Inductive Exception : Type :=
| HttpException (status : Z) (message : string)
| TypeError
| UndefinedBinding.

Inductive Completion (A : Type) : Type :=
| Normal (a : A)
| Throw (e : Exception).
Arguments Normal {A} a.
Arguments Throw {A} e.

(* ================================================================== *)
(** ** Table configuration (generator/configurationTypes) *)
(* ================================================================== *)

Module Config.

(** Modelled from the spec: the declarations of api/types are not among
    the sources.  A caller is a set of roles, each with a name
    (section 6); the fields are those [hasAuthorization] reads and its
    default parameter writes. *)
Record IRole : Type := { id : Z; role_name : string }.
Record IUser : Type := { user_roles : list IRole }.

(** Modelled from the spec: the declarations of
    generator/configurationTypes are not among the sources.  The
    records below are TableConfig, ColumnConfig and RelationDeclaration
    of section 3, with the fields the code reads: the relation
    descriptor of a column (target table, key column, display column),
    its visibility flags, and the column itself. *)
Record IColumnRelation : Type :=
  { rel_table : string; rel_key : string; rel_display : string }.

Record IVisible : Type := { main : bool; detail : bool }.

Record IColumnInfo : Type :=
  { name : string;
    type : string;
    visible : IVisible;
    relation : option IColumnRelation }.

Record IChipColumn : Type := { chip_column_name : string }.
Record IChip : Type := { chip_columns : list IChipColumn }.

(** Modelled from the spec: the primary key is one column name, or an
    ordered list for a composite key (section 3). *)
Inductive PK : Type :=
| PkString (column : string)
| PkArray (columns : list string).

(** Modelled from the spec: the join-column pair of a many-to-one
    relation and the junction-table descriptor of a many-to-many
    relation (section 3), with the field names the code uses. *)
Record IManyToOneRelation : Type := { fk : string; target : string }.

Record IManyToManyRelation : Type :=
  { relationTable : string;
    foreignKey : string;
    localId : string;
    remoteTable : string;
    remoteForeignKey : string;
    remoteId : string }.

Record IRelations : Type :=
  { manyToOne : option (list (string * list IManyToOneRelation));
    manyToMany : option (list IManyToManyRelation) }.

(** Modelled from the spec: the table configuration of section 3.
    [roles] is the role list the controller passes to
    [hasAuthorization]; [chips], [relations] and [searchFields] are
    optional. *)
Record ITableInfo : Type :=
  { table_name : string;
    columns : list IColumnInfo;
    pk : PK;
    roles : option (list string);
    chips : option (list IChip);
    relations : option IRelations;
    searchFields : option (list string) }.

Inductive Target : Type := Main | Detail.

Definition visible_on (v : IVisible) (t : Target) : bool :=
  match t with
  | Main => main v
  | Detail => detail v
  end.

End Config.

(* ================================================================== *)
(** ** The Knex query builder *)
(* ================================================================== *)

Module Knex.
Import Js.

(** One call on a query builder, as the source writes it.  The suffix
    tells the shape of the arguments:
    [_object] is [.where({ [col]: v })], [_value] is [.where(col, v)],
    [_like] is [.where(col, 'like', pattern)] and [_callback] is
    [.where(function)], whose body makes the [inner] calls on the
    builder of the group. *)
Inductive Call : Type :=
| Select (cols : list string)
| From (table : string)
| Where_object (col : string) (v : Value)
| Where_value (col : string) (v : Value)
| Where_like (col : string) (pattern : string)
| Where_callback (inner : list Call)
| AndWhere_object (col : string) (v : Value)
| AndWhere_value (col : string) (v : Value)
| AndWhere_like (col : string) (pattern : string)
| AndWhere_callback (inner : list Call)
| OrWhere_like (col : string) (pattern : string)
| WhereNull (col : string)
| WhereIn (col : string) (vals : list Value)
| OrderBy_list (spec : list Value)
| OrderBy (column order : Value)
| Offset (n : num)
| Limit (n : num).

(** The builder: the calls made on it so far, oldest first. *)
Definition QueryBuilder : Type := list Call.

(** *** What Knex makes of the calls

    Every [where]-like call adds one statement to the builder, tagged
    with the connective that joins it to the statements before it.
    [andWhere] is an alias of [where]; [whereNull] and [whereIn] join
    with AND as well; only the [orWhere] family joins with OR.  A value
    of [null] in an equality turns it into an IS NULL test. *)

Inductive Connective : Type := And | Or.

Inductive Predicate : Type :=
| IsNull (col : string)
| IsIn (col : string) (vals : list Value)
| Equals (col : string) (v : Value)
| Like (col : string) (pattern : string)
| Grouped (stmts : list (Connective * Predicate)).

Definition equality (col : string) (v : Value) : Predicate :=
  match v with
  | VNull => IsNull col
  | _ => Equals col v
  end.

Fixpoint statement (c : Call) : list (Connective * Predicate) :=
  match c with
  | Where_object col v | AndWhere_object col v
  | Where_value col v | AndWhere_value col v => [(And, equality col v)]
  | Where_like col p | AndWhere_like col p => [(And, Like col p)]
  | OrWhere_like col p => [(Or, Like col p)]
  | Where_callback inner | AndWhere_callback inner =>
      [(And, Grouped (flat_map statement inner))]
  | WhereNull col => [(And, IsNull col)]
  | WhereIn col vals => [(And, IsIn col vals)]
  | Select _ | From _ | OrderBy_list _ | OrderBy _ _ | Offset _ | Limit _ => []
  end.

Definition statements (q : QueryBuilder) : list (Connective * Predicate) :=
  flat_map statement q.

(** A group of one statement is that statement in parentheses; [clauses]
    reads the statements with such parentheses dropped. *)
Definition unwrap (p : Predicate) : Predicate :=
  match p with
  | Grouped [(_, inner)] => inner
  | _ => p
  end.

Definition clauses (q : QueryBuilder) : list (Connective * Predicate) :=
  map (fun s => (fst s, unwrap (snd s))) (statements q).

(** The keyword each statement is compiled with: the first statement of
    a query follows WHERE whatever its connective, the others follow
    AND or OR. *)
Inductive Keyword : Type := WHERE | AND | OR.

Definition keyword_of (c : Connective) : Keyword :=
  match c with
  | And => AND
  | Or => OR
  end.

Definition compile_wheres (stmts : list (Connective * Predicate))
  : list (Keyword * Predicate) :=
  match stmts with
  | [] => []
  | (_, p) :: rest => (WHERE, p) :: map (fun s => (keyword_of (fst s), snd s)) rest
  end.

End Knex.

(* ================================================================== *)
(** ** The store *)
(* ================================================================== *)

(** A relational store good enough to run the queries the engine
    builds: tables are lists of rows, a row is an object.  Row order is
    the order of the table; ORDER BY is not interpreted. *)
Module Store.
Import Js Knex.

Definition Row : Type := list (string * Value).
Definition Database : Type := list (string * list Row).

(** SQL equality on the values of a column: two numbers or two strings
    are compared by value; NULL equals nothing. *)
Definition sql_eq (a b : Value) : bool :=
  match a, b with
  | VNum (Int x), VNum (Int y) => x =? y
  | VStr s, VStr t => (s =? t)%string
  | VBool x, VBool y => Bool.eqb x y
  | _, _ => false
  end.

(** LIKE with its two wildcards, [%] for any run of characters and [_]
    for any one character. *)
Fixpoint like (pattern : string) : string -> bool :=
  match pattern with
  | EmptyString => fun s => (s =? "")%string
  | String "%"%char rest =>
      fix any (s : string) : bool :=
        like rest s ||
        match s with
        | EmptyString => false
        | String _ s' => any s'
        end
  | String "_"%char rest =>
      fun s => match s with
               | EmptyString => false
               | String _ s' => like rest s'
               end
  | String c rest =>
      fun s => match s with
               | EmptyString => false
               | String d s' => Ascii.eqb c d && like rest s'
               end
  end.

(** A chain [p1 AND p2 OR p3 ...]: AND binds tighter than OR.  [cur] is
    the value of the conjunction being read. *)
Fixpoint chain (cur : bool) (l : list (Connective * bool)) : bool :=
  match l with
  | [] => cur
  | (And, b) :: rest => chain (cur && b) rest
  | (Or, b) :: rest => cur || chain b rest
  end.

(** The connective of the first statement is dropped; no statement at
    all holds of every row. *)
Definition chain_all (l : list (Connective * bool)) : bool :=
  match l with
  | [] => true
  | (_, b) :: rest => chain b rest
  end.

Fixpoint holds (row : Row) (p : Predicate) : bool :=
  match p with
  | IsNull col =>
      match get row col with
      | VNull => true
      | _ => false
      end
  | IsIn col vals => existsb (sql_eq (get row col)) vals
  | Equals col v => sql_eq (get row col) v
  | Like col pattern =>
      match get row col with
      | VStr s => like pattern s
      | VNum n => like pattern (num_to_string n)
      | _ => false
      end
  | Grouped stmts => chain_all (map (fun s => (fst s, holds row (snd s))) stmts)
  end.

Definition satisfies (stmts : list (Connective * Predicate)) (row : Row) : bool :=
  chain_all (map (fun s => (fst s, holds row (snd s))) stmts).

(** The last [from], the last non-empty [select], the last [offset] and
    [limit] of a builder. *)
Definition table_of (q : QueryBuilder) : option string :=
  fold_left (fun acc c => match c with From t => Some t | _ => acc end) q None.

Definition selection (q : QueryBuilder) : list string :=
  flat_map (fun c => match c with Select cols => cols | _ => [] end) q.

Definition offset_of (q : QueryBuilder) : option num :=
  fold_left (fun acc c => match c with Offset n => Some n | _ => acc end) q None.

Definition limit_of (q : QueryBuilder) : option num :=
  fold_left (fun acc c => match c with Limit n => Some n | _ => acc end) q None.

(** Keeps the selected columns of a row, in the order selected; an empty
    selection is [select *]. *)
Definition project (cols : list string) (row : Row) : Row :=
  match cols with
  | [] => row
  | _ => flat_map (fun c => match own row c with
                            | Some v => [(c, v)]
                            | None => []
                            end) cols
  end.

Definition window (off lim : option num) (rows : list Row) : list Row :=
  let rows :=
    match off with
    | Some (Int k) => skipn (Z.to_nat k) rows
    | _ => rows
    end in
  match lim with
  | Some (Int k) => firstn (Z.to_nat k) rows
  | _ => rows
  end.

Definition rows_of (db : Database) (t : string) : list Row :=
  match own db t with
  | Some rows => rows
  | None => []
  end.

(** Running a SELECT. *)
Definition execute (db : Database) (q : QueryBuilder) : list Row :=
  match table_of q with
  | None => []
  | Some t =>
      map (project (selection q))
        (window (offset_of q) (limit_of q)
           (filter (satisfies (statements q)) (rows_of db t)))
  end.

(** Whether [undefined] is among the values a statement binds. *)
Fixpoint binds_undefined (p : Predicate) : bool :=
  match p with
  | IsNull _ | Like _ _ => false
  | Equals _ v => is_undefined v
  | IsIn _ vals => existsb is_undefined vals
  | Grouped stmts => existsb (fun s => binds_undefined (snd s)) stmts
  end.

(** Awaiting a SELECT: Knex compiles the query first and rejects it
    when a binding is [undefined]; otherwise the query runs. *)
Definition fetch (db : Database) (q : QueryBuilder) : Completion (list Row) :=
  if existsb (fun s => binds_undefined (snd s)) (statements q)
  then Throw UndefinedBinding
  else Normal (execute db q).

(** [Promise.all] on promises that are settled: the values of all, or
    the first rejection. *)
Fixpoint all {A : Type} (promises : list (Completion A)) : Completion (list A) :=
  match promises with
  | [] => Normal []
  | Throw e :: _ => Throw e
  | Normal a :: rest =>
      match all rest with
      | Normal values => Normal (a :: values)
      | Throw e => Throw e
      end
  end.

End Store.

(* ================================================================== *)
(** ** Code that mutates a builder and may throw *)
(* ================================================================== *)

Module Effect.
Import Knex.

(** A computation over the builder [QUERY]: it returns the builder as
    it has left it, and either a result or the exception thrown. *)
Definition M (A : Type) : Type := QueryBuilder -> QueryBuilder * Completion A.

Definition ret {A : Type} (a : A) : M A := fun q => (q, Normal a).

Definition bind {A B : Type} (m : M A) (k : A -> M B) : M B :=
  fun q =>
    match m q with
    | (q', Normal a) => k a q'
    | (q', Throw e) => (q', Throw e)
    end.

Definition throw {A : Type} (e : Exception) : M A := fun q => (q, Throw e).

(** A method call on the builder. *)
Definition call (c : Call) : M unit := fun q => (q ++ [c], Normal tt).

(** [array.forEach((x, index) => body)], from [index] on; a throw in
    the body leaves the loop. *)
Fixpoint forEach_from {A : Type} (index : nat) (body : A -> nat -> M unit)
  (l : list A) : M unit :=
  match l with
  | [] => ret tt
  | x :: rest => bind (body x index) (fun _ => forEach_from (S index) body rest)
  end.

Definition forEach {A : Type} (l : list A) (body : A -> nat -> M unit) : M unit :=
  forEach_from 0 body l.

End Effect.

Declare Scope effect_scope.
Delimit Scope effect_scope with effect.
Notation "x <- m ;; k" := (Effect.bind m (fun x => k))
  (at level 61, m at next level, right associativity) : effect_scope.
Notation "m ;; k" := (Effect.bind m (fun _ => k))
  (at level 61, right associativity) : effect_scope.

(* ================================================================== *)
(** ** api/utils/index.ts *)
(* ================================================================== *)

Module Utils.
Import Js Config Knex Effect.
Local Open Scope effect_scope.

(** The default of the [user] parameter. *)
Definition unauthenticated : IUser :=
  {| user_roles := [ {| id := 0; role_name := "unauthenticated" |} ] |}.

(** [roles] may be absent; [user] is [None] when the caller passes
    [undefined], which selects the default parameter.  [find] returns
    the role it found, a string, and [!!] tests that string. *)
Definition hasAuthorization (roles : option (list string)) (user : option IUser)
  : bool :=
  let user := match user with Some u => u | None => unauthenticated end in
  let isAuthorized := true in
  match roles with
  | Some ((_ :: _) as roles) =>
      match find (fun role =>
                    if (role =? "all")%string then true
                    else match find (fun userRole => (role_name userRole =? role)%string)
                                 (user_roles user) with
                         | Some _ => true
                         | None => false
                         end) roles with
      | Some role => string_truthy role
      | None => false
      end
  | _ => isAuthorized
  end.

(** [toKeep[name]] read as a condition. *)
Definition kept (toKeep : list (string * bool)) (k : string) : bool :=
  match lookup toKeep k with
  | Own b => b
  | Inherited _ => true
  | Missing => false
  end.

(** [table.pk.indexOf(name)]: a substring search when the key is one
    string, a search for an equal element when it is a list. *)
Definition pk_indexOf (pk : PK) (x : string) : Z :=
  match pk with
  | PkString s => string_indexOf s x
  | PkArray l => array_indexOf l x
  end.

Definition filterVisibleTableColumns (table : ITableInfo) (target : Target)
  : list string :=
  let toKeep : list (string * bool) :=
    match chips table, target with
    | Some chips, Main =>
        fold_left
          (fun toKeep chip =>
             fold_left (fun toKeep column => set toKeep (chip_column_name column) true)
               (chip_columns chip) toKeep)
          chips []
    | _, _ => []
    end in
  map name
    (filter (fun column =>
               visible_on (visible column) target
               || (0 <=? pk_indexOf (pk table) (name column))
               || kept toKeep (name column))
       (columns table)).

Definition getColumnsByName (TABLE_CONFIG : ITableInfo)
  : list (string * IColumnInfo) :=
  fold_left (fun columnsByName column => set columnsByName (name column) column)
    (columns TABLE_CONFIG) [].

Definition getColumnsWithRelations (TABLE_CONFIG : ITableInfo)
  : list IColumnInfo :=
  filter (fun column => match relation column with
                        | Some _ => true
                        | None => false
                        end) (columns TABLE_CONFIG).

(** [columnsByName[key].type]: the type of a declared column,
    [undefined] ([None]) on an inherited member, and a [TypeError] when
    [columnsByName[key]] is [undefined]. *)
Definition read_type (columnsByName : list (string * IColumnInfo)) (key : string)
  : M (option string) :=
  match lookup columnsByName key with
  | Own column => ret (Some (type column))
  | Inherited _ => ret None
  | Missing => throw TypeError
  end.

Definition type_is (t : option string) (expected : string) : bool :=
  match t with
  | Some t => (t =? expected)%string
  | None => false
  end.

(** The callback [applyQueryFilters] runs on each key of the filter
    object. *)
Definition applyQueryFilters_entry (columnsByName : list (string * IColumnInfo))
  (FILTERS : list (string * Value)) (key : string) (index : nat) : M unit :=
  t <- read_type columnsByName key ;;
  if type_is t "int(11)" || type_is t "smallint(5)" || type_is t "datetime"
  then
    if (index =? 0)%nat then
      match get FILTERS key with
      | VNull => call (WhereNull key)
      | VArr items => call (WhereIn key items)
      | v => call (Where_object key v)
      end
    else
      match get FILTERS key with
      | VNull => call (AndWhere_callback [WhereNull key])
      | VArr items => call (WhereIn key items)
      | v => call (AndWhere_object key v)
      end
  else
    if (index =? 0)%nat then
      match get FILTERS key with
      | VNull => call (WhereNull key)
      | VArr items => call (WhereIn key items)
      | v => call (Where_like key ("%" ++ toString v ++ "%"))
      end
    else
      match get FILTERS key with
      | VNull => call (AndWhere_callback [WhereNull key])
      | VArr items => call (WhereIn key items)
      | v => call (AndWhere_like key ("%" ++ toString v ++ "%"))
      end.

(** [FILTERS] is the filter object, after [JSON.parse] when the request
    carried it as text. *)
Definition applyQueryFilters (QUERY : QueryBuilder)
  (FILTERS : list (string * Value)) (TABLE_CONFIG : ITableInfo)
  : QueryBuilder * Completion unit :=
  let columnsByName := getColumnsByName TABLE_CONFIG in
  forEach (keys FILTERS) (applyQueryFilters_entry columnsByName FILTERS) QUERY.

Definition applyQuerySearch (QUERY : QueryBuilder) (search : string)
  (TABLE_CONFIG : ITableInfo) : QueryBuilder :=
  let searchFields :=
    match searchFields TABLE_CONFIG with
    | Some fields => fields
    | None => []
    end in
  let this :=
    fst (forEach searchFields
           (fun searchField index =>
              if (index =? 0)%nat
              then call (Where_like searchField ("%" ++ search ++ "%"))
              else call (OrWhere_like searchField ("%" ++ search ++ "%")))
           []) in
  QUERY ++ [Where_callback this].

(** The part of [req.query] the engine reads. *)
Inductive PageParam : Type :=
| P_undefined
| P_string (s : string)
| P_number (n : num).

Record ReqQuery : Type :=
  { filter : option (list (string * Value));
    search : option string;
    order : option Value;
    page : PageParam;
    limit : PageParam }.

Definition applyQueryFiltersSearch (DB_QUERY : QueryBuilder) (reqQuery : ReqQuery)
  (TABLE_CONFIG : ITableInfo) : QueryBuilder * Completion unit :=
  (match filter reqQuery with
   | Some FILTERS => fun q => applyQueryFilters q FILTERS TABLE_CONFIG
   | None => ret tt
   end ;;
   match search reqQuery with
   | Some s =>
       if string_truthy s
       then fun q => (applyQuerySearch q s TABLE_CONFIG, Normal tt)
       else ret tt
   | None => ret tt
   end) DB_QUERY.

(** The body of the loop of [applyPKFilters], for the key at [index]. *)
Definition applyPKFilters_key (TABLE_CONFIG : ITableInfo)
  (columnsByName : list (string * IColumnInfo)) (body_pk : list (string * Value))
  (key : string) (index : nat) : M unit :=
  let valid :=
    match pk TABLE_CONFIG with
    | PkArray l => negb (array_indexOf l key =? -1)
    | PkString s => (s =? key)%string
    end in
  if negb valid
  then throw (HttpException 412 ("Primary key " ++ key ++ " missing on table"))
  else
    t <- read_type columnsByName key ;;
    if type_is t "int(11)" then
      if (index =? 0)%nat
      then call (Where_object key (get body_pk key))
      else call (AndWhere_object key (get body_pk key))
    else
      if (index =? 0)%nat
      then call (Where_like key ("%" ++ toString (get body_pk key) ++ "%"))
      else call (AndWhere_like key ("%" ++ toString (get body_pk key) ++ "%")).

(** [body_pk] is [body.pk], the object of the submitted key columns. *)
Definition applyPKFilters (QUERY : QueryBuilder) (body_pk : list (string * Value))
  (TABLE_CONFIG : ITableInfo) : QueryBuilder * Completion unit :=
  let PKS := keys body_pk in
  (match pk TABLE_CONFIG with
   | PkString _ =>
       if negb (List.length PKS =? 1)%nat
       then throw (HttpException 412 "Incorrect set of primary keys")
       else ret tt
   | PkArray _ => ret tt
   end ;;
   match pk TABLE_CONFIG with
   | PkArray l =>
       if negb (List.length l =? List.length PKS)%nat
       then throw (HttpException 412 "Incorrect set of primary keys")
       else ret tt
   | PkString _ => ret tt
   end ;;
   let columnsByName := getColumnsByName TABLE_CONFIG in
   forEach PKS (applyPKFilters_key TABLE_CONFIG columnsByName body_pk))
    QUERY.

End Utils.

(** The earlier revision of the same file (src/api/utils/index.ts). *)
Module UtilsIndexTs.
Import Js Config.

Definition hasAuthorization (tableRoles : option (list string))
  (user : option IUser) : bool :=
  let user := match user with Some u => u | None => Utils.unauthenticated end in
  let isAuthorized : option string :=
    match tableRoles with
    | Some ((_ :: _) as tableRoles) =>
        find (fun tableRole =>
                if (tableRole =? "all")%string then true
                else
                  let userHasAuthorization :=
                    find (fun userRole => (role_name userRole =? tableRole)%string)
                      (user_roles user) in
                  match userHasAuthorization with
                  | Some _ => true
                  | None => false
                  end) tableRoles
    | _ => Some "true"
    end in
  match isAuthorized with
  | Some s => if string_truthy s then true else false
  | None => false
  end.

End UtilsIndexTs.

(* ================================================================== *)
(** ** The table controller *)
(* ================================================================== *)

Module TableController.
Import Js Config Knex Store Effect Utils.
Local Open Scope effect_scope.

(** [if (page)] and [if (limit)]. *)
Definition param_truthy (p : PageParam) : bool :=
  match p with
  | P_undefined => false
  | P_string s => string_truthy s
  | P_number n => num_truthy n
  end.

(** [typeof p === 'string' ? parseInt(p, 10) : p], for a truthy [p]. *)
Definition param_number (p : PageParam) (otherwise : num) : num :=
  match p with
  | P_string s => parseInt s
  | P_number n => n
  | P_undefined => otherwise
  end.

Definition paginate (query : QueryBuilder) (page limit : PageParam)
  : QueryBuilder :=
  let LIMIT := Int 10 in
  let PAGE_NUMBER := Int 0 in
  let PAGE_NUMBER :=
    if param_truthy page then param_number page PAGE_NUMBER else PAGE_NUMBER in
  let LIMIT :=
    if param_truthy limit then param_number limit LIMIT else LIMIT in
  if num_gt0 LIMIT
  then query ++ [Offset (num_mul PAGE_NUMBER LIMIT); Limit LIMIT]
  else query.

(** The merge of a before-hook's filter into the query, as
    [getTableData] and [getDistinctTableData] both write it. *)
Definition mergeHookFilter (QUERY : QueryBuilder) (hookResult : Value)
  : QueryBuilder :=
  if truthy hookResult then
    if truthy (member hookResult "filter") then
      fold_left
        (fun QUERY column =>
           match member (member hookResult "filter") column with
           | VArr items => QUERY ++ [WhereIn column items]
           | _ => QUERY
           end)
        (keys (entries (member hookResult "filter")))
        QUERY
    else QUERY
  else QUERY.

(** The query [getTableData] builds once the before-hook has resolved
    with [hookResult].  [order] is the order specification after
    [JSON.parse]. *)
Definition getTableData_query (TABLE_CONFIG : ITableInfo) (req_query : ReqQuery)
  (hookResult : Value) : QueryBuilder * Completion unit :=
  let TABLE_NAME := table_name TABLE_CONFIG in
  let COLUMNS := filterVisibleTableColumns TABLE_CONFIG Main in
  ((fun QUERY => applyQueryFiltersSearch QUERY req_query TABLE_CONFIG) ;;
   match order req_query with
   | Some (VArr items) => call (OrderBy_list items)
   | Some VNull => throw TypeError
   | Some ORDER_OBJ =>
       call (OrderBy (member ORDER_OBJ "column") (member ORDER_OBJ "order"))
   | None => ret tt
   end ;;
   (fun QUERY => (paginate QUERY (page req_query) (limit req_query), Normal tt)) ;;
   (fun QUERY => (mergeHookFilter QUERY hookResult, Normal tt)))
    [Select COLUMNS; From TABLE_NAME].

(** *** Verbose substitution *)

Record IToRequestItem : Type :=
  { values : list Value;
    key : string;
    display : string;
    foreignKeyColumn : string }.

Definition toRequestBuilder (relation : IColumnRelation) (columnName : string)
  : IToRequestItem :=
  {| values := [];
     key := rel_key relation;
     display := rel_display relation;
     foreignKeyColumn := columnName |}.

Definition add_value (item : IToRequestItem) (v : Value) : IToRequestItem :=
  {| values := set_add (values item) v;
     key := key item;
     display := display item;
     foreignKeyColumn := foreignKeyColumn item |}.

(** The body of the inner loop of the first pass: one column of one
    row.  [toRequest] is keyed by the name of the related table. *)
Definition request_column (row : Row) (toRequest : list (string * IToRequestItem))
  (column : IColumnInfo) : Completion (list (string * IToRequestItem)) :=
  match relation column with
  | None => Throw (HttpException 500 "Column should have a relation")
  | Some rel =>
      let RELATION_TABLE_NAME := rel_table rel in
      match lookup toRequest RELATION_TABLE_NAME with
      | Missing =>
          Normal (set toRequest RELATION_TABLE_NAME
                    (add_value (toRequestBuilder rel (name column))
                       (get row (name column))))
      | Own item =>
          Normal (set toRequest RELATION_TABLE_NAME
                    (add_value item (get row (name column))))
      | Inherited _ => Throw TypeError
      end
  end.

Fixpoint request_columns (row : Row) (toRequest : list (string * IToRequestItem))
  (cols : list IColumnInfo) : Completion (list (string * IToRequestItem)) :=
  match cols with
  | [] => Normal toRequest
  | column :: rest =>
      match request_column row toRequest column with
      | Normal toRequest => request_columns row toRequest rest
      | Throw e => Throw e
      end
  end.

Fixpoint request_rows (results : list Row) (toRequest : list (string * IToRequestItem))
  (cols : list IColumnInfo) : Completion (list (string * IToRequestItem)) :=
  match results with
  | [] => Normal toRequest
  | row :: rest =>
      match request_columns row toRequest cols with
      | Normal toRequest => request_rows rest toRequest cols
      | Throw e => Throw e
      end
  end.

(** [MATCHER[column][value]] for a column the second pass has set. *)
Definition matcher_read (MATCHER : list (string * list (string * Value)))
  (column : string) (v : Value) : Value :=
  match own MATCHER column with
  | Some displays => get displays (toString v)
  | None => VUndefined
  end.

Definition addVerboseRelatedData (results : list Row) (TABLE_CONFIG : ITableInfo)
  (DB : Database) : Completion (list Row) :=
  let COLUMNS_WITH_RELATIONS := getColumnsWithRelations TABLE_CONFIG in
  match request_rows results [] COLUMNS_WITH_RELATIONS with
  | Throw e => Throw e
  | Normal toRequest =>
      let relationQueries :=
        map (fun entry =>
               let tableName := fst entry in
               let item := snd entry in
               [Select [display item; key item]; From tableName;
                WhereIn (key item) (values item)])
          toRequest in
      match all (map (fetch DB) relationQueries) with
      | Throw e => Throw e
      | Normal relationResults =>
          let MATCHER :=
            fold_left
              (fun MATCHER pair =>
                 let requestedTable := fst pair in
                 let FOREIGN_KEY_COLUMN := foreignKeyColumn requestedTable in
                 fold_left
                   (fun MATCHER relationRow =>
                      let CURRENT_VALUE := get relationRow (key requestedTable) in
                      let VALUE_TO_DISPLAY := get relationRow (display requestedTable) in
                      match own MATCHER FOREIGN_KEY_COLUMN with
                      | Some displays =>
                          set MATCHER FOREIGN_KEY_COLUMN
                            (set displays (toString CURRENT_VALUE) VALUE_TO_DISPLAY)
                      | None => MATCHER
                      end)
                   (snd pair)
                   (set MATCHER FOREIGN_KEY_COLUMN []))
              (combine (Js.values toRequest) relationResults)
              [] in
          Normal
            (map (fun row =>
                    fold_left
                      (fun row requestedTable =>
                         let ROW_KEY := foreignKeyColumn requestedTable in
                         set row ROW_KEY (matcher_read MATCHER ROW_KEY (get row ROW_KEY)))
                      (Js.values toRequest) row)
               results)

      end
  end.

(** *** Relation expansion *)

(** [database] is the [db] field of the process-wide connection, [None]
    while there is no connection.  The result is what [Promise.all]
    gives on the queries of the relations: each query resolves to the
    pair of the remote table's name and the rows it resolved to, and is
    rejected when the parent row has no value under the local id or a
    junction row has none under the remote foreign key. *)
Definition getManyToManyRelationQueries (database : option Database)
  (TABLE_CONFIG : ITableInfo) (parentData : Row)
  : Completion (list (string * list Row)) :=
  match relations TABLE_CONFIG with
  | Some rels =>
      match manyToMany rels with
      | Some declared =>
          match database with
          | None => Throw (HttpException 500 "No database")
          | Some DB =>
              all
                (map (fun relation =>
                        match fetch DB
                                [From (relationTable relation); Select [];
                                 Where_value (foreignKey relation)
                                   (get parentData (localId relation))] with
                        | Throw e => Throw e
                        | Normal relationResult =>
                            let relationRemoteIds :=
                              map (fun relationRow =>
                                     get relationRow (remoteForeignKey relation))
                                relationResult in
                            match fetch DB
                                    [From (remoteTable relation); Select [];
                                     WhereIn (remoteId relation) relationRemoteIds] with
                            | Throw e => Throw e
                            | Normal remote => Normal (remoteTable relation, remote)
                            end
                        end)
                   declared)
          end
      | None => Normal []
      end
  | None => Normal []
  end.

Record IRelatedRows : Type := { tableName : string; related : list Row }.

Definition rows_value (rows : list Row) : Value := VArr (map VObj rows).

Definition mergeRelatedData (results : Row) (manyToOneRelations : list IRelatedRows)
  (manyToManyRelations : list (string * list Row)) : Row :=
  let results :=
    fold_left (fun results relation =>
                 set results (tableName relation) (rows_value (related relation)))
      manyToOneRelations results in
  fold_left (fun results pair =>
               let verbose := fst pair in
               let relationsData := snd pair in
               set results verbose (rows_value relationsData))
    manyToManyRelations results.

End TableController.

(* ================================================================== *)
(** ** The specification's reading of the predicates *)
(* ================================================================== *)

(** What the specification says a filter entry and a primary-key column
    contribute, written from its words (sections 4.2 and 4.4) to be
    compared with what the code builds. *)
Module Spec.
Import Js Config Knex.

(** The column a name resolves to: the column of that name declared
    last. *)
Definition declared_column (TABLE_CONFIG : ITableInfo) (k : string)
  : option IColumnInfo :=
  List.find (fun c => (name c =? k)%string) (rev (columns TABLE_CONFIG)).

Definition storage_type (TABLE_CONFIG : ITableInfo) (k : string) : option string :=
  option_map type (declared_column TABLE_CONFIG k).

Definition numeric_or_temporal (t : option string) : bool :=
  match t with
  | Some t => existsb (String.eqb t) ["int(11)"; "smallint(5)"; "datetime"]
  | None => false
  end.

Definition integer_like (t : option string) : bool :=
  match t with
  | Some t => (t =? "int(11)")%string
  | None => false
  end.

(** Section 4.2: IS NULL for null, IN for a list, else equality on a
    numeric or temporal column and a substring match on any other. *)
Definition filter_predicate (t : option string) (col : string) (v : Value)
  : Predicate :=
  match v with
  | VNull => IsNull col
  | VArr items => IsIn col items
  | _ =>
      if numeric_or_temporal t
      then Equals col v
      else Like col ("%" ++ toString v ++ "%")
  end.

(** Section 4.4: exact match on an integer-like column, substring
    pattern on any other. *)
Definition pk_predicate (t : option string) (col : string) (v : Value)
  : Predicate :=
  if integer_like t
  then equality col v
  else Like col ("%" ++ toString v ++ "%").

(** The first predicate attaches directly, the others as AND-conjuncts. *)
Definition conjunction (preds : list Predicate) : list (Keyword * Predicate) :=
  match preds with
  | [] => []
  | p :: rest => (WHERE, p) :: map (fun p => (AND, p)) rest
  end.

(** The declared key columns and their number. *)
Definition pk_columns (pk : PK) : list string :=
  match pk with
  | PkString s => [s]
  | PkArray l => l
  end.

Definition pk_cardinality (pk : PK) : nat := List.length (pk_columns pk).

End Spec.

(* ================================================================== *)
(** ** Definitions used in the statements *)
(* ================================================================== *)

Import Js Config Knex Store Effect Utils TableController.

(** The role names of the caller, the default user standing in for an
    absent one. *)
Definition caller_roles (user : option IUser) : list string :=
  map role_name (user_roles (match user with Some u => u | None => unauthenticated end)).

(** The limit [paginate] works with: the one given when it is truthy,
    read by [parseInt] when it is a string, and 10 otherwise. *)
Definition resolved_limit (limit : PageParam) : num :=
  if param_truthy limit then param_number limit (Int 10) else Int 10.

(** Columns shown nowhere, and columns shown everywhere. *)
Definition hidden : IVisible := {| main := false; detail := false |}.

(** A table whose composite key is hidden on both pages. *)
Definition products : ITableInfo :=
  {| table_name := "products";
     columns :=
       [ {| name := "id"; type := "int(11)"; visible := hidden; relation := None |};
         {| name := "sku"; type := "varchar(255)"; visible := hidden; relation := None |};
         {| name := "label"; type := "varchar(255)";
            visible := {| main := true; detail := true |}; relation := None |} ];
     pk := PkArray ["id"; "sku"];
     roles := Some ["all"];
     chips := None;
     relations := None;
     searchFields := None |}.

(** A filter key resolves when [columnsByName[key]] is not [undefined]:
    the key names a declared column or a member of [Object.prototype]. *)
Definition resolves (TABLE_CONFIG : ITableInfo) (k : string) : bool :=
  existsb (fun c => (name c =? k)%string) (columns TABLE_CONFIG) || inherited k.

(** A table with columns of the numeric, temporal and text kinds, and
    a filter on it whose last key names no column. *)
Definition orders : ITableInfo :=
  {| table_name := "orders";
     columns :=
       [ {| name := "id"; type := "int(11)"; visible := hidden; relation := None |};
         {| name := "placed"; type := "datetime"; visible := hidden; relation := None |};
         {| name := "status"; type := "varchar(255)"; visible := hidden;
            relation := None |};
         {| name := "note"; type := "text"; visible := hidden; relation := None |} ];
     pk := PkString "id";
     roles := None;
     chips := None;
     relations := None;
     searchFields := None |}.

Definition orders_filter : list (string * Value) :=
  [ ("status", VStr "open");
    ("id", VArr [VNum (Int 1); VNum (Int 2)]);
    ("placed", VNull);
    ("note", VNull);
    ("status2", VStr "closed") ].

(** The validity test of the loop: the key is one of the declared key
    columns. *)
Definition key_declared (pk : PK) (key : string) : bool :=
  match pk with
  | PkArray l => negb (array_indexOf l key =? -1)
  | PkString s => (s =? key)%string
  end.

(** A table with the composite key [a, b]. *)
Definition pairs : ITableInfo :=
  {| table_name := "pairs";
     columns :=
       [ {| name := "a"; type := "int(11)"; visible := hidden; relation := None |};
         {| name := "b"; type := "varchar(32)"; visible := hidden; relation := None |};
         {| name := "c"; type := "varchar(32)"; visible := hidden; relation := None |} ];
     pk := PkArray ["a"; "b"];
     roles := None;
     chips := None;
     relations := None;
     searchFields := None |}.

(** What one entry of a hook's filter adds to the query: an IN predicate
    when its value is a list, nothing otherwise. *)
Definition hook_entry_calls (entry : string * Value) : list Call :=
  match snd entry with
  | VArr items => [WhereIn (fst entry) items]
  | _ => []
  end.

Definition hook_entry_clauses (entry : string * Value)
  : list (Connective * Predicate) :=
  match snd entry with
  | VArr items => [(And, IsIn (fst entry) items)]
  | _ => []
  end.

(** A request without filter, search, order, page or limit. *)
Definition no_params : ReqQuery :=
  {| filter := None; search := None; order := None;
     page := P_undefined; limit := P_undefined |}.

(** Products and their tags, joined by [product_tag]. *)
Definition catalogue : Database :=
  [ ("product_tag",
     [ [("product_id", VNum (Int 1)); ("tag_id", VNum (Int 9))];
       [("product_id", VNum (Int 2)); ("tag_id", VNum (Int 11))];
       [("product_id", VNum (Int 1)); ("tag_id", VNum (Int 10))] ]);
    ("tags",
     [ [("id", VNum (Int 9)); ("label", VStr "new")];
       [("id", VNum (Int 10)); ("label", VStr "sale")];
       [("id", VNum (Int 11)); ("label", VStr "used")] ]) ].

Definition product_tags : IManyToManyRelation :=
  {| relationTable := "product_tag";
     foreignKey := "product_id";
     localId := "id";
     remoteTable := "tags";
     remoteForeignKey := "tag_id";
     remoteId := "id" |}.

Definition tagged_products : ITableInfo :=
  {| table_name := "products";
     columns :=
       [ {| name := "id"; type := "int(11)"; visible := hidden; relation := None |} ];
     pk := PkString "id";
     roles := None;
     chips := None;
     relations := Some {| manyToOne := None; manyToMany := Some [product_tags] |};
     searchFields := None |}.

Definition shown : IVisible := {| main := true; detail := true |}.

(** Books with a category, and a store holding categories and users. *)
Definition books : ITableInfo :=
  {| table_name := "books";
     columns :=
       [ {| name := "id"; type := "int(11)"; visible := shown; relation := None |};
         {| name := "categoryId"; type := "int(11)"; visible := shown;
            relation := Some {| rel_table := "categories"; rel_key := "id";
                                rel_display := "name" |} |} ];
     pk := PkString "id";
     roles := None;
     chips := None;
     relations := None;
     searchFields := None |}.

Definition library : Database :=
  [ ("categories", [ [("id", VNum (Int 5)); ("name", VStr "Books")];
                     [("id", VNum (Int 6)); ("name", VStr "Maps")] ]);
    ("users", [ [("id", VNum (Int 1)); ("name", VStr "Ann")];
                [("id", VNum (Int 2)); ("name", VStr "Bob")] ]) ].

(** A table with two columns that relate to the same table. *)
Definition posts : ITableInfo :=
  {| table_name := "posts";
     columns :=
       [ {| name := "id"; type := "int(11)"; visible := shown; relation := None |};
         {| name := "author"; type := "int(11)"; visible := shown;
            relation := Some {| rel_table := "users"; rel_key := "id";
                                rel_display := "name" |} |};
         {| name := "editor"; type := "int(11)"; visible := shown;
            relation := Some {| rel_table := "users"; rel_key := "id";
                                rel_display := "name" |} |} ];
     pk := PkString "id";
     roles := None;
     chips := None;
     relations := None;
     searchFields := None |}.

(** A loop body attaches exactly one call for [x], whose clause is
    [stmt x], whatever the index and the builder. *)
Definition attaches_one {A : Type} (body : A -> nat -> M unit)
  (stmt : A -> Connective * Predicate) (x : A) : Prop :=
  forall index q, exists c,
    body x index q = (q ++ [c], Normal tt) /\ clauses [c] = [stmt x].

(** The predicate of section 4.4 for a submitted key. *)
Definition pk_clause (TABLE_CONFIG : ITableInfo) (body_pk : list (string * Value))
  (k : string) : Predicate :=
  Spec.pk_predicate (Spec.storage_type TABLE_CONFIG k) k (get body_pk k).

(** Verbose substitution on a table with a single relation column [c]
    of relation [rel]: the keys collected from the rows, the related
    rows fetched for them, and the display value recorded for each key. *)
Definition collected_keys (c : string) (results : list Row) : list Value :=
  fold_left set_add (map (fun row => get row c) results) [].

Definition fetched_rows (DB : Database) (rel : IColumnRelation) (c : string)
  (results : list Row) : list Row :=
  execute DB
    [Select [rel_display rel; rel_key rel]; From (rel_table rel);
     WhereIn (rel_key rel) (collected_keys c results)].

Definition display_map (rel : IColumnRelation) (rows : list Row)
  : list (string * Value) :=
  fold_left (fun displays r =>
               set displays (toString (get r (rel_key rel))) (get r (rel_display rel)))
    rows [].

(* ================================================================== *)
(** ** The rest of api/utils/index.ts *)
(* ================================================================== *)

Module UtilsRest.
Import Js Config Knex Store Effect Utils.

(** What a handler reads of the request: the table named in the path,
    the query string, the key submitted in the body ([None] when the
    body has no [pk]), and the session user. *)
Record IMCRequest : Type :=
  { params_table : string;
    query : ReqQuery;
    query_columns : list string;
    query_friendlyData : bool;
    query_includeRelations : bool;
    body_pk : option (list (string * Value));
    user : option IUser }.

(** Modelled from the spec: a hook is an opaque callable (section 6); it
    is applied to the request, the store handle, the table's name and
    the data at hand, and resolves to a value or fails.  The response
    object it is also passed is left out. *)
Definition Callable : Type :=
  IMCRequest -> Database -> string -> Value -> Completion Value.

Record IHook : Type := { before : option Callable; after : option Callable }.

(** Modelled from the spec: a table configuration together with its
    optional hook map, keyed by operation name (section 3). *)
Record ITable : Type :=
  { info : ITableInfo;
    hooks : option (list (string * IHook)) }.

Inductive Instance : Type := Before | After.

(** [results.length]. *)
Definition length_of (results : Value) : Completion Value :=
  match results with
  | VUndefined | VNull => Throw TypeError
  | VArr items => Normal (VNum (Int (Z.of_nat (List.length items))))
  | VStr s => Normal (VNum (Int (Z.of_nat (String.length s))))
  | _ => Normal VUndefined
  end.

Definition runHook (TABLE : ITable) (hook : string) (instance : Instance)
  (req : IMCRequest) (databaseTnstance : option Database) (results : Value)
  : Completion Value :=
  let otherwise :=
    if (hook =? "getTableCount")%string then length_of results else Normal results in
  match hooks TABLE with
  | Some declared =>
      match lookup declared hook with
      | Own HOOK =>
          match databaseTnstance,
                match instance with Before => before HOOK | After => after HOOK end
          with
          | Some db, Some CALLER =>
              CALLER req db (table_name (info TABLE)) results
          | _, _ => otherwise
          end
      | Inherited _ | Missing => otherwise
      end
  | None => otherwise
  end.

(** [settings] is [config().settings]; the result is [None] when the
    filtered list is empty and its element 0 is [undefined]. *)
Definition getTableConfig (settings : list ITable) (TABLE_NAME : string)
  : option ITable :=
  hd_error
    (List.filter (fun tableItem => (table_name (info tableItem) =? TABLE_NAME)%string)
       settings).

(** [res] is [None] when the response object is missing; [res.data]
    is kept as an object, empty while it is [undefined]. *)
Definition addToResponse (res : option (list (string * Value))) (target : string)
  (data : Value) : Completion (list (string * Value)) :=
  match res with
  | Some res_data => Normal (set res_data target data)
  | None => Throw (HttpException 500 "Response object not valid")
  end.

Definition isNull (val : Value) : bool :=
  match val with
  | VStr s => (s =? "")%string
  | VUndefined | VNull => true
  | _ => false
  end.

End UtilsRest.

(** The functions of the earlier revision (src/api/utils/index.ts) that
    the later one rewrote. *)
Module UtilsIndexTsRest.
Import Js Config Knex Effect Utils.
Local Open Scope effect_scope.

(** [column.name === table.pk] is false of a key given as a list. *)
Definition filterVisibleTableColumns (table : ITableInfo) (target : Target)
  : list string :=
  let toKeep : list (string * bool) :=
    match chips table with
    | Some chips =>
        fold_left
          (fun toKeep chip =>
             fold_left (fun toKeep column => set toKeep (chip_column_name column) true)
               (chip_columns chip) toKeep)
          chips []
    | None => []
    end in
  map name
    (List.filter
       (fun column =>
          visible_on (visible column) target
          || match pk table with
             | PkString s => (name column =? s)%string
             | PkArray _ => false
             end
          || kept toKeep (name column))
       (columns table)).

Definition applyQueryFilters_entry (columnsByName : list (string * IColumnInfo))
  (FILTERS : list (string * Value)) (key : string) (index : nat) : M unit :=
  t <- read_type columnsByName key ;;
  if type_is t "int(11)" then
    if (index =? 0)%nat
    then call (Where_object key (get FILTERS key))
    else call (AndWhere_object key (get FILTERS key))
  else
    if (index =? 0)%nat
    then call (Where_like key ("%" ++ toString (get FILTERS key) ++ "%"))
    else call (AndWhere_like key ("%" ++ toString (get FILTERS key) ++ "%")).

(** [FILTERS] is [JSON.parse(filters)]. *)
Definition applyQueryFilters (QUERY : QueryBuilder)
  (FILTERS : list (string * Value)) (TABLE_CONFIG : ITableInfo)
  : QueryBuilder * Completion unit :=
  let columnsByName := getColumnsByName TABLE_CONFIG in
  forEach (keys FILTERS) (applyQueryFilters_entry columnsByName FILTERS) QUERY.

End UtilsIndexTsRest.

(* ================================================================== *)
(** ** The table controller: many-to-one relations *)
(* ================================================================== *)

Module Relations.
Import Js Config Knex Store Effect Utils TableController.
Local Open Scope effect_scope.

(** [parentData[k]], where [parentData] is the row found, or [undefined]
    when the key matched no row. *)
Definition parent_field (parentData : Value) (k : string) : Completion Value :=
  match parentData with
  | VUndefined | VNull => Throw TypeError
  | _ => Normal (member parentData k)
  end.

(** The columns [getRelatedRow] asks for: those shown on the detail
    page, less every column whose name occurs in the name of a join
    column ([relatedData.fk.indexOf(column) >= 0] on strings). *)
Definition requestedColumns (TABLE_CONFIG : ITableInfo)
  (columnNames : list IManyToOneRelation) : list string :=
  List.filter
    (fun column =>
       negb match find (fun relatedData => 0 <=? string_indexOf (fk relatedData) column)
                    columnNames with
            | Some _ => true
            | None => false
            end)
    (filterVisibleTableColumns TABLE_CONFIG Detail).

(** The callback of the loop over the join columns. *)
Definition getRelatedRow_where (parentData : Value) (columnName : IManyToOneRelation)
  (index : nat) : M unit :=
  fun QUERY =>
    match parent_field parentData (target columnName) with
    | Throw e => (QUERY, Throw e)
    | Normal v =>
        if (index =? 0)%nat
        then call (Where_value (fk columnName) v) QUERY
        else call (AndWhere_value (fk columnName) v) QUERY
    end.

(** [database] is [database.db] and [settings] is [config().settings]. *)
Definition getRelatedRow (database : option Database)
  (settings : list UtilsRest.ITable) (tableName : string)
  (columnNames : list IManyToOneRelation) (parentData : Value)
  : Completion IRelatedRows :=
  match database with
  | None => Throw (HttpException 500 "No database")
  | Some db =>
      match UtilsRest.getTableConfig settings tableName with
      | None => Throw TypeError
      | Some TABLE =>
          let TABLE_CONFIG := UtilsRest.info TABLE in
          let QUERY := [Select (requestedColumns TABLE_CONFIG columnNames); From tableName] in
          match forEach columnNames (getRelatedRow_where parentData) QUERY with
          | (QUERY, Normal _) =>
              match fetch db QUERY with
              | Normal results => Normal {| tableName := tableName; related := results |}
              | Throw e => Throw e
              end
          | (_, Throw e) => Throw e
          end
      end
  end.

Fixpoint all_related (queries : list (Completion IRelatedRows))
  : Completion (list IRelatedRows) :=
  match queries with
  | [] => Normal []
  | Throw e :: _ => Throw e
  | Normal r :: rest =>
      match all_related rest with
      | Normal rs => Normal (r :: rs)
      | Throw e => Throw e
      end
  end.

(** One query for each related table of the many-to-one map, in the
    order of its keys; the first that throws ends the loop. *)
Definition getManyToOneRelationQueries (database : option Database)
  (settings : list UtilsRest.ITable) (TABLE_CONFIG : ITableInfo)
  (parentData : Value) : Completion (list IRelatedRows) :=
  match relations TABLE_CONFIG with
  | Some rels =>
      match manyToOne rels with
      | Some MANY_TO_ONE =>
          all_related
            (map (fun entry =>
                    getRelatedRow database settings (fst entry) (snd entry) parentData)
               MANY_TO_ONE)
      | None => Normal []
      end
  | None => Normal []
  end.

End Relations.

(* ================================================================== *)
(** ** Definitions used in the further statements *)
(* ================================================================== *)

(** A statement joined by AND. *)
Definition joined_by_and (st : Connective * Predicate) : bool :=
  match fst st with
  | And => true
  | Or => false
  end.

(** The calls of the loop of [getRelatedRow] from [index] on, for a
    parent row [parent]. *)
Fixpoint related_calls (parent : list (string * Value)) (index : nat)
  (columnNames : list IManyToOneRelation) : list Call :=
  match columnNames with
  | [] => []
  | c :: rest =>
      (if (index =? 0)%nat
       then Where_value (fk c) (get parent (target c))
       else AndWhere_value (fk c) (get parent (target c)))
      :: related_calls parent (S index) rest
  end.

(** The rows of a table whose join columns all equal the parent's
    target values. *)
Definition joined_rows (db : Database) (tableName : string)
  (columnNames : list IManyToOneRelation) (parent : list (string * Value))
  : list Row :=
  List.filter
    (fun r => forallb (fun c => sql_eq (get r (fk c)) (get parent (target c)))
                columnNames)
    (rows_of db tableName).

(** A filter value that is neither [null] nor a list. *)
Definition plain_scalar (v : Value) : bool :=
  match v with
  | VNull | VArr _ => false
  | _ => true
  end.

(** Comments of a post, joined on [post_id]. *)
Definition comments : ITableInfo :=
  {| table_name := "comments";
     columns :=
       [ {| name := "id"; type := "int(11)"; visible := shown; relation := None |};
         {| name := "post_id"; type := "int(11)"; visible := shown; relation := None |};
         {| name := "text"; type := "text"; visible := shown; relation := None |};
         {| name := "ip"; type := "varchar(64)"; visible := hidden; relation := None |} ];
     pk := PkString "id";
     roles := None;
     chips := None;
     relations := None;
     searchFields := Some ["text"; "ip"] |}.

Definition forum_settings : list UtilsRest.ITable :=
  [ {| UtilsRest.info := posts; UtilsRest.hooks := None |};
    {| UtilsRest.info := comments; UtilsRest.hooks := None |} ].

Definition forum : Database :=
  [ ("comments",
     [ [("id", VNum (Int 1)); ("post_id", VNum (Int 10)); ("text", VStr "first");
        ("ip", VStr "10.0.0.1")];
       [("id", VNum (Int 2)); ("post_id", VNum (Int 11)); ("text", VStr "other");
        ("ip", VStr "10.0.0.2")];
       [("id", VNum (Int 3)); ("post_id", VNum (Int 10)); ("text", VStr "second");
        ("ip", VStr "10.0.0.3")] ]) ].

(* ================================================================== *)
(** ** The table controller: the operations *)
(* ================================================================== *)

(** What a handler of the controller acts on: the store behind
    [database.db] ([None] while there is no connection), the data of
    the response object ([None] when there is no response object), the
    calls made to Express's [next], each with the error passed or with
    none, and the items of the process-wide cache (metle). *)
Module Chain.
Import Js Store.

Record World : Type :=
  { database : option Database;
    res : option (list (string * Value));
    nexts : list (option Exception);
    cache : list (string * Value) }.

(** A step of a promise chain: it acts on the world and is fulfilled
    with a value or rejected with an exception. *)
Definition P (A : Type) : Type := World -> World * Completion A.

Definition resolve {A : Type} (a : A) : P A := fun w => (w, Normal a).
Definition reject {A : Type} (e : Exception) : P A := fun w => (w, Throw e).

(** [p.then(k)]. *)
Definition andThen {A B : Type} (p : P A) (k : A -> P B) : P B :=
  fun w =>
    match p w with
    | (w', Normal a) => k a w'
    | (w', Throw e) => (w', Throw e)
    end.

(** [p.catch(handler)]. *)
Definition catch {A : Type} (p : P A) (handler : Exception -> P A) : P A :=
  fun w =>
    match p w with
    | (w', Normal a) => (w', Normal a)
    | (w', Throw e) => handler e w'
    end.

(** A value computed without touching the world. *)
Definition lift {A : Type} (c : Completion A) : P A := fun w => (w, c).

(** [next(err)] and [next()]. *)
Definition call_next (err : option Exception) : P unit :=
  fun w =>
    ({| database := database w; res := res w; nexts := nexts w ++ [err];
       cache := cache w |}, Normal tt).

(** [DELETE FROM t WHERE ...]: the rows of the table the statements
    hold of are removed; the result is their number. *)
Definition del (db : Database) (q : Knex.QueryBuilder) : Database * Z :=
  match table_of q with
  | None => (db, 0)
  | Some t =>
      match own db t with
      | None => (db, 0)
      | Some rows =>
          (set db t (List.filter (fun r => negb (satisfies (Knex.statements q) r)) rows),
           Z.of_nat (List.length (List.filter (satisfies (Knex.statements q)) rows)))
      end
  end.

End Chain.

Declare Scope chain_scope.
Delimit Scope chain_scope with chain.
Notation "x <- p ;; k" := (Chain.andThen p (fun x => k))
  (at level 61, p at next level, right associativity) : chain_scope.

Module Operations.
Import Js Config Knex Store Utils TableController UtilsRest Chain.
Local Open Scope chain_scope.

(** [next] tells whether the callback was given. *)
Definition catchMiddleware (next : bool) (err : Exception) : P unit :=
  if next then call_next (Some err) else reject err.

Definition nextAndReturn (next : bool) (data : Value) : P Value :=
  _ <- (if next then call_next None else resolve tt) ;;
  resolve data.

(** [addToResponse(res, target)]: the response object is the one of the
    world; what is passed on is the response object itself. *)
Definition addToResponse (target : string) (data : Value) : P Value :=
  fun w =>
    match UtilsRest.addToResponse (res w) target data with
    | Normal res_data =>
        ({| database := database w; res := Some res_data; nexts := nexts w;
           cache := cache w |},
         Normal (VObj res_data))
    | Throw e => (w, Throw e)
    end.

(** The controller's own [requirementsCheck]. *)
Definition requirementsCheck (tableConfig : ITableInfo) (user : option IUser)
  (next : bool) : P Database :=
  fun w =>
    if negb (hasAuthorization (roles tableConfig) user)
    then reject (HttpException 401 "Not authorized") w
    else
      match database w with
      | None =>
          let ERROR := HttpException 500 "No database" in
          (_ <- catchMiddleware next ERROR ;; reject ERROR) w
      | Some db => resolve db w
      end.

(** The query is run when the chain awaits it; a builder function that
    threw rejects the step.  The values these queries bind are read
    from the parsed filter and from the parsed body, and JSON holds no
    [undefined]: the rejection of [fetch] is not modelled here. *)
Definition run (DB : Database) (built : QueryBuilder * Completion unit)
  : P (list Row) :=
  match built with
  | (QUERY, Normal _) => resolve (execute DB QUERY)
  | (_, Throw e) => reject e
  end.

(** The handler every operation ends its chain with. *)
Definition report (next : bool) (err : Exception) : P Value :=
  _ <- catchMiddleware next err ;;
  resolve VUndefined.

(** [select('*')] is written [Select []], every column, as [select()]
    is. *)
Definition getTableCount (settings : list ITable) (req : IMCRequest) (next : bool)
  : P Value :=
  let TABLE_NAME := params_table req in
  match getTableConfig settings TABLE_NAME with
  | None => reject TypeError
  | Some TABLE =>
      let TABLE_CONFIG := info TABLE in
      catch
        (DB <- requirementsCheck TABLE_CONFIG (user req) next ;;
         results <- run DB (applyQueryFiltersSearch [From TABLE_NAME; Select []]
                              (query req) TABLE_CONFIG) ;;
         counted <- lift (runHook TABLE "getTableCount" After req (Some DB)
                            (rows_value results)) ;;
         response <- addToResponse "count" counted ;;
         nextAndReturn next response)
        (report next)
  end.

(** [body.pk] read by [applyPKFilters]: its keys cannot be listed when
    the body has no [pk]. *)
Definition pk_filters (QUERY : QueryBuilder) (req : IMCRequest)
  (TABLE_CONFIG : ITableInfo) : QueryBuilder * Completion unit :=
  match body_pk req with
  | Some pk => applyPKFilters QUERY pk TABLE_CONFIG
  | None => (QUERY, Throw TypeError)
  end.

(** [results[0]]. *)
Definition first_row (results : list Row) : Value :=
  match results with
  | row :: _ => VObj row
  | [] => VUndefined
  end.

(** The many-to-many queries for the row found; reading a local id of
    [undefined] is a TypeError. *)
Definition manyToManyRelationQueries (database : option Database)
  (TABLE_CONFIG : ITableInfo) (parentData : Value)
  : Completion (list (string * list Row)) :=
  match parentData with
  | VObj row => getManyToManyRelationQueries database TABLE_CONFIG row
  | _ =>
      match relations TABLE_CONFIG with
      | Some rels =>
          match manyToMany rels, database with
          | Some _, None => Throw (HttpException 500 "No database")
          | Some (_ :: _), Some _ => Throw TypeError
          | _, _ => Normal []
          end
      | None => Normal []
      end
  end.

(** [mergeRelatedData] on the row found; setting a property of
    [undefined] is a TypeError. *)
Definition mergeRelated (result : Value) (manyToOneRelations : list IRelatedRows)
  (manyToManyRelations : list (string * list Row)) : Completion Value :=
  match result with
  | VObj row => Normal (VObj (mergeRelatedData row manyToOneRelations manyToManyRelations))
  | _ =>
      match manyToOneRelations, manyToManyRelations with
      | [], [] => Normal result
      | _, _ => Throw TypeError
      end
  end.

Definition getRowData (settings : list ITable) (req : IMCRequest) (next : bool)
  : P Value :=
  let TABLE_NAME := params_table req in
  match getTableConfig settings TABLE_NAME with
  | None => reject TypeError
  | Some TABLE =>
      let TABLE_CONFIG := info TABLE in
      catch
        (DB <- requirementsCheck TABLE_CONFIG (user req) next ;;
         results <-
           (let requestedColumns := filterVisibleTableColumns TABLE_CONFIG Detail in
            run DB (pk_filters [Select requestedColumns; From TABLE_NAME] req
                      TABLE_CONFIG)) ;;
         merged <-
           (fun w =>
              let result := first_row results in
              if query_includeRelations req then
                match Relations.getManyToOneRelationQueries (database w) settings
                        TABLE_CONFIG result with
                | Throw e => (w, Throw e)
                | Normal manyToOne =>
                    match manyToManyRelationQueries (database w) TABLE_CONFIG result with
                    | Throw e => (w, Throw e)
                    | Normal manyToMany => (w, mergeRelated result manyToOne manyToMany)
                    end
                end
              else (w, mergeRelated result [] [])) ;;
         hooked <- (fun w => (w, runHook TABLE "getRow" After req (database w) merged)) ;;
         response <- addToResponse "results" hooked ;;
         nextAndReturn next response)
        (report next)
  end.

Definition deleteRowData (settings : list ITable) (req : IMCRequest) (next : bool)
  : P Value :=
  let TABLE_NAME := params_table req in
  match getTableConfig settings TABLE_NAME with
  | None => reject TypeError
  | Some TABLE =>
      let TABLE_CONFIG := info TABLE in
      catch
        (DB <- requirementsCheck TABLE_CONFIG (user req) next ;;
         _ <- (fun w => (w, runHook TABLE "deleteRow" Before req (database w) VUndefined)) ;;
         results <-
           (fun w =>
              match pk_filters [From TABLE_NAME] req TABLE_CONFIG with
              | (QUERY, Normal _) =>
                  let (db', deleted) := del DB QUERY in
                  ({| database := Some db'; res := res w; nexts := nexts w;
           cache := cache w |},
                   Normal (VNum (Int deleted)))
              | (_, Throw e) => (w, Throw e)
              end) ;;
         hooked <- (fun w => (w, runHook TABLE "deleteRow" After req (database w) results)) ;;
         response <- addToResponse "results" hooked ;;
         nextAndReturn next response)
        (report next)
  end.

End Operations.

(** A call that adds a WHERE statement and nothing else. *)
Definition is_where_call (c : Call) : bool :=
  match c with
  | Select _ | From _ | OrderBy_list _ | OrderBy _ _ | Offset _ | Limit _ => false
  | _ => true
  end.

(** A step on a builder that, whatever its outcome, has only added
    WHERE statements. *)
Definition only_adds_wheres (m : M unit) : Prop :=
  forall q, exists calls,
    fst (m q) = q ++ calls /\ forallb is_where_call calls = true.

(** The world after [next] has been called once more. *)
Definition after_next (w : Chain.World) (err : option Exception) : Chain.World :=
  {| Chain.database := Chain.database w;
     Chain.res := Chain.res w;
     Chain.nexts := Chain.nexts w ++ [err];
     Chain.cache := Chain.cache w |}.

(** The world after an operation on the store [db] has answered [data]
    under [target] and called [next()]. *)
Definition after_answer (w : Chain.World) (db : Database)
  (res_data : list (string * Value)) (target : string) (data : Value) : Chain.World :=
  {| Chain.database := Some db;
     Chain.res := Some (set res_data target data);
     Chain.nexts := Chain.nexts w ++ [None];
     Chain.cache := Chain.cache w |}.

(** The rows the predicates of section 4.4 hold of, for a submitted key. *)
Definition key_matches (TABLE_CONFIG : ITableInfo) (body_pk : list (string * Value))
  (r : Row) : bool :=
  satisfies (map (fun k => (And, pk_clause TABLE_CONFIG body_pk k)) (keys body_pk)) r.

(** A submitted key that fits the declared one. *)
Definition key_fits (TABLE_CONFIG : ITableInfo) (body_pk : list (string * Value))
  : Prop :=
  List.length (keys body_pk) = Spec.pk_cardinality (pk TABLE_CONFIG)
  /\ forall k, In k (keys body_pk) -> In k (Spec.pk_columns (pk TABLE_CONFIG)).


(** A table only administrators may use, with a text key. *)
Definition tickets : ITableInfo :=
  {| table_name := "tickets";
     columns :=
       [ {| name := "code"; type := "varchar(16)"; visible := shown; relation := None |};
         {| name := "state"; type := "varchar(16)"; visible := shown; relation := None |} ];
     pk := PkString "code";
     roles := Some ["admin"];
     chips := None;
     relations := None;
     searchFields := None |}.

Definition desk_settings : list UtilsRest.ITable :=
  [ {| UtilsRest.info := tickets; UtilsRest.hooks := None |} ].

Definition desk : Database :=
  [ ("tickets",
     [ [("code", VStr "A1"); ("state", VStr "open")];
       [("code", VStr "B2"); ("state", VStr "open")];
       [("code", VStr "BA1"); ("state", VStr "done")] ]) ].

Definition administrator : IUser :=
  {| user_roles := [ {| id := 7; role_name := "admin" |} ] |}.

(** A request on [tickets] by [user], with the key [code] when given. *)
Definition desk_request (user : option IUser) (code : option string)
  : UtilsRest.IMCRequest :=
  {| UtilsRest.params_table := "tickets";
     UtilsRest.query :=
       {| filter := Some [("state", VStr "open")]; search := None; order := None;
          page := P_undefined; limit := P_undefined |};
     UtilsRest.query_columns := [];
     UtilsRest.query_friendlyData := false;
     UtilsRest.query_includeRelations := false;
     UtilsRest.body_pk := option_map (fun c => [("code", VStr c)]) code;
     UtilsRest.user := user |}.

Definition desk_world (db : option Database) : Chain.World :=
  {| Chain.database := db; Chain.res := Some []; Chain.nexts := [];
        Chain.cache := [] |}.

(* ================================================================== *)
(** ** The table controller: distinct values and their cache *)
(* ================================================================== *)

Module Distinct.
Import Js Config Knex Store Utils TableController UtilsRest Chain Operations.
Local Open Scope chain_scope.

(** The cache is the library metle, used through [hasItem], [getItem]
    and [setItem]; it is taken as a map from keys to items that keeps
    every item for the life of the process ([setItem] is called without
    options). *)
Definition hasItem (items : list (string * Value)) (k : string) : bool :=
  match own items k with
  | Some _ => true
  | None => false
  end.

Definition getItem (items : list (string * Value)) (k : string) : Value :=
  match own items k with
  | Some v => v
  | None => VUndefined
  end.

Definition setItem (items : list (string * Value)) (k : string) (v : Value)
  : list (string * Value) :=
  set items k v.

(** Two rows are the same row of a SELECT DISTINCT when they hold the
    same values under the same columns. *)
Fixpoint value_eqb (a b : Value) : bool :=
  match a, b with
  | VUndefined, VUndefined | VNull, VNull => true
  | VBool x, VBool y => Bool.eqb x y
  | VNum (Int x), VNum (Int y) => x =? y
  | VNum NaN, VNum NaN => true
  | VNum (Infinity n), VNum (Infinity m) => Bool.eqb n m
  | VStr s, VStr t => (s =? t)%string
  | VArr l1, VArr l2 =>
      (fix all2 (l1 l2 : list Value) : bool :=
         match l1, l2 with
         | [], [] => true
         | x :: xs, y :: ys => value_eqb x y && all2 xs ys
         | _, _ => false
         end) l1 l2
  | VObj p1, VObj p2 =>
      (fix all2 (p1 p2 : list (string * Value)) : bool :=
         match p1, p2 with
         | [], [] => true
         | (k, x) :: xs, (k', y) :: ys => (k =? k')%string && value_eqb x y && all2 xs ys
         | _, _ => false
         end) p1 p2
  | VNative n, VNative m => (n =? m)%string
  | _, _ => false
  end.

Definition row_eqb (r1 r2 : Row) : bool := value_eqb (VObj r1) (VObj r2).

(** The rows in order, each kept the first time it is seen. *)
Fixpoint distinct_rows (seen rows : list Row) : list Row :=
  match rows with
  | [] => []
  | r :: rest =>
      if existsb (row_eqb r) seen
      then distinct_rows seen rest
      else r :: distinct_rows (r :: seen) rest
  end.

(** [DB(table).distinct(cols)] with the WHERE statements of the builder
    [q]; no column is every column. *)
Definition select_distinct (db : Database) (q : QueryBuilder) (cols : list string)
  : list Row :=
  match table_of q with
  | None => []
  | Some t =>
      distinct_rows []
        (map (project cols) (List.filter (satisfies (statements q)) (rows_of db t)))
  end.

Record Columns : Type :=
  { toRequest : list string;
    toAdd : list (string * Value) }.

(** The first loop: a column with an item in the cache is answered
    from it, any other is asked of the store. *)
Definition split_columns (items : list (string * Value)) (requested : list string)
  : Columns :=
  fold_left
    (fun columns column =>
       if hasItem items ("distinct_" ++ column)
       then {| toRequest := toRequest columns;
               toAdd := toAdd columns ++ [(column, getItem items ("distinct_" ++ column))] |}
       else {| toRequest := toRequest columns ++ [column];
               toAdd := toAdd columns |})
    requested {| toRequest := []; toAdd := [] |}.

(** [Object.keys(entry)[0]], used as a property name. *)
Definition first_key (entry : Row) : string :=
  match keys entry with
  | k :: _ => k
  | [] => "undefined"
  end.

(** The body of the [reduce]: the value of the first column of the row
    is pushed on the list kept under that column's name. *)
Definition collect_entry (result : list (string * Value)) (entry : Row)
  : Completion (list (string * Value)) :=
  let key := first_key entry in
  match lookup result key with
  | Missing => Normal (set result key (VArr [get entry key]))
  | Own (VArr items) => Normal (set result key (VArr (items ++ [get entry key])))
  | Own _ | Inherited _ => Throw TypeError
  end.

Fixpoint collect (result : list (string * Value)) (queryResults : list Row)
  : Completion (list (string * Value)) :=
  match queryResults with
  | [] => Normal result
  | entry :: rest =>
      match collect_entry result entry with
      | Normal result => collect result rest
      | Throw e => Throw e
      end
  end.

(** The second loop: every list collected is stored in the cache. *)
Definition remember (items results : list (string * Value)) : list (string * Value) :=
  fold_left (fun items column => setItem items ("distinct_" ++ column) (get results column))
    (keys results) items.

(** The third loop: the columns answered from the cache. *)
Definition add_cached (results : list (string * Value))
  (columnsToAdd : list (string * Value)) : list (string * Value) :=
  fold_left (fun results column => set results (fst column) (snd column))
    columnsToAdd results.

(** [err.message]; the message of a TypeError, which depends on the
    runtime, is stood for by the empty string, and so is the one of
    Knex's Error. *)
Definition message (err : Exception) : string :=
  match err with
  | HttpException _ m => m
  | TypeError | UndefinedBinding => ""
  end.

Definition getDistinctTableData (settings : list ITable) (req : IMCRequest)
  (next : bool) : P Value :=
  let TABLE_NAME := params_table req in
  match getTableConfig settings TABLE_NAME with
  | None => reject TypeError
  | Some TABLE =>
      let TABLE_CONFIG := info TABLE in
      catch
        (DB <- requirementsCheck TABLE_CONFIG (user req) next ;;
         answered <-
           (fun w =>
              let columns := split_columns (cache w) (query_columns req) in
              match applyQueryFiltersSearch [From TABLE_NAME] (query req) TABLE_CONFIG with
              | (_, Throw e) => (w, Throw e)
              | (QUERY, Normal _) =>
                  match runHook TABLE "getDistinctTableData" Before req (Some DB)
                          VUndefined with
                  | Throw e => (w, Throw e)
                  | Normal hookResult =>
                      (w, Normal (select_distinct DB (mergeHookFilter QUERY hookResult)
                                    (toRequest columns),
                                  toAdd columns))
                  end
              end) ;;
         results <-
           (fun w =>
              match collect [] (fst answered) with
              | Throw e => (w, Throw e)
              | Normal results =>
                  ({| database := database w; res := res w; nexts := nexts w;
                      cache := remember (cache w) results |},
                   runHook TABLE "getDistinctTableData" After req (Some DB)
                     (VObj (add_cached results (snd answered))))
              end) ;;
         response <- addToResponse "results" results ;;
         nextAndReturn next response)
        (fun err => report next (HttpException 500 (message err)))
  end.

End Distinct.

(** Whether a column has an item in the cache. *)
Definition cached (items : list (string * Value)) (column : string) : bool :=
  Distinct.hasItem items ("distinct_" ++ column).

(** No row begins with a column named like a member of
    [Object.prototype]. *)
Definition plain_rows (rows : list Row) : Prop :=
  forall row, In row rows -> inherited (Distinct.first_key row) = false.

(** Every value of the object is a list. *)
Definition lists_only (result : list (string * Value)) : Prop :=
  forall k v, In (k, v) result -> isArray v = true.


(** A request by the administrator for the distinct values of [columns]
    among the open tickets. *)
Definition desk_columns_request (columns : list string) : UtilsRest.IMCRequest :=
  {| UtilsRest.params_table := "tickets";
     UtilsRest.query :=
       {| filter := Some [("state", VStr "open")]; search := None; order := None;
          page := P_undefined; limit := P_undefined |};
     UtilsRest.query_columns := columns;
     UtilsRest.query_friendlyData := false;
     UtilsRest.query_includeRelations := false;
     UtilsRest.body_pk := None;
     UtilsRest.user := Some administrator |}.

(** The desk with [items] in the cache. *)
Definition desk_cache_world (items : list (string * Value)) : Chain.World :=
  {| Chain.database := Some desk; Chain.res := Some []; Chain.nexts := [];
     Chain.cache := items |}.

(** The query the filter of [desk_columns_request] builds. *)
Definition open_tickets : QueryBuilder :=
  fst (applyQueryFiltersSearch [From "tickets"]
         (UtilsRest.query (desk_columns_request [])) tickets).


(* ================================================================== *)
(** ** The table controller: the list of a table *)
(* ================================================================== *)

Module Listing.
Import Js Config Knex Store Utils TableController UtilsRest Chain Operations.
Local Open Scope chain_scope.

(** The query is the one of [getTableData_query]; the rows of an ordered
    query come in the order of the store, the order ORDER BY gives them
    is not modelled. *)
Definition getTableData (settings : list ITable) (req : IMCRequest) (next : bool)
  : P Value :=
  let TABLE_NAME := params_table req in
  match getTableConfig settings TABLE_NAME with
  | None => reject TypeError
  | Some TABLE =>
      let TABLE_CONFIG := info TABLE in
      catch
        (DB <- requirementsCheck TABLE_CONFIG (user req) next ;;
         hookResult <- lift (runHook TABLE "getTableData" Before req (Some DB) VUndefined) ;;
         results <- run DB (getTableData_query TABLE_CONFIG (query req) hookResult) ;;
         results <-
           (if query_friendlyData req
            then lift (addVerboseRelatedData results TABLE_CONFIG DB)
            else resolve results) ;;
         hooked <- lift (runHook TABLE "getTableData" After req (Some DB)
                           (rows_value results)) ;;
         response <- addToResponse "results" hooked ;;
         nextAndReturn next response)
        (report next)
  end.

End Listing.


(** Threads with their comments, joined on [post_id]. *)
Definition threads : ITableInfo :=
  {| table_name := "threads";
     columns :=
       [ {| name := "id"; type := "int(11)"; visible := shown; relation := None |};
         {| name := "title"; type := "varchar(64)"; visible := shown; relation := None |} ];
     pk := PkString "id";
     roles := None;
     chips := None;
     relations :=
       Some {| manyToOne := Some [("comments", [ {| fk := "post_id"; target := "id" |} ])];
               manyToMany := None |};
     searchFields := None |}.

Definition board_settings : list UtilsRest.ITable :=
  [ {| UtilsRest.info := threads; UtilsRest.hooks := None |};
    {| UtilsRest.info := comments; UtilsRest.hooks := None |} ].

Definition board : Database :=
  ("threads", [ [("id", VNum (Int 10)); ("title", VStr "welcome")] ]) :: forum.

(** A request for the thread [id] together with its relations. *)
Definition board_request (id : Z) : UtilsRest.IMCRequest :=
  {| UtilsRest.params_table := "threads";
     UtilsRest.query :=
       {| filter := None; search := None; order := None;
          page := P_undefined; limit := P_undefined |};
     UtilsRest.query_columns := [];
     UtilsRest.query_friendlyData := false;
     UtilsRest.query_includeRelations := true;
     UtilsRest.body_pk := Some [("id", VNum (Int id))];
     UtilsRest.user := None |}.









(* ================================================================== *)
(** ** Properties *)
(* ================================================================== *)

(** *** Dictionaries *)

Lemma own_set {A : Type} (o : list (string * A)) (k k' : string) (a : A) :
  own (set o k a) k' = if (k =? k')%string then Some a else own o k'.
Proof.
  induction o as [|[k0 a0] o IH]; simpl.
  - reflexivity.
  - destruct (String.eqb_spec k0 k) as [->|Hne]; simpl.
    + destruct (k =? k')%string; reflexivity.
    + rewrite IH. destruct (String.eqb_spec k0 k') as [->|Hne'].
      * destruct (String.eqb_spec k k') as [->|_]; [congruence|reflexivity].
      * reflexivity.
Qed.

Lemma own_getColumnsByName (TABLE_CONFIG : ITableInfo) (k : string) :
  own (getColumnsByName TABLE_CONFIG) k = Spec.declared_column TABLE_CONFIG k.
Proof.
  unfold getColumnsByName, Spec.declared_column.
  induction (columns TABLE_CONFIG) as [|c cols IH] using rev_ind.
  - reflexivity.
  - rewrite fold_left_app, rev_app_distr. simpl.
    rewrite own_set, IH. reflexivity.
Qed.

Lemma declared_column_some (TABLE_CONFIG : ITableInfo) (k : string) :
  In k (map name (columns TABLE_CONFIG)) ->
  exists c, Spec.declared_column TABLE_CONFIG k = Some c.
Proof.
  intros Hin. unfold Spec.declared_column.
  destruct (List.find _ _) as [c|] eqn:Hfind; [eauto|].
  apply in_map_iff in Hin. destruct Hin as [c [Hname Hc]].
  apply in_rev in Hc. apply (find_none _ _ Hfind c) in Hc.
  rewrite Hname, String.eqb_refl in Hc. discriminate.
Qed.

Lemma declared_column_none (TABLE_CONFIG : ITableInfo) (k : string) :
  ~ In k (map name (columns TABLE_CONFIG)) ->
  Spec.declared_column TABLE_CONFIG k = None.
Proof.
  intros Hnot. unfold Spec.declared_column.
  destruct (List.find _ _) as [c|] eqn:Hfind; [|reflexivity].
  apply find_some in Hfind. destruct Hfind as [Hin Hname].
  exfalso. apply Hnot. apply in_map_iff. exists c. split.
  - apply String.eqb_eq. exact Hname.
  - apply in_rev. exact Hin.
Qed.

(** *** Statements of a builder *)

Lemma statements_app (q1 q2 : QueryBuilder) :
  statements (q1 ++ q2) = statements q1 ++ statements q2.
Proof. unfold statements. apply flat_map_app. Qed.

(** *** Authorization gate *)

Lemma find_role_name (r : string) (l : list IRole) :
  (exists found, find (fun userRole => (role_name userRole =? r)%string) l = Some found)
  <-> In r (map role_name l).
Proof.
  unfold find. split.
  - intros [found Hfind]. apply find_some in Hfind. destruct Hfind as [Hin Heq].
    apply String.eqb_eq in Heq. subst r. apply in_map. exact Hin.
  - intros Hin. apply in_map_iff in Hin. destruct Hin as [ur [Hname Hin]].
    destruct (List.find _ l) as [found|] eqn:Hfind; [eauto|].
    apply (find_none _ _ Hfind) in Hin. rewrite Hname, String.eqb_refl in Hin.
    discriminate.
Qed.

(** The two revisions of [hasAuthorization] compute the same function. *)
Lemma hasAuthorization_revisions_agree (R : option (list string)) (u : option IUser) :
  UtilsIndexTs.hasAuthorization R u = Utils.hasAuthorization R u.
Proof.
  unfold UtilsIndexTs.hasAuthorization, Utils.hasAuthorization.
  destruct R as [[|r R]|]; try reflexivity.
  cbv zeta.
  match goal with
  | |- context [find ?p (r :: R)] => destruct (find p (r :: R)) as [role|]
  end; [|reflexivity].
  destruct (string_truthy role); reflexivity.
Qed.

(** On role lists without the empty name the gate is the rule of the
    specification: open when nothing is required or "all" is listed, and
    otherwise when a required role is one of the caller's. *)
Lemma hasAuthorization_named_roles (R : list string) (u : option IUser) :
  (forall r, In r R -> r <> "") ->
  hasAuthorization (Some R) u = true <->
  R = [] \/ In "all" R \/ exists r, In r R /\ In r (caller_roles u).
Proof.
  intros Hnamed. unfold hasAuthorization, caller_roles.
  set (user := match u with Some u0 => u0 | None => unauthenticated end).
  destruct R as [|r0 R0]; [split; auto|].
  set (R := r0 :: R0) in *.
  set (p := fun role : string => if (role =? "all")%string then true else _).
  assert (Hp : forall role, p role = true <->
                            role = "all" \/ In role (map role_name (user_roles user))).
  { intros role. unfold p. destruct (String.eqb_spec role "all") as [->|Hne].
    - split; auto.
    - rewrite <- find_role_name.
      destruct (find _ (user_roles user)) as [found|].
      + split; eauto.
      + split; [discriminate|]. intros [H|[found H]]; congruence. }
  split.
  - intros Hauth. right.
    destruct (find p R) as [role|] eqn:Hfind; [|discriminate].
    apply find_some in Hfind. destruct Hfind as [Hin Hrole].
    apply Hp in Hrole. destruct Hrole as [->|Hcaller]; [left; exact Hin|].
    right. exists role. split; assumption.
  - intros [Hempty|Hsome]; [discriminate|].
    assert (Hex : exists role, In role R /\ p role = true).
    { destruct Hsome as [Hall|[r [Hin Hcaller]]].
      - exists "all". split; [exact Hall|]. apply Hp. left. reflexivity.
      - exists r. split; [exact Hin|]. apply Hp. right. exact Hcaller. }
    destruct Hex as [role [Hin Hrole]].
    destruct (find p R) as [found|] eqn:Hfind.
    + apply find_some in Hfind. destruct Hfind as [Hfound _].
      apply Hnamed in Hfound. unfold string_truthy.
      destruct (String.eqb_spec found ""); [contradiction|reflexivity].
    + apply (find_none _ _ Hfind) in Hin. congruence.
Qed.

Example hasAuthorization_examples :
  let admin := Some {| user_roles := [ {| id := 7; role_name := "admin" |} ] |} in
  hasAuthorization (Some ["editor"; "admin"]) admin = true
  /\ hasAuthorization (Some ["editor"]) admin = false
  /\ hasAuthorization (Some ["editor"; "all"]) admin = true
  /\ hasAuthorization (Some ["admin"]) None = false
  /\ hasAuthorization (Some ["unauthenticated"]) None = true.
Proof. repeat split. Qed.

(** No role list, or an empty one, authorizes every caller. *)
Lemma hasAuthorization_nothing_required (u : option IUser) :
  hasAuthorization None u = true /\ hasAuthorization (Some []) u = true.
Proof. split; reflexivity. Qed.

(** C1 (as the code has it).  A required role with the empty name that
    the caller holds is found first, and being the empty string it reads
    as false: the caller is refused although "all" is listed and although
    a required role is one of the caller's.  Both revisions do so. *)
Theorem hasAuthorization_empty_role_name :
  let R := [""; "all"] in
  let user := {| user_roles := [ {| id := 1; role_name := "" |} ] |} in
  In "all" R /\
  (exists r, In r R /\ In r (caller_roles (Some user))) /\
  Utils.hasAuthorization (Some R) (Some user) = false /\
  UtilsIndexTs.hasAuthorization (Some R) (Some user) = false.
Proof.
  simpl. repeat split.
  - right. left. reflexivity.
  - exists "". split; left; reflexivity.
Qed.

(** *** Visible columns *)

Lemma prefix_refl (s : string) : String.prefix s s = true.
Proof.
  induction s as [|c s IH]; simpl.
  - reflexivity.
  - destruct (Ascii.ascii_dec c c); [exact IH|congruence].
Qed.

Lemma string_indexOf_self (s : string) : Js.string_indexOf s s = 0.
Proof.
  unfold string_indexOf. destruct s as [|c s].
  - reflexivity.
  - unfold String.index. fold String.index. rewrite prefix_refl. reflexivity.
Qed.

Lemma array_indexOf_from_found (l : list string) (x : string) (i : Z) :
  In x l -> i <= Js.array_indexOf_from i l x.
Proof.
  revert i. induction l as [|y l IH]; intros i Hin; simpl.
  - contradiction.
  - destruct (String.eqb_spec y x) as [->|Hne]; [lia|].
    destruct Hin as [->|Hin]; [congruence|].
    specialize (IH (i + 1) Hin). lia.
Qed.

Lemma pk_indexOf_found (pk : PK) (x : string) :
  In x (Spec.pk_columns pk) -> 0 <= pk_indexOf pk x.
Proof.
  destruct pk as [s|l]; simpl; intros Hin.
  - destruct Hin as [->|[]]. rewrite string_indexOf_self. lia.
  - apply array_indexOf_from_found. exact Hin.
Qed.

(** A hidden column that a chip spans is kept on the main page only;
    the key is kept on both. *)
Example filterVisibleTableColumns_chips :
  let table :=
    {| table_name := "products";
       columns :=
         [ {| name := "id"; type := "int(11)"; visible := hidden; relation := None |};
           {| name := "price"; type := "int(11)"; visible := hidden;
              relation := None |};
           {| name := "stock"; type := "int(11)"; visible := hidden;
              relation := None |} ];
       pk := PkString "id";
       roles := None;
       chips := Some [ {| chip_columns := [ {| chip_column_name := "price" |} ] |} ];
       relations := None;
       searchFields := None |} in
  filterVisibleTableColumns table Main = ["id"; "price"]
  /\ filterVisibleTableColumns table Detail = ["id"].
Proof. split; reflexivity. Qed.

(** C10.  Whatever the target and the visibility flags, a column of the
    table that the primary key names is among the columns returned. *)
Theorem filterVisibleTableColumns_keeps_pk
  (table : ITableInfo) (target : Target) (column : IColumnInfo) :
  In column (columns table) ->
  In (name column) (Spec.pk_columns (pk table)) ->
  In (name column) (filterVisibleTableColumns table target).
Proof.
  intros Hcol Hpk. unfold filterVisibleTableColumns.
  apply in_map. apply filter_In. split; [exact Hcol|].
  apply pk_indexOf_found in Hpk. apply Z.leb_le in Hpk. rewrite Hpk.
  rewrite orb_true_r. reflexivity.
Qed.

Lemma filterVisibleTableColumns_keeps_pk_witness :
  filterVisibleTableColumns products Detail = ["id"; "sku"; "label"] /\
  In "sku" (filterVisibleTableColumns products Detail).
Proof.
  split; [reflexivity|].
  apply (filterVisibleTableColumns_keeps_pk products Detail
           {| name := "sku"; type := "varchar(255)"; visible := hidden;
              relation := None |}).
  - simpl. right. left. reflexivity.
  - simpl. right. left. reflexivity.
Defined.

(** *** Pagination *)

Example parseInt_examples :
  parseInt "10" = Int 10 /\ parseInt "  42px" = Int 42 /\ parseInt "-7" = Int (-7) /\
  parseInt "+3" = Int 3 /\ parseInt "abc" = NaN /\ parseInt "" = NaN /\
  parseInt "-" = NaN /\ parseInt "0" = Int 0 /\ parseInt "1.5" = Int 1.
Proof. repeat split. Qed.

(** With neither parameter given the page is 0 and the limit 10. *)
Lemma paginate_defaults (q : QueryBuilder) :
  paginate q P_undefined P_undefined = q ++ [Offset (Int 0); Limit (Int 10)].
Proof. reflexivity. Qed.

(** Below 2^53 the product of two integers is exact. *)
Lemma to_double_exact (z : Z) : Z.abs z < 2 ^ 53 -> to_double z = Int z.
Proof.
  intros Hz. unfold to_double. cbv zeta.
  apply Z.ltb_lt in Hz. rewrite Hz. reflexivity.
Qed.

(** A positive limit is applied together with the offset page * limit,
    the product being the one of doubles. *)
Lemma paginate_product (q : QueryBuilder) (p l : Z) :
  0 < l ->
  paginate q (P_number (Int p)) (P_number (Int l))
  = q ++ [Offset (to_double (p * l)); Limit (Int l)].
Proof.
  intros Hl. unfold paginate.
  cbn [param_truthy param_number num_truthy num_gt0].
  assert (Hl0 : (l =? 0) = false) by (apply Z.eqb_neq; lia).
  assert (Hgt : (0 <? l) = true) by (apply Z.ltb_lt; lia).
  rewrite Hl0. cbn [negb num_gt0]. rewrite Hgt.
  destruct (Z.eqb_spec p 0) as [->|Hp]; cbn [negb num_mul]; reflexivity.
Qed.

(** While the product stays below 2^53 the offset is page * limit. *)
Lemma paginate_numbers (q : QueryBuilder) (p l : Z) :
  0 < l ->
  Z.abs (p * l) < 2 ^ 53 ->
  paginate q (P_number (Int p)) (P_number (Int l))
  = q ++ [Offset (Int (p * l)); Limit (Int l)].
Proof.
  intros Hl Hsafe. rewrite (paginate_product q p l Hl), (to_double_exact _ Hsafe).
  reflexivity.
Qed.

(** Past 2^53 the offset is the rounded product, not page * limit. *)
Example paginate_rounded_offset (q : QueryBuilder) :
  94906267 * 94906267 = 9007199515875289 /\
  paginate q (P_number (Int 94906267)) (P_number (Int 94906267))
  = q ++ [Offset (Int 9007199515875288); Limit (Int 94906267)].
Proof. split; reflexivity. Qed.

(** A limit that resolves to zero or less leaves the query as it is. *)
Lemma paginate_unbounded (q : QueryBuilder) (page limit : PageParam) (l : Z) :
  param_truthy limit = true ->
  param_number limit (Int 10) = Int l ->
  l <= 0 ->
  paginate q page limit = q.
Proof.
  intros Htruthy Hnum Hl. unfold paginate. rewrite Htruthy, Hnum. simpl.
  assert (Hgt : (0 <? l) = false) by (apply Z.ltb_ge; lia).
  rewrite Hgt. reflexivity.
Qed.

Example paginate_page2_limit10 (q : QueryBuilder) :
  paginate q (P_string "2") (P_string "10") = q ++ [Offset (Int 20); Limit (Int 10)] /\
  paginate q (P_number (Int 2)) (P_number (Int 10))
  = q ++ [Offset (Int 20); Limit (Int 10)].
Proof. split; reflexivity. Qed.

Example paginate_string_zero (q : QueryBuilder) :
  paginate q (P_string "0") (P_string "0") = q.
Proof. reflexivity. Qed.

(** C4 (as the code has it).  The number 0 given as limit is falsy, so
    the limit keeps its default 10 and the query is paginated, where
    the string "0" switches pagination off. *)
Theorem paginate_number_zero_limit (q : QueryBuilder) :
  paginate q (P_number (Int 0)) (P_number (Int 0))
  = q ++ [Offset (Int 0); Limit (Int 10)].
Proof. reflexivity. Qed.

(** C8, the claim refuted.  A limit that is not a number is no error:
    the query comes back, without offset or limit; a page that is not a
    number comes back as an offset of NaN. *)
Lemma paginate_non_numeric_not_rejected :
  let q := [Select ["id"]; From "products"] in
  parseInt "ten" = NaN /\
  paginate q (P_string "2") (P_string "ten") = q /\
  paginate q (P_string "two") P_undefined = q ++ [Offset NaN; Limit (Int 10)].
Proof. repeat split. Qed.

(** C8, amended.  [paginate] raises nothing.  A string limit in which
    [parseInt] finds no number switches pagination off, unless it is the
    empty string, which selects the default limit 10; a non-empty
    string page in which [parseInt] finds no number gives the offset
    NaN whenever the limit [paginate] works with is positive, be it a
    number, a string or the default 10, and that limit is applied. *)
Theorem paginate_non_numeric (q : QueryBuilder) (s : string) :
  parseInt s = NaN ->
  (forall page,
      paginate q page (P_string s)
      = if string_truthy s then q
        else paginate q page P_undefined) /\
  (string_truthy s = true ->
   forall limit, num_gt0 (resolved_limit limit) = true ->
     paginate q (P_string s) limit
     = q ++ [Offset NaN; Limit (resolved_limit limit)]).
Proof.
  intros Hnan. split.
  - intros page. unfold paginate. simpl.
    destruct (string_truthy s); [|reflexivity].
    rewrite Hnan. reflexivity.
  - intros Htruthy limit Hpositive. unfold paginate. cbv zeta.
    fold (resolved_limit limit). rewrite Hpositive.
    cbn [param_truthy param_number]. rewrite Htruthy, Hnan. reflexivity.
Qed.

Lemma paginate_non_numeric_witness :
  parseInt "ten" = NaN /\
  paginate [From "products"] (P_string "3") (P_string "ten") = [From "products"] /\
  paginate [From "products"] (P_string "ten") (P_number (Int 5))
  = [From "products"; Offset NaN; Limit (Int 5)] /\
  paginate [From "products"] (P_string "ten") (P_string "5")
  = [From "products"; Offset NaN; Limit (Int 5)] /\
  paginate [From "products"] (P_string "ten") P_undefined
  = [From "products"; Offset NaN; Limit (Int 10)].
Proof.
  split; [reflexivity|].
  destruct (paginate_non_numeric [From "products"] "ten" eq_refl) as [Hlimit Hpage].
  split; [exact (Hlimit (P_string "3"))|].
  split; [exact (Hpage eq_refl (P_number (Int 5)) eq_refl)|].
  split; [exact (Hpage eq_refl (P_string "5") eq_refl)|].
  exact (Hpage eq_refl P_undefined eq_refl).
Defined.

Lemma clauses_app (q1 q2 : QueryBuilder) :
  clauses (q1 ++ q2) = clauses q1 ++ clauses q2.
Proof. unfold clauses. rewrite statements_app, map_app. reflexivity. Qed.

(** Dropping the parentheses does not change which rows a query keeps. *)
Lemma holds_unwrap (row : Row) (p : Predicate) :
  holds row (unwrap p) = holds row p.
Proof.
  destruct p as [| | | |stmts]; try reflexivity.
  destruct stmts as [|[c inner] [|s stmts]]; reflexivity.
Qed.

Lemma satisfies_clauses (q : QueryBuilder) (row : Row) :
  satisfies (clauses q) row = satisfies (statements q) row.
Proof.
  unfold satisfies, clauses. rewrite map_map. f_equal.
  apply map_ext. intros [c p]. simpl. rewrite holds_unwrap. reflexivity.
Qed.

(** *** Loops over the builder *)

Section Loops.
Context {A : Type}.
Variable body : A -> nat -> M unit.
Variable stmt : A -> Connective * Predicate.

Lemma forEach_from_attaches (l : list A) :
  (forall x, In x l -> attaches_one body stmt x) ->
  forall index q, exists calls,
    forEach_from index body l q = (q ++ calls, Normal tt)
    /\ clauses calls = map stmt l
    /\ List.length calls = List.length l.
Proof.
  induction l as [|x l IH]; intros Hall index q.
  - exists []. simpl. rewrite app_nil_r. auto.
  - destruct (Hall x (or_introl eq_refl) index q) as [c [Hbody Hstmt]].
    destruct (IH (fun y Hy => Hall y (or_intror Hy)) (S index) (q ++ [c]))
      as [calls [Hrun [Hstmts Hlen]]].
    exists (c :: calls). simpl. unfold bind. rewrite Hbody, Hrun.
    rewrite <- app_assoc. simpl. repeat split.
    + change (c :: calls) with ([c] ++ calls).
      rewrite clauses_app, Hstmt, Hstmts. reflexivity.
    + rewrite Hlen. reflexivity.
Qed.

(** The loop stops at the first element whose body throws: the calls
    of the elements before it stay on the builder. *)
Lemma forEach_from_throws (pre post : list A) (x : A) (e : Exception) :
  (forall y, In y pre -> attaches_one body stmt y) ->
  (forall index q, body x index q = (q, Throw e)) ->
  forall index q, exists calls,
    forEach_from index body (pre ++ x :: post) q = (q ++ calls, Throw e)
    /\ clauses calls = map stmt pre
    /\ List.length calls = List.length pre.
Proof.
  intros Hpre Hthrow. induction pre as [|y pre IH]; intros index q.
  - exists []. simpl. unfold bind. rewrite Hthrow, app_nil_r. auto.
  - destruct (Hpre y (or_introl eq_refl) index q) as [c [Hbody Hstmt]].
    destruct (IH (fun z Hz => Hpre z (or_intror Hz)) (S index) (q ++ [c]))
      as [calls [Hrun [Hstmts Hlen]]].
    exists (c :: calls). simpl. unfold bind. rewrite Hbody.
    simpl in Hrun. rewrite Hrun.
    rewrite <- app_assoc. simpl. repeat split.
    + change (c :: calls) with ([c] ++ calls).
      rewrite clauses_app, Hstmt, Hstmts. reflexivity.
    + rewrite Hlen. reflexivity.
Qed.
End Loops.

(** The keywords of a run of AND-joined statements on a fresh query. *)
Lemma compile_wheres_and (preds : list Predicate) :
  compile_wheres (map (fun p => (And, p)) preds) = Spec.conjunction preds.
Proof.
  destruct preds as [|p preds]; simpl; [reflexivity|].
  rewrite map_map. reflexivity.
Qed.

(** *** Filters *)

Lemma existsb_name (TABLE_CONFIG : ITableInfo) (k : string) :
  existsb (fun c => (name c =? k)%string) (columns TABLE_CONFIG) = true
  <-> In k (map name (columns TABLE_CONFIG)).
Proof.
  rewrite existsb_exists, in_map_iff.
  split; intros [c [H1 H2]]; exists c.
  - apply String.eqb_eq in H2. auto.
  - split; [exact H2|]. apply String.eqb_eq. exact H1.
Qed.

Lemma resolves_declared (TABLE_CONFIG : ITableInfo) (k : string) :
  In k (map name (columns TABLE_CONFIG)) -> resolves TABLE_CONFIG k = true.
Proof.
  intros Hin. unfold resolves. apply existsb_name in Hin. rewrite Hin. reflexivity.
Qed.

Lemma read_type_resolved (TABLE_CONFIG : ITableInfo) (k : string) :
  resolves TABLE_CONFIG k = true ->
  read_type (getColumnsByName TABLE_CONFIG) k = ret (Spec.storage_type TABLE_CONFIG k).
Proof.
  intros Hres. unfold read_type, lookup, Spec.storage_type.
  rewrite own_getColumnsByName.
  destruct (Spec.declared_column TABLE_CONFIG k) as [c|] eqn:Hdecl; [reflexivity|].
  unfold resolves in Hres. apply orb_true_iff in Hres. destruct Hres as [Hdecl'|Hinh].
  - apply existsb_name in Hdecl'. apply declared_column_some in Hdecl'.
    destruct Hdecl' as [c Hc]. congruence.
  - rewrite Hinh. reflexivity.
Qed.

Lemma read_type_unresolved (TABLE_CONFIG : ITableInfo) (k : string) :
  resolves TABLE_CONFIG k = false ->
  read_type (getColumnsByName TABLE_CONFIG) k
  = throw TypeError.
Proof.
  intros Hres. unfold resolves in Hres. apply orb_false_iff in Hres.
  destruct Hres as [Hdecl Hinh].
  unfold read_type, lookup. rewrite own_getColumnsByName, declared_column_none, Hinh.
  - reflexivity.
  - intros Hin. apply existsb_name in Hin. congruence.
Qed.

Lemma numeric_or_temporal_tests (t : option string) :
  type_is t "int(11)" || type_is t "smallint(5)" || type_is t "datetime"
  = Spec.numeric_or_temporal t.
Proof.
  destruct t as [t|]; simpl; [|reflexivity].
  rewrite orb_false_r, orb_assoc. reflexivity.
Qed.

(** One resolved key attaches one AND-joined statement: the predicate
    the specification gives for the column's type and the value. *)
Lemma applyQueryFilters_entry_attaches
  (TABLE_CONFIG : ITableInfo) (FILTERS : list (string * Value)) (k : string) :
  resolves TABLE_CONFIG k = true ->
  attaches_one (applyQueryFilters_entry (getColumnsByName TABLE_CONFIG) FILTERS)
    (fun k => (And, Spec.filter_predicate (Spec.storage_type TABLE_CONFIG k) k
                      (get FILTERS k)))
    k.
Proof.
  intros Hres index q. unfold applyQueryFilters_entry.
  rewrite (read_type_resolved _ _ Hres). unfold bind, ret.
  rewrite numeric_or_temporal_tests. unfold Spec.filter_predicate.
  destruct (Spec.numeric_or_temporal _), (index =? 0)%nat, (get FILTERS k);
    unfold call; eexists; split; reflexivity.
Qed.

Lemma applyQueryFilters_entry_throws
  (TABLE_CONFIG : ITableInfo) (FILTERS : list (string * Value)) (k : string) :
  resolves TABLE_CONFIG k = false ->
  forall index q,
    applyQueryFilters_entry (getColumnsByName TABLE_CONFIG) FILTERS k index q
    = (q, Throw TypeError).
Proof.
  intros Hres index q. unfold applyQueryFilters_entry.
  rewrite (read_type_unresolved _ _ Hres). reflexivity.
Qed.

(** In an object, whose keys are distinct, reading a key gives the value
    of its entry. *)
Lemma own_entry {A : Type} (o : list (string * A)) (k : string) (a : A) :
  NoDup (keys o) -> In (k, a) o -> own o k = Some a.
Proof.
  induction o as [|[k0 a0] o IH]; simpl; intros Hnd Hin; [contradiction|].
  inversion Hnd as [|? ? Hnotin Hnd']; subst.
  destruct Hin as [Heq|Hin].
  - inversion Heq; subst. rewrite String.eqb_refl. reflexivity.
  - destruct (String.eqb_spec k0 k) as [->|Hne].
    + exfalso. apply Hnotin. unfold keys in *. apply in_map_iff.
      exists (k, a). auto.
    + apply IH; assumption.
Qed.

Lemma map_keys_get {B : Type} (o : list (string * Value)) (f : string -> Value -> B) :
  NoDup (keys o) ->
  map (fun k => f k (get o k)) (keys o) = map (fun e => f (fst e) (snd e)) o.
Proof.
  intros Hnd. unfold keys. rewrite map_map. apply map_ext_in.
  intros [k v] Hin. simpl. unfold get, lookup.
  rewrite (own_entry o k v Hnd Hin). reflexivity.
Qed.

Lemma applyQueryFilters_resolved
  (QUERY : QueryBuilder) (FILTERS : list (string * Value)) (TABLE_CONFIG : ITableInfo) :
  (forall k, In k (keys FILTERS) -> resolves TABLE_CONFIG k = true) ->
  exists calls,
    applyQueryFilters QUERY FILTERS TABLE_CONFIG = (QUERY ++ calls, Normal tt)
    /\ clauses calls
       = map (fun k => (And, Spec.filter_predicate (Spec.storage_type TABLE_CONFIG k) k
                               (get FILTERS k)))
           (keys FILTERS)
    /\ List.length calls = List.length (keys FILTERS).
Proof.
  intros Hres. unfold applyQueryFilters, forEach.
  apply forEach_from_attaches.
  intros k Hk. apply applyQueryFilters_entry_attaches. apply Hres. exact Hk.
Qed.

(** C2.  When every key of the filter object is a declared column, the
    entries are taken in order and each attaches one predicate, joined
    by AND to what precedes it: IS NULL for null and IN for a list on
    every column, and for any other value an equality on an int(11),
    smallint(5) or datetime column and LIKE '%value%' on a column of any
    other type.  On a fresh query the first predicate follows WHERE and
    each later one follows AND. *)
Theorem applyQueryFilters_declared_columns
  (QUERY : QueryBuilder) (FILTERS : list (string * Value)) (TABLE_CONFIG : ITableInfo) :
  NoDup (keys FILTERS) ->
  (forall k, In k (keys FILTERS) -> In k (map name (columns TABLE_CONFIG))) ->
  let predicate (entry : string * Value) :=
    Spec.filter_predicate (Spec.storage_type TABLE_CONFIG (fst entry))
      (fst entry) (snd entry) in
  exists calls,
    applyQueryFilters QUERY FILTERS TABLE_CONFIG = (QUERY ++ calls, Normal tt)
    /\ clauses calls = map (fun entry => (And, predicate entry)) FILTERS
    /\ compile_wheres (clauses calls) = Spec.conjunction (map predicate FILTERS).
Proof.
  intros Hnd Hdecl predicate.
  destruct (applyQueryFilters_resolved QUERY FILTERS TABLE_CONFIG)
    as [calls [Hrun [Hclauses _]]].
  { intros k Hk. apply resolves_declared. apply Hdecl. exact Hk. }
  exists calls. split; [exact Hrun|].
  assert (Hentries : clauses calls = map (fun entry => (And, predicate entry)) FILTERS).
  { rewrite Hclauses.
    apply (map_keys_get FILTERS
             (fun k v => (And, Spec.filter_predicate (Spec.storage_type TABLE_CONFIG k) k v))).
    exact Hnd. }
  split; [exact Hentries|].
  rewrite Hentries, <- compile_wheres_and, map_map. reflexivity.
Qed.

Lemma applyQueryFilters_declared_columns_witness :
  exists calls,
    applyQueryFilters [] (firstn 4 orders_filter) orders = ([] ++ calls, Normal tt)
    /\ clauses calls
       = [ (And, Like "status" "%open%");
           (And, IsIn "id" [VNum (Int 1); VNum (Int 2)]);
           (And, IsNull "placed");
           (And, IsNull "note") ]
    /\ compile_wheres (clauses calls)
       = [ (WHERE, Like "status" "%open%");
           (AND, IsIn "id" [VNum (Int 1); VNum (Int 2)]);
           (AND, IsNull "placed");
           (AND, IsNull "note") ].
Proof.
  apply (applyQueryFilters_declared_columns [] (firstn 4 orders_filter) orders).
  - simpl. repeat constructor; simpl; intuition discriminate.
  - simpl. intuition.
Defined.

(** The calls themselves, on the same input and on a scalar for a
    numeric column. *)
Example applyQueryFilters_calls :
  applyQueryFilters [] (firstn 4 orders_filter) orders
  = ([ Where_like "status" "%open%";
       WhereIn "id" [VNum (Int 1); VNum (Int 2)];
       AndWhere_callback [WhereNull "placed"];
       AndWhere_callback [WhereNull "note"] ], Normal tt)
  /\ applyQueryFilters [] [("status", VNum (Int 7)); ("id", VNum (Int 7))] orders
     = ([ Where_like "status" "%7%"; AndWhere_object "id" (VNum (Int 7)) ], Normal tt).
Proof. split; reflexivity. Qed.

(** C9, the claim refuted.  The key [status2] names no column.  The
    predicates of the four entries before it are on the builder when the
    read of its type fails, and what is thrown is a TypeError, not an
    HttpException of status 400. *)
Lemma applyQueryFilters_unknown_column_not_rejected :
  ~ In "status2" (map name (columns orders)) /\
  applyQueryFilters [] orders_filter orders
  = ([ Where_like "status" "%open%";
       WhereIn "id" [VNum (Int 1); VNum (Int 2)];
       AndWhere_callback [WhereNull "placed"];
       AndWhere_callback [WhereNull "note"] ],
     Throw TypeError) /\
  ~ (exists message,
        applyQueryFilters [] orders_filter orders
        = ([], Throw (HttpException 400 message))).
Proof.
  split; [|split].
  - simpl. intuition discriminate.
  - reflexivity.
  - intros [message H]. discriminate H.
Qed.

(** A key that names a member of [Object.prototype] is not missing from
    [columnsByName]: its type reads as [undefined] and it is filtered as
    text. *)
Example applyQueryFilters_inherited_key :
  applyQueryFilters [] [("toString", VStr "x")] orders
  = ([Where_like "toString" "%x%"], Normal tt).
Proof. reflexivity. Qed.

(** C9, amended.  At the first key that names neither a declared column
    nor a member of [Object.prototype], [applyQueryFilters] throws a
    TypeError; one predicate for each entry before that key is already
    attached to the query, and none for the entries from it on. *)
Theorem applyQueryFilters_unknown_column
  (QUERY : QueryBuilder) (pre post : list (string * Value)) (k : string) (v : Value)
  (TABLE_CONFIG : ITableInfo) :
  forallb (resolves TABLE_CONFIG) (keys pre) = true ->
  resolves TABLE_CONFIG k = false ->
  let FILTERS := pre ++ (k, v) :: post in
  exists calls,
    applyQueryFilters QUERY FILTERS TABLE_CONFIG
    = (QUERY ++ calls, Throw TypeError)
    /\ List.length calls = List.length pre
    /\ clauses calls
       = map (fun k' => (And, Spec.filter_predicate (Spec.storage_type TABLE_CONFIG k') k'
                                (get FILTERS k')))
           (keys pre).
Proof.
  intros Hpre Hk FILTERS. unfold applyQueryFilters, forEach.
  assert (Hkeys : keys FILTERS = keys pre ++ k :: keys post).
  { unfold FILTERS, keys. rewrite map_app. reflexivity. }
  rewrite Hkeys.
  destruct (forEach_from_throws
              (applyQueryFilters_entry (getColumnsByName TABLE_CONFIG) FILTERS)
              (fun k' => (And, Spec.filter_predicate (Spec.storage_type TABLE_CONFIG k') k'
                                 (get FILTERS k')))
              (keys pre) (keys post) k
              TypeError)
    with (index := 0%nat) (q := QUERY) as [calls [Hrun [Hclauses Hlen]]].
  - intros k' Hk'. apply applyQueryFilters_entry_attaches.
    rewrite forallb_forall in Hpre. apply Hpre. exact Hk'.
  - apply applyQueryFilters_entry_throws. exact Hk.
  - exists calls. split; [exact Hrun|]. split; [|exact Hclauses].
    rewrite Hlen. unfold keys. apply length_map.
Qed.

Lemma applyQueryFilters_unknown_column_witness :
  exists calls,
    applyQueryFilters [From "orders"] orders_filter orders
    = ([From "orders"] ++ calls,
       Throw TypeError)
    /\ List.length calls = 4%nat.
Proof.
  destruct (applyQueryFilters_unknown_column [From "orders"]
              (firstn 4 orders_filter) [] "status2" (VStr "closed") orders
              eq_refl eq_refl) as [calls [Hrun [Hlen _]]].
  exists calls. split; [exact Hrun|exact Hlen].
Defined.

(** *** Primary keys *)

Lemma array_indexOf_from_absent (l : list string) (x : string) (i : Z) :
  ~ In x l -> Js.array_indexOf_from i l x = -1.
Proof.
  revert i. induction l as [|y l IH]; intros i Hnot; simpl; [reflexivity|].
  destruct (String.eqb_spec y x) as [->|Hne].
  - exfalso. apply Hnot. left. reflexivity.
  - apply IH. intros Hin. apply Hnot. right. exact Hin.
Qed.

Lemma key_declared_In (pk : PK) (key : string) :
  key_declared pk key = true <-> In key (Spec.pk_columns pk).
Proof.
  destruct pk as [s|l]; simpl.
  - rewrite String.eqb_eq. split; [auto|intros [H|[]]; exact H].
  - rewrite negb_true_iff, Z.eqb_neq. split.
    + intros Hfound. destruct (in_dec string_dec key l) as [Hin|Hnot]; [exact Hin|].
      exfalso. apply Hfound. apply array_indexOf_from_absent. exact Hnot.
    + intros Hin. apply (array_indexOf_from_found l key 0) in Hin.
      unfold array_indexOf. lia.
Qed.

(** The keys up to the first one for which a test fails. *)
Lemma first_failure {A : Type} (p : A -> bool) (l : list A) :
  forallb p l = false ->
  exists pre x post, l = pre ++ x :: post /\ forallb p pre = true /\ p x = false.
Proof.
  induction l as [|y l IH]; simpl; intros Hfail; [discriminate|].
  destruct (p y) eqn:Hy.
  - destruct (IH Hfail) as [pre [x [post [Heq [Hpre Hx]]]]].
    exists (y :: pre), x, post. simpl. rewrite Hy, Heq. auto.
  - exists [], y, l. auto.
Qed.

Lemma integer_like_test (t : option string) :
  type_is t "int(11)" = Spec.integer_like t.
Proof. destruct t; reflexivity. Qed.

Lemma unwrap_equality (col : string) (v : Value) :
  unwrap (equality col v) = equality col v.
Proof. destruct v; reflexivity. Qed.

Section PrimaryKey.
Variable TABLE_CONFIG : ITableInfo.
Variable body_pk : list (string * Value).

(** Every declared key column is a column of the table. *)
Hypothesis pk_among_columns :
  forall k, In k (Spec.pk_columns (pk TABLE_CONFIG)) ->
            In k (map name (columns TABLE_CONFIG)).

Lemma applyPKFilters_key_attaches (k : string) :
  key_declared (pk TABLE_CONFIG) k = true ->
  attaches_one
    (applyPKFilters_key TABLE_CONFIG (getColumnsByName TABLE_CONFIG) body_pk)
    (fun k => (And, pk_clause TABLE_CONFIG body_pk k)) k.
Proof.
  intros Hvalid index q. unfold applyPKFilters_key.
  fold (key_declared (pk TABLE_CONFIG) k). rewrite Hvalid. simpl negb. cbv iota.
  rewrite read_type_resolved.
  - unfold bind, ret. rewrite integer_like_test.
    unfold pk_clause, Spec.pk_predicate.
    destruct (Spec.integer_like _), (index =? 0)%nat;
      unfold call; eexists; (split; [reflexivity|]);
      unfold clauses; simpl; rewrite ?unwrap_equality; reflexivity.
  - apply resolves_declared, pk_among_columns, key_declared_In. exact Hvalid.
Qed.

Lemma applyPKFilters_key_throws (k : string) :
  key_declared (pk TABLE_CONFIG) k = false ->
  forall index q,
    applyPKFilters_key TABLE_CONFIG (getColumnsByName TABLE_CONFIG) body_pk k index q
    = (q, Throw (HttpException 412 ("Primary key " ++ k ++ " missing on table"))).
Proof.
  intros Hinvalid index q. unfold applyPKFilters_key.
  fold (key_declared (pk TABLE_CONFIG) k). rewrite Hinvalid. reflexivity.
Qed.

(** The run of [applyPKFilters], by the two tests it makes. *)
Lemma applyPKFilters_run (QUERY : QueryBuilder) :
  if negb (List.length (keys body_pk) =? Spec.pk_cardinality (pk TABLE_CONFIG))%nat
  then applyPKFilters QUERY body_pk TABLE_CONFIG
       = (QUERY, Throw (HttpException 412 "Incorrect set of primary keys"))
  else if forallb (key_declared (pk TABLE_CONFIG)) (keys body_pk)
  then exists calls,
      applyPKFilters QUERY body_pk TABLE_CONFIG = (QUERY ++ calls, Normal tt)
      /\ clauses calls = map (fun k => (And, pk_clause TABLE_CONFIG body_pk k)) (keys body_pk)
  else exists QUERY' message,
      applyPKFilters QUERY body_pk TABLE_CONFIG
      = (QUERY', Throw (HttpException 412 message)).
Proof.
  unfold applyPKFilters, Spec.pk_cardinality.
  destruct (List.length (keys body_pk) =? _)%nat eqn:Hcard; simpl negb; cbv iota.
  - assert (Hpre : forall k : M unit,
               bind (match pk TABLE_CONFIG with
                     | PkString _ =>
                         if negb (List.length (keys body_pk) =? 1)%nat
                         then throw (HttpException 412 "Incorrect set of primary keys")
                         else ret tt
                     | PkArray _ => ret tt
                     end)
                 (fun _ =>
                    bind (match pk TABLE_CONFIG with
                          | PkArray l =>
                              if negb (List.length l =? List.length (keys body_pk))%nat
                              then throw (HttpException 412 "Incorrect set of primary keys")
                              else ret tt
                          | PkString _ => ret tt
                          end) (fun _ => k)) QUERY = k QUERY).
    { intros k. apply Nat.eqb_eq in Hcard.
      destruct (pk TABLE_CONFIG) as [s|l]; simpl in Hcard; unfold bind.
      - rewrite Hcard. reflexivity.
      - rewrite <- Hcard, Nat.eqb_refl. reflexivity. }
    rewrite Hpre. unfold forEach.
    destruct (forallb _ (keys body_pk)) eqn:Hall.
    + destruct (forEach_from_attaches
                  (applyPKFilters_key TABLE_CONFIG (getColumnsByName TABLE_CONFIG) body_pk)
                  (fun k => (And, pk_clause TABLE_CONFIG body_pk k)) (keys body_pk))
        with (index := 0%nat) (q := QUERY) as [calls [Hrun [Hclauses _]]].
      * intros k Hk. apply applyPKFilters_key_attaches.
        rewrite forallb_forall in Hall. apply Hall. exact Hk.
      * exists calls. split; assumption.
    + destruct (first_failure _ _ Hall) as [pre [x [post [Heq [Hvalid Hx]]]]].
      rewrite Heq.
      destruct (forEach_from_throws
                  (applyPKFilters_key TABLE_CONFIG (getColumnsByName TABLE_CONFIG) body_pk)
                  (fun k => (And, pk_clause TABLE_CONFIG body_pk k)) pre post x
                  (HttpException 412 ("Primary key " ++ x ++ " missing on table")))
        with (index := 0%nat) (q := QUERY) as [calls [Hrun _]].
      * intros k Hk. apply applyPKFilters_key_attaches.
        rewrite forallb_forall in Hvalid. apply Hvalid. exact Hk.
      * apply applyPKFilters_key_throws. exact Hx.
      * eauto.
  - apply Nat.eqb_neq in Hcard.
    destruct (pk TABLE_CONFIG) as [s|l]; simpl in Hcard; unfold bind.
    + destruct (Nat.eqb_spec (List.length (keys body_pk)) 1); [contradiction|].
      reflexivity.
    + simpl. destruct (Nat.eqb_spec (List.length l) (List.length (keys body_pk)));
        [congruence|reflexivity].
Qed.
End PrimaryKey.

(** C3.  For a table whose key columns are columns of the table,
    [applyPKFilters] throws an HttpException of status 412 exactly when
    the number of submitted keys differs from the number of declared key
    columns (one for a single key, the length of the list for a
    composite key) or a submitted key is not a declared key column.
    Otherwise it returns normally, having attached for each submitted
    key, in order, an exact match on an int(11) column and LIKE
    '%value%' on a column of any other type; on a fresh query the first
    follows WHERE and the others follow AND. *)
Theorem applyPKFilters_invalid_primary_key
  (QUERY : QueryBuilder) (body_pk : list (string * Value)) (TABLE_CONFIG : ITableInfo) :
  (forall k, In k (Spec.pk_columns (pk TABLE_CONFIG)) ->
             In k (map name (columns TABLE_CONFIG))) ->
  let wrong_keys :=
    List.length (keys body_pk) <> Spec.pk_cardinality (pk TABLE_CONFIG)
    \/ exists k, In k (keys body_pk) /\ ~ In k (Spec.pk_columns (pk TABLE_CONFIG)) in
  let predicate (k : string) :=
    Spec.pk_predicate (Spec.storage_type TABLE_CONFIG k) k (get body_pk k) in
  ((exists QUERY' message,
       applyPKFilters QUERY body_pk TABLE_CONFIG
       = (QUERY', Throw (HttpException 412 message)))
   <-> wrong_keys)
  /\ (~ wrong_keys ->
      exists calls,
        applyPKFilters QUERY body_pk TABLE_CONFIG = (QUERY ++ calls, Normal tt)
        /\ clauses calls = map (fun k => (And, predicate k)) (keys body_pk)
        /\ compile_wheres (clauses calls)
           = Spec.conjunction (map predicate (keys body_pk))).
Proof.
  intros Hcols wrong_keys predicate.
  pose proof (applyPKFilters_run TABLE_CONFIG body_pk Hcols QUERY) as Hrun.
  destruct (Nat.eqb_spec (List.length (keys body_pk))
              (Spec.pk_cardinality (pk TABLE_CONFIG))) as [Hcard|Hcard];
    simpl in Hrun.
  - destruct (forallb (key_declared (pk TABLE_CONFIG)) (keys body_pk)) eqn:Hall.
    + assert (Hright : ~ wrong_keys).
      { intros [Hne|[k [Hin Hnot]]]; [contradiction|].
        rewrite forallb_forall in Hall. apply Hnot, key_declared_In, Hall, Hin. }
      destruct Hrun as [calls [Hrun Hclauses]].
      split.
      * split; [|intros Hwrong; contradiction].
        intros [QUERY' [message Hthrow]]. rewrite Hrun in Hthrow. discriminate.
      * intros _. exists calls. split; [exact Hrun|]. split; [exact Hclauses|].
        rewrite Hclauses, <- compile_wheres_and, map_map. reflexivity.
    + assert (Hwrong : wrong_keys).
      { right. destruct (first_failure _ _ Hall) as [pre [k [post [Heq [_ Hk]]]]].
        exists k. split.
        - rewrite Heq. apply in_or_app. right. left. reflexivity.
        - intros Hin. apply key_declared_In in Hin. congruence. }
      split; [split; auto|intros Hnot; contradiction].
  - assert (Hwrong : wrong_keys) by (left; exact Hcard).
    split; [split; eauto|intros Hnot; contradiction].
Qed.

Lemma pairs_key_columns :
  forall k, In k (Spec.pk_columns (pk pairs)) -> In k (map name (columns pairs)).
Proof. simpl. intuition. Defined.

Lemma applyPKFilters_invalid_primary_key_witness :
  (exists QUERY' message,
      applyPKFilters [] [("a", VNum (Int 1))] pairs
      = (QUERY', Throw (HttpException 412 message)))
  /\ (exists QUERY' message,
         applyPKFilters [] [("a", VNum (Int 1)); ("b", VStr "x"); ("c", VStr "y")] pairs
         = (QUERY', Throw (HttpException 412 message)))
  /\ (exists calls,
         applyPKFilters [] [("a", VNum (Int 1)); ("b", VStr "x")] pairs
         = ([] ++ calls, Normal tt)
         /\ compile_wheres (clauses calls)
            = [(WHERE, Equals "a" (VNum (Int 1))); (AND, Like "b" "%x%")]).
Proof.
  split; [|split].
  - apply (applyPKFilters_invalid_primary_key [] [("a", VNum (Int 1))] pairs
             pairs_key_columns).
    left. simpl. discriminate.
  - apply (applyPKFilters_invalid_primary_key []
             [("a", VNum (Int 1)); ("b", VStr "x"); ("c", VStr "y")] pairs
             pairs_key_columns).
    left. simpl. discriminate.
  - destruct (applyPKFilters_invalid_primary_key []
                [("a", VNum (Int 1)); ("b", VStr "x")] pairs pairs_key_columns)
      as [_ Hright].
    destruct Hright as [calls [Hrun [_ Hcompiled]]].
    + intros [Hcard|[k [Hin Hnot]]].
      * apply Hcard. reflexivity.
      * apply Hnot. simpl in *. intuition.
    + exists calls. split; [exact Hrun|exact Hcompiled].
Defined.

(** The same payloads, run: the calls made and the exception thrown. *)
Example applyPKFilters_runs :
  applyPKFilters [] [("a", VNum (Int 1))] pairs
  = ([], Throw (HttpException 412 "Incorrect set of primary keys"))
  /\ applyPKFilters [] [("a", VNum (Int 1)); ("b", VStr "x"); ("c", VStr "y")] pairs
     = ([], Throw (HttpException 412 "Incorrect set of primary keys"))
  /\ applyPKFilters [] [("a", VNum (Int 1)); ("c", VStr "y")] pairs
     = ([Where_object "a" (VNum (Int 1))],
        Throw (HttpException 412 "Primary key c missing on table"))
  /\ applyPKFilters [] [("a", VNum (Int 1)); ("b", VStr "x")] pairs
     = ([Where_object "a" (VNum (Int 1)); AndWhere_like "b" "%x%"], Normal tt).
Proof. repeat split. Qed.

(** *** The filter of a before-hook *)

Lemma clauses_hook_entries (f : list (string * Value)) :
  clauses (flat_map hook_entry_calls f) = flat_map hook_entry_clauses f.
Proof.
  induction f as [|[k v] f IH]; [reflexivity|].
  simpl. rewrite clauses_app, IH.
  unfold hook_entry_calls, hook_entry_clauses. simpl.
  destruct v; reflexivity.
Qed.

Lemma fold_left_hook_keys (f : list (string * Value)) (ks : list string)
  (QUERY : QueryBuilder) :
  fold_left
    (fun QUERY column =>
       match member (VObj f) column with
       | VArr items => QUERY ++ [WhereIn column items]
       | _ => QUERY
       end) ks QUERY
  = QUERY ++ flat_map (fun k => hook_entry_calls (k, get f k)) ks.
Proof.
  revert QUERY. induction ks as [|k ks IH]; intros QUERY; simpl.
  - rewrite app_nil_r. reflexivity.
  - rewrite IH. unfold hook_entry_calls at 2. simpl.
    destruct (get f k); simpl; rewrite <- ?app_assoc; reflexivity.
Qed.

Lemma mergeHookFilter_object
  (QUERY : QueryBuilder) (hookResult f : list (string * Value)) :
  get hookResult "filter" = VObj f ->
  NoDup (keys f) ->
  mergeHookFilter QUERY (VObj hookResult) = QUERY ++ flat_map hook_entry_calls f.
Proof.
  intros Hfilter Hnd. unfold mergeHookFilter.
  change (member (VObj hookResult) "filter") with (get hookResult "filter").
  rewrite Hfilter.
  change (truthy (VObj hookResult)) with true.
  change (truthy (VObj f)) with true.
  change (entries (VObj f)) with f. cbv iota.
  rewrite fold_left_hook_keys. f_equal.
  rewrite !flat_map_concat_map. f_equal.
  rewrite (map_keys_get f (fun k v => hook_entry_calls (k, v)) Hnd).
  apply map_ext. intros [k v]. reflexivity.
Qed.

(** The hook's result is read only by the last step of the query's
    composition. *)
Lemma getTableData_query_hook
  (TABLE_CONFIG : ITableInfo) (req_query : ReqQuery) (hookResult : Value) :
  getTableData_query TABLE_CONFIG req_query hookResult
  = match getTableData_query TABLE_CONFIG req_query VUndefined with
    | (QUERY, Normal _) => (mergeHookFilter QUERY hookResult, Normal tt)
    | (QUERY, Throw e) => (QUERY, Throw e)
    end.
Proof.
  unfold getTableData_query, bind.
  destruct (applyQueryFiltersSearch _ req_query TABLE_CONFIG) as [q [[]|e]];
    [|reflexivity].
  destruct (match order req_query with
            | Some (VArr items) => call (OrderBy_list items)
            | Some VNull => throw TypeError
            | Some ORDER_OBJ =>
                call (OrderBy (member ORDER_OBJ "column") (member ORDER_OBJ "order"))
            | None => ret tt
            end q) as [q' [[]|e]]; reflexivity.
Qed.

(** C7.  When the before-hook of [getTableData] resolves with an object
    whose [filter] is an object, the final query is the query built from
    the request alone followed by one IN predicate for each entry of the
    filter whose value is a list, in order; an entry with any other
    value adds nothing. *)
Theorem getTableData_hook_filter
  (TABLE_CONFIG : ITableInfo) (req_query : ReqQuery)
  (hookResult f : list (string * Value)) (QUERY : QueryBuilder) :
  get hookResult "filter" = VObj f ->
  NoDup (keys f) ->
  getTableData_query TABLE_CONFIG req_query VUndefined = (QUERY, Normal tt) ->
  exists calls,
    getTableData_query TABLE_CONFIG req_query (VObj hookResult)
    = (QUERY ++ calls, Normal tt)
    /\ calls = flat_map hook_entry_calls f
    /\ clauses calls = flat_map hook_entry_clauses f.
Proof.
  intros Hfilter Hnd Hplain.
  exists (flat_map hook_entry_calls f).
  rewrite getTableData_query_hook, Hplain.
  rewrite (mergeHookFilter_object QUERY hookResult f Hfilter Hnd).
  repeat split. apply clauses_hook_entries.
Qed.

Lemma getTableData_hook_filter_witness :
  exists calls,
    getTableData_query orders no_params
      (VObj [("filter", VObj [("status", VArr [VStr "active"; VStr "pending"]);
                              ("note", VStr "urgent")])])
    = ([Select ["id"]; From "orders"; Offset (Int 0); Limit (Int 10)] ++ calls,
       Normal tt)
    /\ calls = [WhereIn "status" [VStr "active"; VStr "pending"]]
    /\ clauses calls = [(And, IsIn "status" [VStr "active"; VStr "pending"])].
Proof.
  apply (getTableData_hook_filter orders no_params
           [("filter", VObj [("status", VArr [VStr "active"; VStr "pending"]);
                             ("note", VStr "urgent")])]
           [("status", VArr [VStr "active"; VStr "pending"]); ("note", VStr "urgent")]).
  - reflexivity.
  - repeat constructor; simpl; intuition discriminate.
  - reflexivity.
Defined.

(** A hook whose filter holds scalars only leaves the query as the
    request made it. *)
Example getTableData_scalar_hook_filter :
  getTableData_query orders no_params
    (VObj [("filter", VObj [("status", VStr "active"); ("id", VNum (Int 3))])])
  = getTableData_query orders no_params VUndefined.
Proof. reflexivity. Qed.

(** *** Many-to-many expansion *)



(** Successive assignments to properties of an object: the last
    assignment to a property is what a read of it gives. *)
Lemma own_fold_set {A B : Type} (key_of : B -> string) (val_of : B -> A)
  (l1 l2 : list B) (b : B) (o : list (string * A)) :
  (forall b', In b' l2 -> key_of b' <> key_of b) ->
  own (fold_left (fun o b' => set o (key_of b') (val_of b')) (l1 ++ b :: l2) o)
    (key_of b)
  = Some (val_of b).
Proof.
  intros Hlater. rewrite fold_left_app. simpl.
  generalize (fold_left (fun o b' => set o (key_of b') (val_of b')) l1 o).
  intros o1.
  assert (Hstart : own (set o1 (key_of b) (val_of b)) (key_of b) = Some (val_of b)).
  { rewrite own_set, String.eqb_refl. reflexivity. }
  revert Hstart. generalize (set o1 (key_of b) (val_of b)). clear o o1 l1.
  induction l2 as [|b' l2 IH]; intros o Hstart; simpl; [exact Hstart|].
  apply IH.
  - intros b'' Hin. apply Hlater. right. exact Hin.
  - rewrite own_set.
    destruct (String.eqb_spec (key_of b') (key_of b)) as [Heq|_]; [|exact Hstart].
    exfalso. apply (Hlater b' (or_introl eq_refl)). exact Heq.
Qed.

Example manyToMany_expanded_row :
  getManyToManyRelationQueries (Some catalogue) tagged_products [("id", VNum (Int 1))]
  = Normal [("tags", [ [("id", VNum (Int 9)); ("label", VStr "new")];
                       [("id", VNum (Int 10)); ("label", VStr "sale")] ])]
  /\ mergeRelatedData [("id", VNum (Int 1))] []
       [("tags", [ [("id", VNum (Int 9)); ("label", VStr "new")];
                   [("id", VNum (Int 10)); ("label", VStr "sale")] ])]
     = [ ("id", VNum (Int 1));
         ("tags", VArr [ VObj [("id", VNum (Int 9)); ("label", VStr "new")];
                         VObj [("id", VNum (Int 10)); ("label", VStr "sale")] ]) ].
Proof. split; reflexivity. Qed.

(** *** Verbose substitution *)

(** Two rows that reference category 5 both come back with its name. *)
Example addVerboseRelatedData_same_key :
  addVerboseRelatedData
    [ [("id", VNum (Int 1)); ("categoryId", VNum (Int 5))];
      [("id", VNum (Int 2)); ("categoryId", VNum (Int 5))] ] books library
  = Normal [ [("id", VNum (Int 1)); ("categoryId", VStr "Books")];
             [("id", VNum (Int 2)); ("categoryId", VStr "Books")] ].
Proof. reflexivity. Qed.

(** A key with no related row leaves the column [undefined]. *)
Example addVerboseRelatedData_no_match :
  addVerboseRelatedData
    [ [("id", VNum (Int 1)); ("categoryId", VNum (Int 7))] ] books library
  = Normal [ [("id", VNum (Int 1)); ("categoryId", VUndefined)] ].
Proof. reflexivity. Qed.

(** C5 (as the code has it).  The requests are keyed by related table,
    and each keeps the name of one column only, the first that relates
    to the table.  When [author] and [editor] both relate to [users],
    the keys of both are fetched, [author] is rewritten and [editor]
    keeps its foreign key. *)
Theorem addVerboseRelatedData_second_column_kept :
  map name (getColumnsWithRelations posts) = ["author"; "editor"] /\
  addVerboseRelatedData
    [ [("id", VNum (Int 10)); ("author", VNum (Int 1)); ("editor", VNum (Int 2))] ]
    posts library
  = Normal [ [("id", VNum (Int 10)); ("author", VStr "Ann");
              ("editor", VNum (Int 2))] ].
Proof. split; reflexivity. Qed.

(** With one relation column, every row has that column rewritten to
    the display value recorded for its key. *)
Lemma fold_add_value_fields (vs : list Value) (item : IToRequestItem) :
  fold_left add_value vs item
  = {| values := fold_left set_add vs (values item);
       key := key item;
       display := display item;
       foreignKeyColumn := foreignKeyColumn item |}.
Proof.
  revert item. induction vs as [|v vs IH]; intros item; simpl.
  - destruct item; reflexivity.
  - rewrite IH. reflexivity.
Qed.

Lemma request_rows_one_column
  (column : IColumnInfo) (rel : IColumnRelation) (results : list Row)
  (item : IToRequestItem) :
  relation column = Some rel ->
  request_rows results [(rel_table rel, item)] [column]
  = Normal [(rel_table rel,
             fold_left add_value (map (fun row => get row (name column)) results) item)].
Proof.
  intros Hrel. revert item. induction results as [|row results IH]; intros item.
  - reflexivity.
  - simpl. unfold request_column. rewrite Hrel. unfold lookup. simpl.
    rewrite String.eqb_refl. apply IH.
Qed.

Lemma matcher_one_column (c : string) (rel : IColumnRelation) (item : IToRequestItem)
  (rows : list Row) (displays : list (string * Value)) :
  fold_left
    (fun MATCHER relationRow =>
       match own MATCHER c with
       | Some displays =>
           set MATCHER c
             (set displays (toString (get relationRow (rel_key rel)))
                (get relationRow (rel_display rel)))
       | None => MATCHER
       end) rows [(c, displays)]
  = [(c, fold_left (fun displays r =>
                      set displays (toString (get r (rel_key rel)))
                        (get r (rel_display rel))) rows displays)].
Proof.
  revert displays. induction rows as [|r rows IH]; intros displays; simpl.
  - reflexivity.
  - rewrite String.eqb_refl. apply IH.
Qed.

Lemma addVerboseRelatedData_one_column
  (results : list Row) (TABLE_CONFIG : ITableInfo) (DB : Database)
  (column : IColumnInfo) (rel : IColumnRelation) :
  getColumnsWithRelations TABLE_CONFIG = [column] ->
  relation column = Some rel ->
  inherited (rel_table rel) = false ->
  addVerboseRelatedData results TABLE_CONFIG DB
  = if existsb is_undefined (collected_keys (name column) results)
    then Throw UndefinedBinding
    else
      Normal
        (map (fun row =>
                set row (name column)
                  (get (display_map rel (fetched_rows DB rel (name column) results))
                     (toString (get row (name column)))))
           results).
Proof.
  intros Hcols Hrel Hinh. unfold addVerboseRelatedData. rewrite Hcols.
  destruct results as [|row0 rest]; [reflexivity|].
  assert (Hreq : request_rows (row0 :: rest) [] [column]
                 = Normal [(rel_table rel,
                            {| values := collected_keys (name column) (row0 :: rest);
                               key := rel_key rel;
                               display := rel_display rel;
                               foreignKeyColumn := name column |})]).
  { simpl. unfold request_column. rewrite Hrel. unfold lookup. simpl. rewrite Hinh.
    rewrite (request_rows_one_column column rel rest _ Hrel).
    rewrite fold_add_value_fields. reflexivity. }
  rewrite Hreq.
  cbn [map fst snd key display values all].
  unfold fetch.
  cbn [statements flat_map statement app existsb snd binds_undefined].
  rewrite orb_false_r.
  destruct (existsb is_undefined (collected_keys (name column) (row0 :: rest)));
    [reflexivity|].
  f_equal.
  cbn [map fst snd Js.values combine fold_left key display values foreignKeyColumn set].
  fold (fetched_rows DB rel (name column) (row0 :: rest)).
  rewrite (matcher_one_column (name column) rel
             {| values := []; key := ""; display := ""; foreignKeyColumn := "" |}).
  fold (display_map rel (fetched_rows DB rel (name column) (row0 :: rest))).
  set (D := display_map rel (fetched_rows DB rel (name column) (row0 :: rest))).
  assert (Hread : forall v, matcher_read [(name column, D)] (name column) v
                            = get D (toString v)).
  { intros v. unfold matcher_read. simpl. rewrite String.eqb_refl. reflexivity. }
  cbn [map]. rewrite Hread. f_equal.
  apply map_ext. intros row. rewrite Hread. reflexivity.
Qed.

Lemma own_fold_set_last {A B : Type} (key_of : B -> string) (val_of : B -> A)
  (l : list B) (o : list (string * A)) (k : string) :
  own (fold_left (fun o b => set o (key_of b) (val_of b)) l o) k
  = match List.find (fun b => (key_of b =? k)%string) (rev l) with
    | Some b => Some (val_of b)
    | None => own o k
    end.
Proof.
  induction l as [|b l IH] using rev_ind.
  - reflexivity.
  - rewrite fold_left_app, rev_app_distr. simpl. rewrite own_set, IH.
    destruct (key_of b =? k)%string; reflexivity.
Qed.

Lemma find_map {A B : Type} (f : A -> B) (p : B -> bool) (l : list A) :
  List.find p (map f l) = option_map f (List.find (fun a => p (f a)) l).
Proof.
  induction l as [|a l IH]; simpl; [reflexivity|].
  destruct (p (f a)); [reflexivity|exact IH].
Qed.

Lemma find_pointwise {A : Type} (p q : A -> bool) (l : list A) :
  (forall a, p a = q a) -> List.find p l = List.find q l.
Proof.
  intros Hpq. induction l as [|a l IH]; simpl; [reflexivity|].
  rewrite Hpq, IH. reflexivity.
Qed.

(** The two selected columns read the same on the projected row. *)
Lemma get_project (d k : string) (r : Row) (x : string) :
  x = d \/ x = k -> get (project [d; k] r) x = get r x.
Proof.
  intros Hx. unfold get, lookup, project. simpl.
  destruct (own r d) as [vd|] eqn:Hd; destruct (own r k) as [vk|] eqn:Hk; simpl;
    destruct Hx as [Hx|Hx]; subst x;
    rewrite ?String.eqb_refl, ?Hd, ?Hk; try reflexivity;
    destruct (String.eqb_spec d k) as [Heq|Hne]; try reflexivity;
    try (rewrite Heq in Hd; congruence);
    try (destruct (String.eqb_spec k d) as [Heq'|_]; [congruence|]);
    rewrite ?Hd, ?Hk; reflexivity.
Qed.

Lemma fetched_rows_filter (DB : Database) (rel : IColumnRelation) (c : string)
  (results : list Row) :
  fetched_rows DB rel c results
  = map (project [rel_display rel; rel_key rel])
      (List.filter (fun r => existsb (sql_eq (get r (rel_key rel)))
                               (collected_keys c results))
         (rows_of DB (rel_table rel))).
Proof. reflexivity. Qed.

Lemma own_display_map (rel : IColumnRelation) (rows : list Row) (k : string) :
  own (display_map rel (map (project [rel_display rel; rel_key rel]) rows)) k
  = option_map (fun r => get r (rel_display rel))
      (List.find (fun r => (toString (get r (rel_key rel)) =? k)%string) (rev rows)).
Proof.
  unfold display_map.
  rewrite (own_fold_set_last (fun r => toString (get r (rel_key rel)))
             (fun r => get r (rel_display rel))).
  rewrite <- map_rev, find_map. simpl.
  rewrite (find_pointwise (fun r => (toString (get (project [rel_display rel; rel_key rel]
                                           r) (rel_key rel)) =? k)%string)
             (fun r => (toString (get r (rel_key rel)) =? k)%string)).
  - cbv beta. unfold Row.
    match goal with
    | |- context [@List.find ?T ?p ?l] => destruct (@List.find T p l) as [r|]
    end; cbn [option_map]; [|reflexivity].
    rewrite get_project; auto.
  - intros r. rewrite get_project; auto.
Qed.

Lemma same_value_zero_eq (a b : Value) : same_value_zero a b = true -> a = b.
Proof.
  destruct a as [| |x|[x| |n]|s| | |], b as [| |y|[y| |m]|t| | |];
    simpl; intros H; try discriminate; try reflexivity.
  - apply Bool.eqb_prop in H. congruence.
  - apply Z.eqb_eq in H. congruence.
  - apply Bool.eqb_prop in H. congruence.
  - apply String.eqb_eq in H. congruence.
Qed.


Lemma set_add_In (members : list Value) (v x : Value) :
  x = v \/ In x members -> In x (set_add members v).
Proof.
  unfold set_add. intros Hx.
  destruct (existsb (same_value_zero v) members) eqn:Hmember.
  - destruct Hx as [->|Hin]; [|exact Hin].
    apply existsb_exists in Hmember. destruct Hmember as [v' [Hin Hsame]].
    apply same_value_zero_eq in Hsame. subst v'. exact Hin.
  - apply in_or_app. destruct Hx as [->|Hin]; [right; left; reflexivity|left; exact Hin].
Qed.

Lemma fold_set_add_In (vs members : list Value) (x : Value) :
  In x vs \/ In x members -> In x (fold_left set_add vs members).
Proof.
  revert members. induction vs as [|v vs IH]; intros members Hx; simpl.
  - destruct Hx as [[]|Hin]. exact Hin.
  - apply IH. destruct Hx as [[->|Hin]|Hin].
    + right. apply set_add_In. left. reflexivity.
    + left. exact Hin.
    + right. apply set_add_In. right. exact Hin.
Qed.

Lemma collected_keys_In (c : string) (results : list Row) (row : Row) :
  In row results -> In (get row c) (collected_keys c results).
Proof.
  intros Hin. unfold collected_keys. apply fold_set_add_In. left.
  apply (in_map (fun row => get row c)). exact Hin.
Qed.

Lemma fold_set_add_from (vs members : list Value) (x : Value) :
  In x (fold_left set_add vs members) -> In x vs \/ In x members.
Proof.
  revert members. induction vs as [|v vs IH]; intros members Hx; simpl in *.
  - right. exact Hx.
  - destruct (IH _ Hx) as [Hin|Hin]; [left; right; exact Hin|].
    unfold set_add in Hin. destruct (existsb (same_value_zero v) members).
    + right. exact Hin.
    + apply in_app_or in Hin. destruct Hin as [Hin|[->|[]]].
      * right. exact Hin.
      * left. left. reflexivity.
Qed.

(** [undefined] is among the keys collected exactly when some row has
    no value in the column. *)
Lemma collected_keys_undefined (c : string) (results : list Row) :
  existsb is_undefined (collected_keys c results)
  = existsb (fun row => is_undefined (get row c)) results.
Proof.
  apply Bool.eq_iff_eq_true. rewrite !existsb_exists. split.
  - intros [v [Hin Hv]]. unfold collected_keys in Hin.
    apply fold_set_add_from in Hin. destruct Hin as [Hin|[]].
    apply in_map_iff in Hin. destruct Hin as [row [<- Hrow]]. eauto.
  - intros [row [Hrow Hv]]. exists (get row c). split; [|exact Hv].
    apply collected_keys_In. exact Hrow.
Qed.


(** With one relation column, in a batch whose rows all have a value
    in the column: a row whose key no related row has comes back with
    the column [undefined], and nothing is thrown.  When some row of
    the batch has no value in the column, this row or another, Knex
    rejects the query for the related rows and the whole call is
    rejected. *)
Lemma addVerboseRelatedData_undefined
  (results : list Row) (TABLE_CONFIG : ITableInfo) (DB : Database)
  (column : IColumnInfo) (rel : IColumnRelation) (row : Row) :
  getColumnsWithRelations TABLE_CONFIG = [column] ->
  relation column = Some rel ->
  inherited (rel_table rel) = false ->
  In row results ->
  (forall r, In r (rows_of DB (rel_table rel)) ->
             toString (get r (rel_key rel)) <> toString (get row (name column))) ->
  inherited (toString (get row (name column))) = false ->
  if existsb (fun r => is_undefined (get r (name column))) results
  then addVerboseRelatedData results TABLE_CONFIG DB = Throw UndefinedBinding
  else
    exists out,
      addVerboseRelatedData results TABLE_CONFIG DB = Normal out
      /\ In (set row (name column) VUndefined) out.
Proof.
  intros Hcols Hrel Hinh Hrow Hnone Hplain.
  rewrite (addVerboseRelatedData_one_column results TABLE_CONFIG DB column rel
             Hcols Hrel Hinh).
  rewrite collected_keys_undefined.
  destruct (existsb (fun r => is_undefined (get r (name column))) results);
    [reflexivity|].
  eexists. split; [reflexivity|].
  apply in_map_iff. exists row. split; [|exact Hrow]. f_equal.
  unfold get at 1. unfold lookup.
  rewrite fetched_rows_filter, own_display_map.
  match goal with
  | |- context [@List.find ?T ?p ?l] =>
      destruct (@List.find T p l) as [r1|] eqn:Hfind
  end; simpl.
  - apply find_some in Hfind. destruct Hfind as [Hin Hmatch].
    apply in_rev in Hin. apply filter_In in Hin. destruct Hin as [Hin _].
    apply String.eqb_eq in Hmatch. exfalso. exact (Hnone r1 Hin Hmatch).
  - rewrite Hplain. reflexivity.
Qed.
(* ================================================================== *)
(** ** Further properties *)
(* ================================================================== *)

(** *** Looking a table up *)

(** [getTableConfig] returns the first table of the settings that has
    the name asked for, and nothing when no table has it. *)
Theorem getTableConfig_first_of_name (settings : list UtilsRest.ITable) (n : string) :
  match UtilsRest.getTableConfig settings n with
  | Some t =>
      table_name (UtilsRest.info t) = n
      /\ exists earlier later,
          settings = earlier ++ t :: later
          /\ forall t', In t' earlier -> table_name (UtilsRest.info t') <> n
  | None => forall t, In t settings -> table_name (UtilsRest.info t) <> n
  end.
Proof.
  unfold UtilsRest.getTableConfig.
  induction settings as [|t settings IH]; simpl.
  - intros t [].
  - destruct (String.eqb_spec (table_name (UtilsRest.info t)) n) as [Heq|Hne]; simpl.
    + split; [exact Heq|]. exists [], settings. split; [reflexivity|]. intros t' [].
    + destruct (hd_error _) as [t0|].
      * destruct IH as [Hname [earlier [later [Hsplit Hearlier]]]].
        split; [exact Hname|]. exists (t :: earlier), later. split.
        -- rewrite Hsplit. reflexivity.
        -- intros t' [<-|Hin]; auto.
      * intros t' [<-|Hin]; auto.
Qed.

(** *** Free-text search *)

Lemma chain_joined_by_and (l : list (Connective * bool)) (cur : bool) :
  forallb (fun s => match fst s with And => true | Or => false end) l = true ->
  chain cur l = cur && forallb snd l.
Proof.
  revert cur. induction l as [|[[|] b] l IH]; intros cur Hall; simpl in *.
  - rewrite andb_true_r. reflexivity.
  - rewrite (IH _ Hall), andb_assoc. reflexivity.
  - discriminate.
Qed.

Lemma chain_joined_by_or (bs : list bool) (cur : bool) :
  chain cur (map (fun b => (Or, b)) bs) = cur || existsb (fun b => b) bs.
Proof.
  revert cur. induction bs as [|b bs IH]; intros cur; simpl.
  - rewrite orb_false_r. reflexivity.
  - rewrite IH. reflexivity.
Qed.

Lemma search_loop_rest (search : string) (fields : list string) (index : nat)
  (q : QueryBuilder) :
  forEach_from (S index)
    (fun searchField index =>
       if (index =? 0)%nat
       then call (Where_like searchField ("%" ++ search ++ "%"))
       else call (OrWhere_like searchField ("%" ++ search ++ "%")))
    fields q
  = (q ++ map (fun f => OrWhere_like f ("%" ++ search ++ "%")) fields, Normal tt).
Proof.
  revert index q. induction fields as [|f fields IH]; intros index q; simpl.
  - rewrite app_nil_r. reflexivity.
  - unfold bind, call at 1. rewrite IH, <- app_assoc. reflexivity.
Qed.

Lemma statements_or_likes (pattern : string) (fields : list string) :
  statements (map (fun f => OrWhere_like f pattern) fields)
  = map (fun f => (Or, Like f pattern)) fields.
Proof. induction fields as [|f fields IH]; simpl; [|rewrite <- IH]; reflexivity. Qed.

Lemma satisfies_and_group (stmts : list (Connective * Predicate)) (g : Predicate)
  (row : Row) :
  forallb joined_by_and stmts = true ->
  satisfies (stmts ++ [(And, g)]) row = satisfies stmts row && holds row g.
Proof.
  intros Hall. unfold satisfies. rewrite map_app. simpl.
  destruct stmts as [|[c p] stmts]; [reflexivity|].
  simpl in *. apply andb_true_iff in Hall. destruct Hall as [_ Hall].
  assert (Hbools : forallb (fun s : Connective * bool =>
                              match fst s with And => true | Or => false end)
                     (map (fun s => (fst s, holds row (snd s))) stmts) = true).
  { rewrite forallb_forall in *. intros s Hs. apply in_map_iff in Hs.
    destruct Hs as [s0 [<- Hin]]. apply (Hall s0 Hin). }
  rewrite !chain_joined_by_and.
  - rewrite forallb_app. simpl. rewrite andb_true_r, andb_assoc. reflexivity.
  - exact Hbools.
  - rewrite forallb_app, Hbools. reflexivity.
Qed.

(** On a query whose statements are joined by AND, [applyQuerySearch]
    keeps the rows the query kept in which some search field matches
    '%search%'; for a table without search fields it keeps them all. *)
Theorem applyQuerySearch_some_field_matches
  (QUERY : QueryBuilder) (search : string) (TABLE_CONFIG : ITableInfo) (row : Row) :
  forallb joined_by_and (statements QUERY) = true ->
  satisfies (statements (applyQuerySearch QUERY search TABLE_CONFIG)) row
  = satisfies (statements QUERY) row
    && match searchFields TABLE_CONFIG with
       | Some (f :: fs) =>
           existsb (fun field => holds row (Like field ("%" ++ search ++ "%"))) (f :: fs)
       | _ => true
       end.
Proof.
  intros Hall. unfold applyQuerySearch. rewrite statements_app.
  change (statements [Where_callback ?this])
    with [(And, Grouped (statements this))].
  rewrite (satisfies_and_group _ _ _ Hall). f_equal.
  destruct (searchFields TABLE_CONFIG) as [[|f fs]|]; try reflexivity.
  unfold forEach. cbn [forEach_from]. unfold bind, call at 1.
  change (0 =? 0)%nat with true. cbv beta iota.
  rewrite search_loop_rest. cbn [fst app].
  change (statements (?c :: ?rest)) with (statement c ++ statements rest).
  rewrite statements_or_likes. cbn [statement app holds chain_all map fst snd].
  rewrite map_map. cbn [fst snd].
  rewrite <- (map_map (fun f0 => holds row (Like f0 ("%" ++ search ++ "%")))
                (fun b => (Or, b))).
  rewrite chain_joined_by_or. cbn [existsb]. f_equal.
  induction fs as [|f0 fs IH]; [reflexivity|].
  cbn [map existsb]. rewrite IH. reflexivity.
Qed.

Lemma applyQuerySearch_some_field_matches_witness :
  let row := [("id", VNum (Int 3)); ("text", VStr "second"); ("ip", VStr "10.0.0.3")] in
  satisfies
    (statements (applyQuerySearch [From "comments"; WhereIn "id" [VNum (Int 3)]]
                   "0.0" comments)) row
  = true.
Proof.
  intros row.
  rewrite (applyQuerySearch_some_field_matches
             [From "comments"; WhereIn "id" [VNum (Int 3)]] "0.0" comments row).
  - reflexivity.
  - reflexivity.
Defined.

(** *** Merging the related rows *)

(** What the expanded row holds under a name: the rows of the last
    many-to-many query of that name; failing that, the rows of the last
    many-to-one query of that name; failing that, what the parent row
    held.  A relation named like a column of the row replaces it, and
    no other column of the row changes. *)
Theorem mergeRelatedData_last_assignment
  (results : Row) (manyToOneRelations : list IRelatedRows)
  (manyToManyRelations : list (string * list Row)) (k : string) :
  get (mergeRelatedData results manyToOneRelations manyToManyRelations) k
  = match List.find (fun pair => (fst pair =? k)%string) (rev manyToManyRelations) with
    | Some found => rows_value (snd found)
    | None =>
        match List.find (fun relation => (tableName relation =? k)%string)
                (rev manyToOneRelations) with
        | Some relation => rows_value (related relation)
        | None => get results k
        end
    end.
Proof.
  unfold mergeRelatedData, get, lookup.
  rewrite (own_fold_set_last (fun pair : string * list Row => fst pair)
             (fun pair => rows_value (snd pair))).
  destruct (List.find _ (rev manyToManyRelations)) as [found|]; [reflexivity|].
  rewrite (own_fold_set_last tableName (fun relation => rows_value (related relation))).
  destruct (List.find _ (rev manyToOneRelations)) as [relation|]; reflexivity.
Qed.

(** *** Pages of a result *)

Lemma table_of_paginated (q : QueryBuilder) (a b : num) :
  table_of (q ++ [Offset a; Limit b]) = table_of q.
Proof. unfold table_of. rewrite fold_left_app. reflexivity. Qed.

Lemma selection_paginated (q : QueryBuilder) (a b : num) :
  selection (q ++ [Offset a; Limit b]) = selection q.
Proof. unfold selection. rewrite flat_map_app. simpl. apply app_nil_r. Qed.

Lemma statements_paginated (q : QueryBuilder) (a b : num) :
  statements (q ++ [Offset a; Limit b]) = statements q.
Proof. rewrite statements_app. simpl. apply app_nil_r. Qed.

(** On a query that has no offset and no limit yet, [paginate] with a
    page number [p] that is not negative and a positive limit [l], both
    below 2^53 and with a product below 2^53 (where the product of
    doubles is exact), makes the query return rows [p * l] to
    [p * l + l - 1] of what it returned. *)
Theorem paginate_selects_page
  (db : Database) (q : QueryBuilder) (p l : Z) :
  offset_of q = None ->
  limit_of q = None ->
  0 <= p ->
  0 < l ->
  l < 2 ^ 53 ->
  p * l < 2 ^ 53 ->
  execute db (paginate q (P_number (Int p)) (P_number (Int l)))
  = firstn (Z.to_nat l) (skipn (Z.to_nat (p * l)) (execute db q)).
Proof.
  intros Hoff Hlim Hp Hl Hlimit Hsafe.
  rewrite (paginate_numbers q p l Hl) by (rewrite Z.abs_eq; nia).
  unfold execute.
  rewrite table_of_paginated, selection_paginated, statements_paginated.
  destruct (table_of q) as [t|]; [|rewrite skipn_nil, firstn_nil; reflexivity].
  rewrite Hoff, Hlim.
  assert (Hoff' : offset_of (q ++ [Offset (Int (p * l)); Limit (Int l)])
                  = Some (Int (p * l))).
  { unfold offset_of. rewrite fold_left_app. reflexivity. }
  assert (Hlim' : limit_of (q ++ [Offset (Int (p * l)); Limit (Int l)])
                  = Some (Int l)).
  { unfold limit_of. rewrite fold_left_app. reflexivity. }
  rewrite Hoff', Hlim'. unfold window.
  rewrite skipn_map, firstn_map. reflexivity.
Qed.

Lemma paginate_selects_page_witness :
  execute forum
    (paginate [From "comments"; Select ["id"]] (P_number (Int 1)) (P_number (Int 2)))
  = [ [("id", VNum (Int 3))] ].
Proof.
  rewrite (paginate_selects_page forum [From "comments"; Select ["id"]] 1 2);
    [reflexivity|reflexivity|reflexivity|lia|lia|lia|lia].
Defined.

(** *** The two revisions of the utilities *)

(** Every column the earlier [filterVisibleTableColumns] returns for the
    main page, the later one returns too. *)
Theorem filterVisibleTableColumns_later_keeps_more (table : ITableInfo) (n : string) :
  In n (UtilsIndexTsRest.filterVisibleTableColumns table Main) ->
  In n (Utils.filterVisibleTableColumns table Main).
Proof.
  unfold UtilsIndexTsRest.filterVisibleTableColumns, Utils.filterVisibleTableColumns.
  intros Hin. apply in_map_iff in Hin. destruct Hin as [column [Hname Hin]].
  apply filter_In in Hin. destruct Hin as [Hcol Hkept].
  apply in_map_iff. exists column. split; [exact Hname|].
  apply filter_In. split; [exact Hcol|].
  apply orb_true_iff in Hkept. destruct Hkept as [Hkept|Hkept].
  - apply orb_true_iff in Hkept. destruct Hkept as [Hvisible|Hpk].
    + rewrite Hvisible. reflexivity.
    + destruct (pk table) as [s|l]; [|discriminate].
      apply String.eqb_eq in Hpk. simpl. rewrite Hpk, string_indexOf_self.
      rewrite orb_true_r. reflexivity.
  - destruct (chips table); rewrite Hkept, orb_true_r; reflexivity.
Qed.

Lemma filterVisibleTableColumns_later_keeps_more_witness :
  In "id" (Utils.filterVisibleTableColumns orders Main).
Proof.
  apply (filterVisibleTableColumns_later_keeps_more orders "id").
  simpl. left. reflexivity.
Defined.

(** A composite key that is hidden is returned by the later revision
    and dropped by the earlier one. *)
Example filterVisibleTableColumns_earlier_drops_composite_key :
  UtilsIndexTsRest.filterVisibleTableColumns products Main = ["label"]
  /\ Utils.filterVisibleTableColumns products Main = ["id"; "sku"; "label"].
Proof. split; reflexivity. Qed.

Lemma forEach_from_pointwise {A : Type} (b1 b2 : A -> nat -> M unit) (l : list A) :
  (forall x, In x l -> forall index q, b1 x index q = b2 x index q) ->
  forall index q, forEach_from index b1 l q = forEach_from index b2 l q.
Proof.
  induction l as [|x l IH]; intros Hsame index q; simpl; [reflexivity|].
  unfold bind. rewrite (Hsame x (or_introl eq_refl)).
  destruct (b2 x index q) as [q' [[]|e]]; [|reflexivity].
  apply IH. intros y Hy. apply Hsame. right. exact Hy.
Qed.

(** On filters whose values are neither [null] nor lists, over columns
    that are neither smallint(5) nor datetime, the two revisions of
    [applyQueryFilters] make the same calls and fail alike. *)
Theorem applyQueryFilters_revisions_agree
  (QUERY : QueryBuilder) (FILTERS : list (string * Value)) (TABLE_CONFIG : ITableInfo) :
  (forall k, In k (keys FILTERS) ->
             plain_scalar (get FILTERS k) = true
             /\ Spec.storage_type TABLE_CONFIG k <> Some "smallint(5)"
             /\ Spec.storage_type TABLE_CONFIG k <> Some "datetime") ->
  UtilsIndexTsRest.applyQueryFilters QUERY FILTERS TABLE_CONFIG
  = Utils.applyQueryFilters QUERY FILTERS TABLE_CONFIG.
Proof.
  intros Hplain.
  unfold UtilsIndexTsRest.applyQueryFilters, Utils.applyQueryFilters, forEach.
  apply forEach_from_pointwise. intros k Hk index q.
  destruct (Hplain k Hk) as [Hscalar [Hsmall Hdate]].
  unfold UtilsIndexTsRest.applyQueryFilters_entry, Utils.applyQueryFilters_entry.
  unfold read_type, lookup, bind. rewrite own_getColumnsByName.
  unfold Spec.storage_type in Hsmall, Hdate.
  destruct (Spec.declared_column TABLE_CONFIG k) as [c|]; simpl in *.
  - assert (H1 : (type c =? "smallint(5)")%string = false).
    { apply String.eqb_neq. congruence. }
    assert (H2 : (type c =? "datetime")%string = false).
    { apply String.eqb_neq. congruence. }
    rewrite H1, H2, !orb_false_r.
    destruct (type c =? "int(11)")%string, (index =? 0)%nat, (get FILTERS k);
      try discriminate; reflexivity.
  - destruct (inherited k); [|reflexivity]. simpl.
    destruct (index =? 0)%nat, (get FILTERS k); try discriminate; reflexivity.
Qed.

Lemma applyQueryFilters_revisions_agree_witness :
  UtilsIndexTsRest.applyQueryFilters [] [("status", VStr "open"); ("id", VNum (Int 4))]
    orders
  = ([Where_like "status" "%open%"; AndWhere_object "id" (VNum (Int 4))], Normal tt).
Proof.
  rewrite (applyQueryFilters_revisions_agree []
             [("status", VStr "open"); ("id", VNum (Int 4))] orders).
  - reflexivity.
  - simpl. intros k [<-|[<-|[]]]; repeat split; discriminate.
Defined.

(** The earlier revision has no case for [null]: it looks for the text
    "null". *)
Example applyQueryFilters_earlier_null :
  UtilsIndexTsRest.applyQueryFilters [] [("note", VNull)] orders
  = ([Where_like "note" "%null%"], Normal tt)
  /\ Utils.applyQueryFilters [] [("note", VNull)] orders
     = ([WhereNull "note"], Normal tt).
Proof. split; reflexivity. Qed.

(** *** Many-to-one relations *)

Lemma getRelatedRow_loop (parent : list (string * Value))
  (columnNames : list IManyToOneRelation) (index : nat) (q : QueryBuilder) :
  forEach_from index (Relations.getRelatedRow_where (VObj parent)) columnNames q
  = (q ++ related_calls parent index columnNames, Normal tt).
Proof.
  revert index q. induction columnNames as [|c rest IH]; intros index q; simpl.
  - rewrite app_nil_r. reflexivity.
  - unfold bind, Relations.getRelatedRow_where at 1. simpl.
    destruct (index =? 0)%nat; unfold call; rewrite IH, <- app_assoc; reflexivity.
Qed.

Lemma related_calls_statements (parent : list (string * Value))
  (columnNames : list IManyToOneRelation) (index : nat) :
  statements (related_calls parent index columnNames)
  = map (fun c => (And, equality (fk c) (get parent (target c)))) columnNames.
Proof.
  revert index. induction columnNames as [|c rest IH]; intros index; simpl.
  - reflexivity.
  - change (statements (?x :: ?l)) with (statement x ++ statements l).
    rewrite IH. destruct (index =? 0)%nat; reflexivity.
Qed.

Lemma related_calls_shape (parent : list (string * Value))
  (columnNames : list IManyToOneRelation) (index : nat) (q : QueryBuilder) :
  table_of (q ++ related_calls parent index columnNames) = table_of q
  /\ selection (q ++ related_calls parent index columnNames) = selection q
  /\ offset_of (q ++ related_calls parent index columnNames) = offset_of q
  /\ limit_of (q ++ related_calls parent index columnNames) = limit_of q.
Proof.
  revert index q. induction columnNames as [|c rest IH]; intros index q; simpl.
  - rewrite app_nil_r. auto.
  - change (q ++ ?x :: ?l) with (q ++ [x] ++ l). rewrite app_assoc.
    destruct (IH (S index)
                (q ++ [if (index =? 0)%nat
                       then Where_value (fk c) (get parent (target c))
                       else AndWhere_value (fk c) (get parent (target c))]))
      as [Ht [Hs [Ho Hl]]].
    rewrite Ht, Hs, Ho, Hl.
    unfold table_of, selection, offset_of, limit_of.
    rewrite !fold_left_app, flat_map_app.
    destruct (index =? 0)%nat; simpl; rewrite app_nil_r; auto.
Qed.

Lemma forallb_snd_map {A : Type} (f g : A -> bool) (l : list A) :
  (forall a, In a l -> f a = g a) ->
  forallb snd (map (fun a => (And, f a)) l) = forallb g l.
Proof.
  induction l as [|a l IH]; intros Hfg; simpl; [reflexivity|].
  rewrite (Hfg a (or_introl eq_refl)), IH; [reflexivity|].
  intros b Hb. apply Hfg. right. exact Hb.
Qed.

Lemma satisfies_equalities (parent : list (string * Value))
  (columnNames : list IManyToOneRelation) (r : Row) :
  (forall c, In c columnNames -> get parent (target c) <> VNull) ->
  satisfies (map (fun c => (And, equality (fk c) (get parent (target c)))) columnNames) r
  = forallb (fun c => sql_eq (get r (fk c)) (get parent (target c))) columnNames.
Proof.
  intros Hids. unfold satisfies. rewrite map_map.
  assert (Hholds : forall c, In c columnNames ->
                     holds r (equality (fk c) (get parent (target c)))
                     = sql_eq (get r (fk c)) (get parent (target c))).
  { intros c Hc. specialize (Hids c Hc).
    destruct (get parent (target c)); try reflexivity. congruence. }
  destruct columnNames as [|c rest]; [reflexivity|].
  cbn [map chain_all fst snd forallb].
  rewrite (Hholds c (or_introl eq_refl)).
  rewrite chain_joined_by_and.
  - f_equal. apply forallb_snd_map.
    intros c' Hc'. apply Hholds. right. exact Hc'.
  - apply forallb_forall. intros s Hs. apply in_map_iff in Hs.
    destruct Hs as [c' [<- _]]. reflexivity.
Qed.

Lemma fetch_defined (db : Database) (q : QueryBuilder) :
  existsb (fun s => binds_undefined (snd s)) (statements q) = false ->
  fetch db q = Normal (execute db q).
Proof. intros Hdefined. unfold fetch. rewrite Hdefined. reflexivity. Qed.

Lemma equalities_defined (parent : list (string * Value))
  (columnNames : list IManyToOneRelation) :
  (forall c, In c columnNames -> get parent (target c) <> VUndefined) ->
  existsb (fun s => binds_undefined (snd s))
    (map (fun c => (And, equality (fk c) (get parent (target c)))) columnNames)
  = false.
Proof.
  induction columnNames as [|c rest IH]; intros Hdefined; [reflexivity|].
  cbn [map existsb snd].
  rewrite IH by (intros c' Hc'; apply Hdefined; right; exact Hc').
  rewrite orb_false_r.
  pose proof (Hdefined c (or_introl eq_refl)) as Hc.
  destruct (get parent (target c)); try reflexivity. congruence.
Qed.

(** With a store and the related table configured, [getRelatedRow]
    resolves, for a parent row whose target values are neither [null]
    nor [undefined], to the rows of the related table whose join columns
    all equal the parent's target values, each cut down to the requested
    columns. *)
Theorem getRelatedRow_joined_rows
  (db : Database) (settings : list UtilsRest.ITable) (name : string)
  (columnNames : list IManyToOneRelation) (parent : list (string * Value))
  (TABLE : UtilsRest.ITable) :
  UtilsRest.getTableConfig settings name = Some TABLE ->
  (forall c, In c columnNames ->
             get parent (target c) <> VNull /\ get parent (target c) <> VUndefined) ->
  Relations.getRelatedRow (Some db) settings name columnNames (VObj parent)
  = Normal
      {| tableName := name;
         related :=
           map (project (Relations.requestedColumns (UtilsRest.info TABLE) columnNames))
             (joined_rows db name columnNames parent) |}.
Proof.
  intros Hconfig Hids. unfold Relations.getRelatedRow. rewrite Hconfig.
  unfold forEach. rewrite getRelatedRow_loop.
  rewrite fetch_defined
    by (rewrite statements_app, related_calls_statements;
        apply equalities_defined; intros c Hc; exact (proj2 (Hids c Hc))).
  f_equal. f_equal.
  unfold execute.
  destruct (related_calls_shape parent columnNames 0
              [Select (Relations.requestedColumns (UtilsRest.info TABLE) columnNames);
               From name]) as [Ht [Hs [Ho Hl]]].
  rewrite Ht, Hs, Ho, Hl, statements_app, related_calls_statements.
  cbn [table_of selection offset_of limit_of fold_left flat_map app window statements
       statement].
  rewrite app_nil_r. f_equal. unfold joined_rows.
  apply filter_ext. intros r. apply satisfies_equalities.
  intros c Hc. exact (proj1 (Hids c Hc)).
Qed.

Lemma getRelatedRow_joined_rows_witness :
  Relations.getRelatedRow (Some forum) forum_settings "comments"
    [ {| fk := "post_id"; target := "id" |} ]
    (VObj [("id", VNum (Int 10)); ("author", VNum (Int 1))])
  = Normal {| tableName := "comments";
              related := [ [("text", VStr "first")]; [("text", VStr "second")] ] |}.
Proof.
  rewrite (getRelatedRow_joined_rows forum forum_settings "comments"
             [ {| fk := "post_id"; target := "id" |} ]
             [("id", VNum (Int 10)); ("author", VNum (Int 1))]
             {| UtilsRest.info := comments; UtilsRest.hooks := None |}).
  - reflexivity.
  - reflexivity.
  - simpl. intros c [<-|[]]. simpl. split; discriminate.
Defined.

(** A column whose name occurs inside the name of a join column is
    never among the requested columns: not the join column itself, and
    not, say, [id] beside the join column [post_id]. *)
Theorem requestedColumns_leaves_out
  (TABLE_CONFIG : ITableInfo) (columnNames : list IManyToOneRelation)
  (c : IManyToOneRelation) (n : string) :
  In c columnNames ->
  0 <= string_indexOf (fk c) n ->
  ~ In n (Relations.requestedColumns TABLE_CONFIG columnNames).
Proof.
  intros Hc Hinside Hin. unfold Relations.requestedColumns in Hin.
  apply filter_In in Hin. destruct Hin as [_ Hkept].
  unfold find in Hkept.
  destruct (List.find _ columnNames) as [found|] eqn:Hfind; [discriminate|].
  apply (find_none _ _ Hfind) in Hc. apply Z.leb_gt in Hc. lia.
Qed.

Lemma requestedColumns_leaves_out_witness :
  ~ In "id" (Relations.requestedColumns comments [ {| fk := "post_id"; target := "id" |} ])
  /\ filterVisibleTableColumns comments Detail = ["id"; "post_id"; "text"].
Proof.
  split; [|reflexivity].
  apply (requestedColumns_leaves_out comments [ {| fk := "post_id"; target := "id" |} ]
           {| fk := "post_id"; target := "id" |} "id").
  - left. reflexivity.
  - vm_compute. discriminate.
Defined.

(** *** What the filters leave alone *)

Lemma only_adds_wheres_ret : only_adds_wheres (ret tt).
Proof. intros q. exists []. rewrite app_nil_r. auto. Qed.

Lemma only_adds_wheres_throw (e : Exception) : only_adds_wheres (throw e).
Proof. intros q. exists []. rewrite app_nil_r. auto. Qed.

Lemma only_adds_wheres_call (c : Call) :
  is_where_call c = true -> only_adds_wheres (call c).
Proof. intros Hc q. exists [c]. simpl. rewrite Hc. auto. Qed.

Lemma only_adds_wheres_bind {A : Type} (m : M A) (k : A -> M unit) :
  (forall q, exists calls, fst (m q) = q ++ calls /\ forallb is_where_call calls = true) ->
  (forall a, only_adds_wheres (k a)) ->
  only_adds_wheres (bind m k).
Proof.
  intros Hm Hk q. unfold bind. destruct (Hm q) as [calls [Hq Hcalls]].
  destruct (m q) as [q' [a|e]]; simpl in Hq; subst q'.
  - destruct (Hk a (q ++ calls)) as [calls' [Hq' Hcalls']].
    exists (calls ++ calls'). rewrite Hq', app_assoc, forallb_app, Hcalls, Hcalls'. auto.
  - exists calls. auto.
Qed.

Lemma only_adds_wheres_forEach {A : Type} (body : A -> nat -> M unit) (l : list A) :
  (forall x index, only_adds_wheres (body x index)) ->
  forall index, only_adds_wheres (forEach_from index body l).
Proof.
  intros Hbody. induction l as [|x l IH]; intros index; simpl.
  - apply only_adds_wheres_ret.
  - apply only_adds_wheres_bind; [apply Hbody|]. intros _. apply IH.
Qed.

Lemma read_type_adds_nothing (columnsByName : list (string * IColumnInfo)) (k : string) :
  forall q, exists calls,
    fst (read_type columnsByName k q) = q ++ calls
    /\ forallb is_where_call calls = true.
Proof.
  intros q. exists []. rewrite app_nil_r. unfold read_type.
  destruct (lookup columnsByName k); auto.
Qed.

Lemma applyQueryFilters_entry_only_wheres
  (columnsByName : list (string * IColumnInfo)) (FILTERS : list (string * Value))
  (k : string) (index : nat) :
  only_adds_wheres (applyQueryFilters_entry columnsByName FILTERS k index).
Proof.
  unfold applyQueryFilters_entry.
  apply only_adds_wheres_bind; [apply read_type_adds_nothing|]. intros t.
  destruct (type_is t "int(11)" || type_is t "smallint(5)" || type_is t "datetime"),
    (index =? 0)%nat, (get FILTERS k);
    apply only_adds_wheres_call; reflexivity.
Qed.

Lemma applyPKFilters_key_only_wheres
  (TABLE_CONFIG : ITableInfo) (columnsByName : list (string * IColumnInfo))
  (body_pk : list (string * Value)) (k : string) (index : nat) :
  only_adds_wheres (applyPKFilters_key TABLE_CONFIG columnsByName body_pk k index).
Proof.
  unfold applyPKFilters_key.
  destruct (negb _); [apply only_adds_wheres_throw|].
  apply only_adds_wheres_bind; [apply read_type_adds_nothing|]. intros t.
  destruct (type_is t "int(11)"), (index =? 0)%nat;
    apply only_adds_wheres_call; reflexivity.
Qed.

Lemma wheres_keep_shape (calls : list Call) (q : QueryBuilder) :
  forallb is_where_call calls = true ->
  table_of (q ++ calls) = table_of q
  /\ selection (q ++ calls) = selection q
  /\ offset_of (q ++ calls) = offset_of q
  /\ limit_of (q ++ calls) = limit_of q.
Proof.
  revert q. induction calls as [|c calls IH]; intros q Hall.
  - rewrite app_nil_r. auto.
  - simpl in Hall. apply andb_true_iff in Hall. destruct Hall as [Hc Hall].
    change (q ++ c :: calls) with (q ++ [c] ++ calls). rewrite app_assoc.
    destruct (IH (q ++ [c]) Hall) as [Ht [Hs [Ho Hl]]].
    rewrite Ht, Hs, Ho, Hl.
    unfold table_of, selection, offset_of, limit_of.
    rewrite !fold_left_app, flat_map_app.
    destruct c; try discriminate; simpl; rewrite app_nil_r; auto.
Qed.

Lemma applyQueryFiltersSearch_only_wheres (reqQuery : ReqQuery) (TABLE_CONFIG : ITableInfo) :
  only_adds_wheres (fun q => applyQueryFiltersSearch q reqQuery TABLE_CONFIG).
Proof.
  unfold applyQueryFiltersSearch.
  apply only_adds_wheres_bind.
  - destruct (filter reqQuery) as [FILTERS|]; [|apply only_adds_wheres_ret].
    unfold applyQueryFilters, forEach.
    apply (only_adds_wheres_forEach _ _
             (applyQueryFilters_entry_only_wheres _ FILTERS)).
  - intros _. destruct (search reqQuery) as [s|]; [|apply only_adds_wheres_ret].
    destruct (string_truthy s); [|apply only_adds_wheres_ret].
    intros q. unfold applyQuerySearch. eexists. split; reflexivity.
Qed.

Lemma applyPKFilters_only_wheres (body_pk : list (string * Value))
  (TABLE_CONFIG : ITableInfo) :
  only_adds_wheres (fun q => applyPKFilters q body_pk TABLE_CONFIG).
Proof.
  unfold applyPKFilters.
  apply only_adds_wheres_bind.
  { destruct (pk TABLE_CONFIG); [destruct (negb _)|];
      first [apply only_adds_wheres_throw | apply only_adds_wheres_ret]. }
  intros _. apply only_adds_wheres_bind.
  { destruct (pk TABLE_CONFIG); [|destruct (negb _)];
      first [apply only_adds_wheres_throw | apply only_adds_wheres_ret]. }
  intros _. unfold forEach.
  apply (only_adds_wheres_forEach _ _
           (applyPKFilters_key_only_wheres TABLE_CONFIG _ body_pk)).
Qed.

(** Whether they return or throw, [applyQueryFiltersSearch] and
    [applyPKFilters] leave on the builder the calls it had, followed by
    calls that add WHERE statements only: the table, the selected
    columns, the offset and the limit of the query are what they were. *)
Theorem filters_leave_the_query_shape
  (QUERY : QueryBuilder) (reqQuery : ReqQuery) (body_pk : list (string * Value))
  (TABLE_CONFIG : ITableInfo) :
  let unchanged (q : QueryBuilder) :=
    (exists calls, q = QUERY ++ calls /\ forallb is_where_call calls = true)
    /\ table_of q = table_of QUERY
    /\ selection q = selection QUERY
    /\ offset_of q = offset_of QUERY
    /\ limit_of q = limit_of QUERY in
  unchanged (fst (applyQueryFiltersSearch QUERY reqQuery TABLE_CONFIG))
  /\ unchanged (fst (applyPKFilters QUERY body_pk TABLE_CONFIG)).
Proof.
  intros unchanged. split.
  - destruct (applyQueryFiltersSearch_only_wheres reqQuery TABLE_CONFIG QUERY)
      as [calls [Hq Hcalls]].
    unfold unchanged. rewrite Hq. split; [eauto|]. apply wheres_keep_shape. exact Hcalls.
  - destruct (applyPKFilters_only_wheres body_pk TABLE_CONFIG QUERY)
      as [calls [Hq Hcalls]].
    unfold unchanged. rewrite Hq. split; [eauto|]. apply wheres_keep_shape. exact Hcalls.
Qed.

(** *** The operations of the controller: the gate *)

(** A caller the table's roles do not authorize gets nothing from
    [getTableCount], [getRowData] and [deleteRowData]: [next] is called
    once, with status 401, and neither the store nor the response is
    touched. *)
Theorem operations_refuse_unauthorized
  (settings : list UtilsRest.ITable) (req : UtilsRest.IMCRequest)
  (TABLE : UtilsRest.ITable) (w : Chain.World) :
  UtilsRest.getTableConfig settings (UtilsRest.params_table req) = Some TABLE ->
  hasAuthorization (roles (UtilsRest.info TABLE)) (UtilsRest.user req) = false ->
  let refused :=
    (after_next w (Some (HttpException 401 "Not authorized")), Normal VUndefined) in
  Operations.getTableCount settings req true w = refused
  /\ Operations.getRowData settings req true w = refused
  /\ Operations.deleteRowData settings req true w = refused.
Proof.
  intros Hconfig Hauth refused.
  unfold Operations.getTableCount, Operations.getRowData, Operations.deleteRowData.
  rewrite Hconfig.
  unfold Chain.catch, Chain.andThen, Operations.requirementsCheck.
  rewrite Hauth. repeat split.
Qed.

Lemma operations_refuse_unauthorized_witness :
  Operations.deleteRowData desk_settings (desk_request None (Some "A1")) true
    (desk_world (Some desk))
  = ({| Chain.database := Some desk; Chain.res := Some [];
        Chain.nexts := [Some (HttpException 401 "Not authorized")];
        Chain.cache := [] |},
     Normal VUndefined).
Proof.
  apply (operations_refuse_unauthorized desk_settings (desk_request None (Some "A1"))
           {| UtilsRest.info := tickets; UtilsRest.hooks := None |}
           (desk_world (Some desk))); reflexivity.
Defined.

(** Without a store connection an authorized call ends with [next]
    called twice with the same error of status 500: once by
    [requirementsCheck] itself and once by the handler of the chain. *)
Theorem operations_without_database
  (settings : list UtilsRest.ITable) (req : UtilsRest.IMCRequest)
  (TABLE : UtilsRest.ITable) (w : Chain.World) :
  UtilsRest.getTableConfig settings (UtilsRest.params_table req) = Some TABLE ->
  hasAuthorization (roles (UtilsRest.info TABLE)) (UtilsRest.user req) = true ->
  Chain.database w = None ->
  let failed :=
    (after_next (after_next w (Some (HttpException 500 "No database")))
       (Some (HttpException 500 "No database")),
     Normal VUndefined) in
  Operations.getTableCount settings req true w = failed
  /\ Operations.getRowData settings req true w = failed
  /\ Operations.deleteRowData settings req true w = failed.
Proof.
  intros Hconfig Hauth Hdb failed.
  unfold Operations.getTableCount, Operations.getRowData, Operations.deleteRowData.
  rewrite Hconfig.
  unfold Chain.catch, Chain.andThen, Operations.requirementsCheck.
  rewrite Hauth, Hdb. repeat split.
Qed.

Lemma operations_without_database_witness :
  Operations.getTableCount desk_settings (desk_request (Some administrator) None) true
    (desk_world None)
  = ({| Chain.database := None; Chain.res := Some [];
        Chain.nexts := [Some (HttpException 500 "No database");
                        Some (HttpException 500 "No database")];
        Chain.cache := [] |},
     Normal VUndefined).
Proof.
  apply (operations_without_database desk_settings
           (desk_request (Some administrator) None)
           {| UtilsRest.info := tickets; UtilsRest.hooks := None |}
           (desk_world None)); reflexivity.
Defined.

(** *** Counting *)

Lemma execute_wheres (db : Database) (q0 : QueryBuilder) (calls : list Call)
  (t : string) :
  table_of q0 = Some t ->
  offset_of q0 = None ->
  limit_of q0 = None ->
  statements q0 = [] ->
  forallb is_where_call calls = true ->
  execute db (q0 ++ calls)
  = map (project (selection q0))
      (List.filter (satisfies (statements calls)) (rows_of db t)).
Proof.
  intros Ht Ho Hl Hs Hcalls. unfold execute.
  destruct (wheres_keep_shape calls q0 Hcalls) as [Ht' [Hs' [Ho' Hl']]].
  rewrite Ht', Hs', Ho', Hl', Ht, Ho, Hl, statements_app, Hs. reflexivity.
Qed.

(** For an authorized caller, with a store and a response object and no
    hook on the table, [getTableCount] answers under [count] the number
    of rows of the table that satisfy the statements built from the
    request's filter and search, and calls [next()] once; when building
    them throws, the exception goes to [next] and the response is left
    as it was. *)
Theorem getTableCount_counts_matching_rows
  (settings : list UtilsRest.ITable) (req : UtilsRest.IMCRequest)
  (TABLE : UtilsRest.ITable) (w : Chain.World) (db : Database)
  (res_data : list (string * Value)) :
  UtilsRest.getTableConfig settings (UtilsRest.params_table req) = Some TABLE ->
  UtilsRest.hooks TABLE = None ->
  hasAuthorization (roles (UtilsRest.info TABLE)) (UtilsRest.user req) = true ->
  Chain.database w = Some db ->
  Chain.res w = Some res_data ->
  let TABLE_NAME := UtilsRest.params_table req in
  let built :=
    applyQueryFiltersSearch [From TABLE_NAME; Select []] (UtilsRest.query req)
      (UtilsRest.info TABLE) in
  Operations.getTableCount settings req true w
  = match snd built with
    | Normal _ =>
        let counted :=
          VNum (Int (Z.of_nat
                       (List.length
                          (List.filter (satisfies (statements (fst built)))
                             (rows_of db TABLE_NAME))))) in
        (after_answer w db res_data "count" counted,
         Normal (VObj (set res_data "count" counted)))
    | Throw e => (after_next w (Some e), Normal VUndefined)
    end.
Proof.
  intros Hconfig Hhooks Hauth Hdb Hres TABLE_NAME built.
  unfold Operations.getTableCount. rewrite Hconfig.
  unfold Chain.catch, Chain.andThen, Operations.requirementsCheck.
  rewrite Hauth, Hdb. cbn [negb Chain.resolve].
  fold TABLE_NAME. fold built.
  destruct (applyQueryFiltersSearch_only_wheres (UtilsRest.query req)
              (UtilsRest.info TABLE) [From TABLE_NAME; Select []])
    as [calls [Hq Hcalls]].
  fold built in Hq.
  destruct built as [QUERY [[]|e]] eqn:Hbuilt; cbn [fst snd] in *.
  - unfold Operations.run, Chain.resolve, Chain.lift, UtilsRest.runHook.
    rewrite Hhooks. cbn [String.eqb Ascii.eqb Bool.eqb].
    unfold UtilsRest.length_of, rows_value. rewrite length_map.
    unfold Operations.addToResponse, UtilsRest.addToResponse.
    cbn [Chain.res]. rewrite Hres.
    unfold Operations.nextAndReturn, Chain.andThen, Chain.call_next, after_answer.
    cbn [Chain.database Chain.res Chain.nexts Chain.resolve].
    subst QUERY.
    rewrite (execute_wheres db [From TABLE_NAME; Select []] calls TABLE_NAME)
      by (reflexivity || exact Hcalls).
    rewrite length_map, statements_app. cbn [statements flat_map statement app].
    rewrite Hdb. reflexivity.
  - unfold Operations.run, Chain.reject, Operations.report, Chain.andThen,
      Operations.catchMiddleware, Chain.call_next, after_next. reflexivity.
Qed.

Lemma getTableCount_counts_matching_rows_witness :
  Operations.getTableCount desk_settings (desk_request (Some administrator) None) true
    (desk_world (Some desk))
  = ({| Chain.database := Some desk;
        Chain.res := Some [("count", VNum (Int 2))];
        Chain.nexts := [None];
        Chain.cache := [] |},
     Normal (VObj [("count", VNum (Int 2))])).
Proof.
  rewrite (getTableCount_counts_matching_rows desk_settings
             (desk_request (Some administrator) None)
             {| UtilsRest.info := tickets; UtilsRest.hooks := None |}
             (desk_world (Some desk)) desk []); reflexivity.
Defined.

(** *** Reading and deleting a row by its key *)

Lemma applyPKFilters_fitting
  (QUERY : QueryBuilder) (body_pk : list (string * Value)) (TABLE_CONFIG : ITableInfo) :
  (forall k, In k (Spec.pk_columns (pk TABLE_CONFIG)) ->
             In k (map name (columns TABLE_CONFIG))) ->
  key_fits TABLE_CONFIG body_pk ->
  exists calls,
    applyPKFilters QUERY body_pk TABLE_CONFIG = (QUERY ++ calls, Normal tt)
    /\ forallb is_where_call calls = true
    /\ forall r, satisfies (statements calls) r = key_matches TABLE_CONFIG body_pk r.
Proof.
  intros Hcols [Hcard Hkeys].
  pose proof (applyPKFilters_run TABLE_CONFIG body_pk Hcols QUERY) as Hrun.
  rewrite Hcard, Nat.eqb_refl in Hrun. simpl in Hrun.
  assert (Hall : forallb (key_declared (pk TABLE_CONFIG)) (keys body_pk) = true).
  { apply forallb_forall. intros k Hk. apply key_declared_In, Hkeys, Hk. }
  rewrite Hall in Hrun. destruct Hrun as [calls [Hrun Hclauses]].
  exists calls. split; [exact Hrun|].
  destruct (applyPKFilters_only_wheres body_pk TABLE_CONFIG QUERY)
    as [calls' [Hq Hwheres]].
  rewrite Hrun in Hq. simpl in Hq. apply app_inv_head in Hq. subst calls'.
  split; [exact Hwheres|].
  intros r. rewrite <- satisfies_clauses, Hclauses. reflexivity.
Qed.

Lemma applyPKFilters_unfitting
  (QUERY : QueryBuilder) (body_pk : list (string * Value)) (TABLE_CONFIG : ITableInfo) :
  (forall k, In k (Spec.pk_columns (pk TABLE_CONFIG)) ->
             In k (map name (columns TABLE_CONFIG))) ->
  ~ key_fits TABLE_CONFIG body_pk ->
  exists QUERY' message,
    applyPKFilters QUERY body_pk TABLE_CONFIG
    = (QUERY', Throw (HttpException 412 message)).
Proof.
  intros Hcols Hwrong.
  pose proof (applyPKFilters_run TABLE_CONFIG body_pk Hcols QUERY) as Hrun.
  destruct (Nat.eqb_spec (List.length (keys body_pk))
              (Spec.pk_cardinality (pk TABLE_CONFIG))) as [Hcard|Hcard];
    simpl in Hrun; [|eauto].
  destruct (forallb (key_declared (pk TABLE_CONFIG)) (keys body_pk)) eqn:Hall;
    [|exact Hrun].
  exfalso. apply Hwrong. split; [exact Hcard|].
  intros k Hk. rewrite forallb_forall in Hall. apply key_declared_In, Hall, Hk.
Qed.

Section ByKey.
Variable settings : list UtilsRest.ITable.
Variable req : UtilsRest.IMCRequest.
Variable TABLE : UtilsRest.ITable.
Variable w : Chain.World.
Variable db : Database.
Variable res_data : list (string * Value).
Variable body_pk : list (string * Value).

Hypothesis table_configured :
  UtilsRest.getTableConfig settings (UtilsRest.params_table req) = Some TABLE.
Hypothesis no_hooks : UtilsRest.hooks TABLE = None.
Hypothesis authorized :
  hasAuthorization (roles (UtilsRest.info TABLE)) (UtilsRest.user req) = true.
Hypothesis connected : Chain.database w = Some db.
Hypothesis response : Chain.res w = Some res_data.
Hypothesis key_submitted : UtilsRest.body_pk req = Some body_pk.
Hypothesis key_columns_declared :
  forall k, In k (Spec.pk_columns (pk (UtilsRest.info TABLE))) ->
            In k (map name (columns (UtilsRest.info TABLE))).

(** With a key that fits the declared one and no relations asked for,
    [getRowData] answers under [results] the first row of the table
    that the key's predicates hold of, cut down to the columns of the
    detail page; when they hold of no row it answers [undefined], and
    that is no error. *)
Theorem getRowData_first_matching_row :
  UtilsRest.query_includeRelations req = false ->
  key_fits (UtilsRest.info TABLE) body_pk ->
  let found :=
    Operations.first_row
      (map (project (filterVisibleTableColumns (UtilsRest.info TABLE) Detail))
         (List.filter (key_matches (UtilsRest.info TABLE) body_pk)
            (rows_of db (UtilsRest.params_table req)))) in
  Operations.getRowData settings req true w
  = (after_answer w db res_data "results" found,
     Normal (VObj (set res_data "results" found))).
Proof.
  intros Hplain Hfits found.
  unfold Operations.getRowData. rewrite table_configured.
  unfold Chain.catch, Chain.andThen, Operations.requirementsCheck.
  rewrite authorized, connected. cbn [negb Chain.resolve].
  unfold Operations.pk_filters. rewrite key_submitted.
  destruct (applyPKFilters_fitting
              [Select (filterVisibleTableColumns (UtilsRest.info TABLE) Detail);
               From (UtilsRest.params_table req)]
              body_pk (UtilsRest.info TABLE) key_columns_declared Hfits)
    as [calls [Hrun [Hwheres Hmatch]]].
  rewrite Hrun. unfold Operations.run, Chain.resolve.
  rewrite (execute_wheres db _ calls (UtilsRest.params_table req))
    by (reflexivity || exact Hwheres).
  rewrite (filter_ext _ _ Hmatch). cbn [selection flat_map app].
  rewrite app_nil_r. fold found. rewrite Hplain.
  assert (Hmerged : Operations.mergeRelated found [] [] = Normal found).
  { unfold found. destruct (map (project _) _); reflexivity. }
  rewrite Hmerged. unfold UtilsRest.runHook. rewrite no_hooks.
  cbn [String.eqb Ascii.eqb Bool.eqb].
  unfold Operations.addToResponse, UtilsRest.addToResponse. rewrite response.
  unfold Operations.nextAndReturn, Chain.andThen, Chain.call_next, Chain.resolve,
    after_answer.
  cbn [Chain.database Chain.res Chain.nexts]. rewrite connected. reflexivity.
Qed.

(** With a key that fits the declared one, [deleteRowData] removes from
    the table the rows the key's predicates hold of and no other,
    answers their number under [results], and calls [next()] once. *)
Theorem deleteRowData_removes_matching_rows (rows : list Row) :
  own db (UtilsRest.params_table req) = Some rows ->
  key_fits (UtilsRest.info TABLE) body_pk ->
  let matches := key_matches (UtilsRest.info TABLE) body_pk in
  let kept := List.filter (fun r => negb (matches r)) rows in
  let removed := VNum (Int (Z.of_nat (List.length (List.filter matches rows)))) in
  Operations.deleteRowData settings req true w
  = (after_answer w (set db (UtilsRest.params_table req) kept) res_data
       "results" removed,
     Normal (VObj (set res_data "results" removed))).
Proof.
  intros Hrows Hfits matches kept removed.
  unfold Operations.deleteRowData. rewrite table_configured.
  unfold Chain.catch, Chain.andThen, Operations.requirementsCheck.
  rewrite authorized, connected. cbn [negb Chain.resolve].
  unfold UtilsRest.runHook at 1. rewrite no_hooks.
  cbn [String.eqb Ascii.eqb Bool.eqb].
  unfold Operations.pk_filters. rewrite key_submitted.
  destruct (applyPKFilters_fitting [From (UtilsRest.params_table req)]
              body_pk (UtilsRest.info TABLE) key_columns_declared Hfits)
    as [calls [Hrun [Hwheres Hmatch]]].
  rewrite Hrun. unfold Chain.del.
  destruct (wheres_keep_shape calls [From (UtilsRest.params_table req)] Hwheres)
    as [Ht _].
  rewrite Ht. cbn [table_of fold_left]. rewrite Hrows.
  rewrite statements_app. cbn [statements flat_map statement app].
  rewrite (filter_ext _ _ Hmatch).
  rewrite (filter_ext (fun r => negb (satisfies (statements calls) r))
             (fun r => negb (matches r)))
    by (intros r; rewrite Hmatch; reflexivity).
  unfold UtilsRest.runHook. rewrite no_hooks.
  cbn [String.eqb Ascii.eqb Bool.eqb Chain.database Chain.res Chain.nexts].
  unfold Operations.addToResponse, UtilsRest.addToResponse.
  cbn [Chain.database Chain.res Chain.nexts]. rewrite response.
  reflexivity.
Qed.

(** With a key that does not fit the declared one, [getRowData] and
    [deleteRowData] pass an error of status 412 to [next] and touch
    neither the store nor the response. *)
Theorem operations_reject_unfitting_key :
  ~ key_fits (UtilsRest.info TABLE) body_pk ->
  let rejected (outcome : Chain.World * Completion Value) :=
    exists message,
      outcome = (after_next w (Some (HttpException 412 message)), Normal VUndefined) in
  rejected (Operations.getRowData settings req true w)
  /\ rejected (Operations.deleteRowData settings req true w).
Proof.
  intros Hwrong rejected.
  destruct (applyPKFilters_unfitting
              [Select (filterVisibleTableColumns (UtilsRest.info TABLE) Detail);
               From (UtilsRest.params_table req)]
              body_pk (UtilsRest.info TABLE) key_columns_declared Hwrong)
    as [Q1 [message Hrow]].
  destruct (applyPKFilters_unfitting [From (UtilsRest.params_table req)]
              body_pk (UtilsRest.info TABLE) key_columns_declared Hwrong)
    as [Q2 [message' Hdel]].
  unfold rejected, Operations.getRowData, Operations.deleteRowData.
  rewrite table_configured.
  unfold Chain.catch, Chain.andThen, Operations.requirementsCheck.
  rewrite authorized, connected. cbn [negb Chain.resolve].
  unfold UtilsRest.runHook at 2. rewrite no_hooks.
  cbn [String.eqb Ascii.eqb Bool.eqb].
  unfold Operations.pk_filters. rewrite key_submitted, Hrow, Hdel.
  split; eexists; reflexivity.
Qed.
End ByKey.

Lemma tickets_key_columns :
  forall k, In k (Spec.pk_columns (pk tickets)) -> In k (map name (columns tickets)).
Proof. simpl. intuition. Defined.

Lemma tickets_key_fits (code : string) : key_fits tickets [("code", VStr code)].
Proof. split; [reflexivity|]. simpl. intuition. Defined.

Lemma getRowData_first_matching_row_witness :
  Operations.getRowData desk_settings (desk_request (Some administrator) (Some "B2"))
    true (desk_world (Some desk))
  = ({| Chain.database := Some desk;
        Chain.res := Some [("results", VObj [("code", VStr "B2"); ("state", VStr "open")])];
        Chain.nexts := [None];
        Chain.cache := [] |},
     Normal (VObj [("results", VObj [("code", VStr "B2"); ("state", VStr "open")])]))
  /\ Operations.getRowData desk_settings (desk_request (Some administrator) (Some "C"))
       true (desk_world (Some desk))
     = ({| Chain.database := Some desk;
           Chain.res := Some [("results", VUndefined)];
           Chain.nexts := [None];
        Chain.cache := [] |},
        Normal (VObj [("results", VUndefined)])).
Proof.
  split.
  - rewrite (getRowData_first_matching_row desk_settings
               (desk_request (Some administrator) (Some "B2"))
               {| UtilsRest.info := tickets; UtilsRest.hooks := None |}
               (desk_world (Some desk)) desk [] [("code", VStr "B2")]
               eq_refl eq_refl eq_refl eq_refl eq_refl eq_refl tickets_key_columns
               eq_refl (tickets_key_fits "B2")).
    reflexivity.
  - rewrite (getRowData_first_matching_row desk_settings
               (desk_request (Some administrator) (Some "C"))
               {| UtilsRest.info := tickets; UtilsRest.hooks := None |}
               (desk_world (Some desk)) desk [] [("code", VStr "C")]
               eq_refl eq_refl eq_refl eq_refl eq_refl eq_refl tickets_key_columns
               eq_refl (tickets_key_fits "C")).
    reflexivity.
Defined.

Lemma deleteRowData_removes_matching_rows_witness :
  Operations.deleteRowData desk_settings (desk_request (Some administrator) (Some "A1"))
    true (desk_world (Some desk))
  = ({| Chain.database :=
          Some [("tickets", [ [("code", VStr "B2"); ("state", VStr "open")] ])];
        Chain.res := Some [("results", VNum (Int 2))];
        Chain.nexts := [None];
        Chain.cache := [] |},
     Normal (VObj [("results", VNum (Int 2))])).
Proof.
  rewrite (deleteRowData_removes_matching_rows desk_settings
             (desk_request (Some administrator) (Some "A1"))
             {| UtilsRest.info := tickets; UtilsRest.hooks := None |}
             (desk_world (Some desk)) desk [] [("code", VStr "A1")]
             eq_refl eq_refl eq_refl eq_refl eq_refl eq_refl tickets_key_columns
             [ [("code", VStr "A1"); ("state", VStr "open")];
               [("code", VStr "B2"); ("state", VStr "open")];
               [("code", VStr "BA1"); ("state", VStr "done")] ]
             eq_refl (tickets_key_fits "A1")).
  reflexivity.
Defined.

Lemma operations_reject_unfitting_key_witness :
  let req :=
    {| UtilsRest.params_table := "tickets";
       UtilsRest.query := no_params;
       UtilsRest.query_columns := [];
       UtilsRest.query_friendlyData := false;
       UtilsRest.query_includeRelations := false;
       UtilsRest.body_pk := Some [("state", VStr "open")];
       UtilsRest.user := Some administrator |} in
  exists message,
    Operations.deleteRowData desk_settings req true (desk_world (Some desk))
    = ({| Chain.database := Some desk; Chain.res := Some [];
          Chain.nexts := [Some (HttpException 412 message)];
        Chain.cache := [] |},
       Normal VUndefined).
Proof.
  intros req.
  destruct (operations_reject_unfitting_key desk_settings req
              {| UtilsRest.info := tickets; UtilsRest.hooks := None |}
              (desk_world (Some desk)) desk [("state", VStr "open")]
              eq_refl eq_refl eq_refl eq_refl eq_refl tickets_key_columns)
    as [_ Hdelete].
  - intros [_ Hkeys]. specialize (Hkeys "state" (or_introl eq_refl)).
    simpl in Hkeys. destruct Hkeys as [H|[]]. discriminate H.
  - exact Hdelete.
Defined.

(** *** Text keys are matched as substrings *)








(** *** Distinct values and their cache *)

(** [getDistinctTableData] wraps every failure in an error of status
    500: a caller the table's roles do not authorize is reported to
    [next] with status 500 and the message "Not authorized", where the
    other operations report 401; store, response and cache are not
    touched. *)
Theorem getDistinctTableData_unauthorized_is_500
  (settings : list UtilsRest.ITable) (req : UtilsRest.IMCRequest)
  (TABLE : UtilsRest.ITable) (w : Chain.World) :
  UtilsRest.getTableConfig settings (UtilsRest.params_table req) = Some TABLE ->
  hasAuthorization (roles (UtilsRest.info TABLE)) (UtilsRest.user req) = false ->
  Distinct.getDistinctTableData settings req true w
  = (after_next w (Some (HttpException 500 "Not authorized")), Normal VUndefined).
Proof.
  intros Hconfig Hauth. unfold Distinct.getDistinctTableData. rewrite Hconfig.
  unfold Chain.catch, Chain.andThen, Operations.requirementsCheck.
  rewrite Hauth. reflexivity.
Qed.

Lemma getDistinctTableData_unauthorized_is_500_witness :
  Distinct.getDistinctTableData desk_settings (desk_request None None) true
    (desk_world (Some desk))
  = ({| Chain.database := Some desk; Chain.res := Some [];
        Chain.nexts := [Some (HttpException 500 "Not authorized")];
        Chain.cache := [] |},
     Normal VUndefined).
Proof.
  apply (getDistinctTableData_unauthorized_is_500 desk_settings (desk_request None None)
           {| UtilsRest.info := tickets; UtilsRest.hooks := None |}
           (desk_world (Some desk))); reflexivity.
Defined.

Lemma split_columns_from (items : list (string * Value)) (requested : list string)
  (start : Distinct.Columns) :
  fold_left
    (fun columns column =>
       if Distinct.hasItem items ("distinct_" ++ column)
       then {| Distinct.toRequest := Distinct.toRequest columns;
               Distinct.toAdd :=
                 Distinct.toAdd columns
                 ++ [(column, Distinct.getItem items ("distinct_" ++ column))] |}
       else {| Distinct.toRequest := Distinct.toRequest columns ++ [column];
               Distinct.toAdd := Distinct.toAdd columns |})
    requested start
  = {| Distinct.toRequest :=
         Distinct.toRequest start
         ++ List.filter (fun c => negb (cached items c)) requested;
       Distinct.toAdd :=
         Distinct.toAdd start
         ++ map (fun c => (c, Distinct.getItem items ("distinct_" ++ c)))
              (List.filter (cached items) requested) |}.
Proof.
  revert start. induction requested as [|c requested IH]; intros start.
  - cbn [fold_left List.filter map]. rewrite !app_nil_r. destruct start; reflexivity.
  - cbn [fold_left]. rewrite IH. cbn [List.filter map]. unfold cached.
    destruct (Distinct.hasItem items ("distinct_" ++ c));
      cbn [negb Distinct.toRequest Distinct.toAdd map];
      rewrite <- ?app_assoc; reflexivity.
Qed.

Lemma split_columns_filters (items : list (string * Value)) (requested : list string) :
  Distinct.split_columns items requested
  = {| Distinct.toRequest := List.filter (fun c => negb (cached items c)) requested;
       Distinct.toAdd :=
         map (fun c => (c, Distinct.getItem items ("distinct_" ++ c)))
           (List.filter (cached items) requested) |}.
Proof. unfold Distinct.split_columns. rewrite split_columns_from. reflexivity. Qed.

Lemma own_In {A : Type} (o : list (string * A)) (k : string) (a : A) :
  own o k = Some a -> In (k, a) o.
Proof.
  induction o as [|[k0 a0] o IH]; simpl; [discriminate|].
  destruct (String.eqb_spec k0 k) as [->|_].
  - intros H. inversion H. left. reflexivity.
  - intros H. right. apply IH. exact H.
Qed.

Lemma In_set {A : Type} (o : list (string * A)) (k k' : string) (a a' : A) :
  In (k', a') (set o k a) -> (k', a') = (k, a) \/ In (k', a') o.
Proof.
  induction o as [|[k0 a0] o IH]; simpl.
  - intros [H|[]]. left. symmetry. exact H.
  - destruct (String.eqb_spec k0 k) as [->|_]; simpl.
    + intros [H|H]; [left; symmetry; exact H|right; right; exact H].
    + intros [H|H]; [right; left; exact H|].
      destruct (IH H) as [H'|H']; [left; exact H'|right; right; exact H'].
Qed.

Lemma collect_plain (rows : list Row) (result : list (string * Value)) :
  lists_only result ->
  plain_rows rows ->
  exists results, Distinct.collect result rows = Normal results /\ lists_only results.
Proof.
  revert result. induction rows as [|row rows IH]; intros result Hlists Hplain; simpl.
  - eauto.
  - assert (Hrow : inherited (Distinct.first_key row) = false)
      by (apply Hplain; left; reflexivity).
    assert (Hrest : plain_rows rows) by (intros r Hr; apply Hplain; right; exact Hr).
    unfold Distinct.collect_entry, lookup.
    destruct (own result (Distinct.first_key row)) as [v|] eqn:Hown.
    + pose proof (Hlists _ _ (own_In _ _ _ Hown)) as Harr.
      destruct v; try discriminate Harr.
      apply IH; [|exact Hrest].
      intros k v Hin. apply In_set in Hin. destruct Hin as [Heq|Hin].
      * inversion Heq. reflexivity.
      * exact (Hlists k v Hin).
    + rewrite Hrow. apply IH; [|exact Hrest].
      intros k v Hin. apply In_set in Hin. destruct Hin as [Heq|Hin].
      * inversion Heq. reflexivity.
      * exact (Hlists k v Hin).
Qed.

Lemma distinct_rows_In (rows seen : list Row) (r : Row) :
  In r (Distinct.distinct_rows seen rows) -> In r rows.
Proof.
  revert seen. induction rows as [|r0 rows IH]; intros seen; simpl; [auto|].
  destruct (existsb _ seen).
  - intros H. right. exact (IH _ H).
  - intros [H|H]; [left; exact H|right; exact (IH _ H)].
Qed.

Lemma keys_project (cols : list string) (r : Row) (k : string) :
  cols <> [] -> In k (keys (project cols r)) -> In k cols.
Proof.
  intros Hcols. unfold project. destruct cols as [|c cols]; [congruence|].
  generalize (c :: cols). clear. intros cols. induction cols as [|c cols IH]; simpl.
  - auto.
  - unfold keys in *. rewrite map_app. intros Hin. apply in_app_or in Hin.
    destruct Hin as [Hin|Hin].
    + destruct (own r c); simpl in Hin; [|contradiction].
      destruct Hin as [->|[]]. left. reflexivity.
    + right. exact (IH Hin).
Qed.

Lemma select_distinct_plain (db : Database) (q : QueryBuilder) (cols : list string)
  (t : string) :
  table_of q = Some t ->
  forallb (fun c => negb (inherited c)) cols = true ->
  plain_rows (rows_of db t) ->
  plain_rows (Distinct.select_distinct db q cols).
Proof.
  intros Ht Hcols Hrows row Hin. unfold Distinct.select_distinct in Hin.
  rewrite Ht in Hin. apply distinct_rows_In in Hin.
  apply in_map_iff in Hin. destruct Hin as [r [<- Hr]].
  apply filter_In in Hr. destruct Hr as [Hr _].
  destruct cols as [|c cols].
  - apply Hrows. exact Hr.
  - unfold Distinct.first_key.
    destruct (keys (project (c :: cols) r)) as [|k ks] eqn:Hkeys; [reflexivity|].
    assert (Hk : In k (c :: cols)).
    { apply (keys_project (c :: cols) r k); [discriminate|].
      rewrite Hkeys. left. reflexivity. }
    rewrite forallb_forall in Hcols. apply Hcols in Hk.
    apply negb_true_iff in Hk. exact Hk.
Qed.

Lemma filter_keeps_inherited_out (items : list (string * Value)) (cols : list string) :
  forallb (fun c => negb (inherited c)) cols = true ->
  forallb (fun c => negb (inherited c))
    (List.filter (fun c => negb (cached items c)) cols) = true.
Proof.
  intros Hcols. apply forallb_forall. intros c Hc. apply filter_In in Hc.
  rewrite forallb_forall in Hcols. apply Hcols, Hc.
Qed.

Lemma add_cached_reads_cache (items collected : list (string * Value))
  (requested : list string) (c : string) :
  In c requested ->
  cached items c = true ->
  get (Distinct.add_cached collected
         (map (fun c => (c, Distinct.getItem items ("distinct_" ++ c)))
            (List.filter (cached items) requested))) c
  = Distinct.getItem items ("distinct_" ++ c).
Proof.
  intros Hin Hcached. unfold Distinct.add_cached, get, lookup.
  rewrite (own_fold_set_last (fun column : string * Value => fst column)
             (fun column => snd column)).
  match goal with
  | |- context [@List.find ?T ?p ?l] => destruct (@List.find T p l) as [found|] eqn:Hfind
  end.
  - apply find_some in Hfind. destruct Hfind as [Hfound Hname].
    apply in_rev, in_map_iff in Hfound. destruct Hfound as [c' [<- _]].
    simpl in *. apply String.eqb_eq in Hname. subst c'. reflexivity.
  - exfalso.
    assert (Hthere : In (c, Distinct.getItem items ("distinct_" ++ c))
                       (rev (map (fun c => (c, Distinct.getItem items ("distinct_" ++ c)))
                               (List.filter (cached items) requested)))).
    { apply in_rev. rewrite rev_involutive.
      apply (in_map (fun c => (c, Distinct.getItem items ("distinct_" ++ c)))).
      apply filter_In. split; assumption. }
    apply (find_none _ _ Hfind) in Hthere. simpl in Hthere.
    rewrite String.eqb_refl in Hthere. discriminate.
Qed.


Lemma filter_none_kept {A : Type} (p : A -> bool) (l : list A) :
  forallb (fun a => negb (p a)) l = true ->
  List.filter p l = [].
Proof.
  induction l as [|a l IH]; simpl; [reflexivity|].
  intros H. apply andb_true_iff in H. destruct H as [Ha Hl].
  apply negb_true_iff in Ha. rewrite Ha. exact (IH Hl).
Qed.





Section DistinctAnswer.
Variable settings : list UtilsRest.ITable.
Variable req : UtilsRest.IMCRequest.
Variable TABLE : UtilsRest.ITable.
Variable w : Chain.World.
Variable db : Database.
Variable res_data : list (string * Value).
Variable QUERY : QueryBuilder.

Hypothesis table_configured :
  UtilsRest.getTableConfig settings (UtilsRest.params_table req) = Some TABLE.
Hypothesis no_hooks : UtilsRest.hooks TABLE = None.
Hypothesis authorized :
  hasAuthorization (roles (UtilsRest.info TABLE)) (UtilsRest.user req) = true.
Hypothesis connected : Chain.database w = Some db.
Hypothesis response : Chain.res w = Some res_data.
Hypothesis filters_built :
  applyQueryFiltersSearch [From (UtilsRest.params_table req)] (UtilsRest.query req)
    (UtilsRest.info TABLE) = (QUERY, Normal tt).

Lemma distinct_query_table : table_of QUERY = Some (UtilsRest.params_table req).
Proof.
  destruct (applyQueryFiltersSearch_only_wheres (UtilsRest.query req)
              (UtilsRest.info TABLE) [From (UtilsRest.params_table req)])
    as [calls [Hq Hcalls]].
  rewrite filters_built in Hq. cbn [fst] in Hq. rewrite Hq.
  destruct (wheres_keep_shape calls [From (UtilsRest.params_table req)] Hcalls)
    as [Ht _].
  rewrite Ht. reflexivity.
Qed.

(** The run of the operation up to the answer, given the list collected
    from the rows the store returned. *)
Lemma getDistinctTableData_run (collected : list (string * Value)) :
  let columns := Distinct.split_columns (Chain.cache w) (UtilsRest.query_columns req) in
  Distinct.collect []
    (Distinct.select_distinct db QUERY (Distinct.toRequest columns))
  = Normal collected ->
  let results := Distinct.add_cached collected (Distinct.toAdd columns) in
  Distinct.getDistinctTableData settings req true w
  = ({| Chain.database := Some db;
        Chain.res := Some (set res_data "results" (VObj results));
        Chain.nexts := Chain.nexts w ++ [None];
        Chain.cache := Distinct.remember (Chain.cache w) collected |},
     Normal (VObj (set res_data "results" (VObj results)))).
Proof.
  intros columns Hcollect results.
  unfold Distinct.getDistinctTableData. rewrite table_configured.
  unfold Chain.catch, Chain.andThen, Operations.requirementsCheck.
  rewrite authorized, connected. cbn [negb Chain.resolve].
  rewrite filters_built.
  unfold UtilsRest.runHook. rewrite no_hooks.
  cbn [String.eqb Ascii.eqb Bool.eqb fst snd].
  change (mergeHookFilter QUERY VUndefined) with QUERY.
  fold columns. rewrite Hcollect.
  unfold Operations.addToResponse, UtilsRest.addToResponse.
  cbn [Chain.database Chain.res Chain.nexts Chain.cache]. rewrite response.
  unfold Operations.nextAndReturn, Chain.andThen, Chain.call_next, Chain.resolve.
  cbn [Chain.database Chain.res Chain.nexts Chain.cache]. rewrite connected.
  reflexivity.
Qed.

(** A requested column that has an item in the cache is answered with
    that item, whatever the store holds now and whatever the request
    filters: the answer for it does not depend on the rows returned. *)
Theorem getDistinctTableData_answers_from_cache :
  forallb (fun c => negb (inherited c)) (UtilsRest.query_columns req) = true ->
  plain_rows (rows_of db (UtilsRest.params_table req)) ->
  exists results items,
    Distinct.getDistinctTableData settings req true w
    = ({| Chain.database := Some db;
          Chain.res := Some (set res_data "results" (VObj results));
          Chain.nexts := Chain.nexts w ++ [None];
          Chain.cache := items |},
       Normal (VObj (set res_data "results" (VObj results))))
    /\ forall c, In c (UtilsRest.query_columns req) ->
                 cached (Chain.cache w) c = true ->
                 get results c = Distinct.getItem (Chain.cache w) ("distinct_" ++ c).
Proof.
  intros Hcols Hrows.
  destruct (collect_plain
              (Distinct.select_distinct db QUERY
                 (Distinct.toRequest
                    (Distinct.split_columns (Chain.cache w)
                       (UtilsRest.query_columns req))))
              []) as [collected [Hcollect _]].
  - intros k v [].
  - apply (select_distinct_plain db QUERY _ (UtilsRest.params_table req)).
    + apply distinct_query_table.
    + rewrite split_columns_filters. apply filter_keeps_inherited_out. exact Hcols.
    + exact Hrows.
  - eexists. eexists. split.
    + apply (getDistinctTableData_run collected). exact Hcollect.
    + intros c Hc Hcached. rewrite split_columns_filters.
      apply add_cached_reads_cache; assumption.
Qed.

End DistinctAnswer.

Lemma getDistinctTableData_answers_from_cache_witness :
  exists results items,
    Distinct.getDistinctTableData desk_settings (desk_columns_request ["state"; "code"])
      true (desk_cache_world [("distinct_state", VArr [VStr "lost"])])
    = ({| Chain.database := Some desk;
          Chain.res := Some (set [] "results" (VObj results));
          Chain.nexts := [] ++ [None];
          Chain.cache := items |},
       Normal (VObj (set [] "results" (VObj results))))
    /\ forall c, In c ["state"; "code"] ->
                 cached [("distinct_state", VArr [VStr "lost"])] c = true ->
                 get results c
                 = Distinct.getItem [("distinct_state", VArr [VStr "lost"])]
                     ("distinct_" ++ c).
Proof.
  apply (getDistinctTableData_answers_from_cache desk_settings
           (desk_columns_request ["state"; "code"])
           {| UtilsRest.info := tickets; UtilsRest.hooks := None |}
           (desk_cache_world [("distinct_state", VArr [VStr "lost"])])
           desk [] open_tickets); try reflexivity.
  intros row [<-|[<-|[<-|[]]]]; reflexivity.
Defined.



(** *** The list of a table *)

Lemma getTableConfig_name (settings : list UtilsRest.ITable) (TABLE_NAME : string)
  (TABLE : UtilsRest.ITable) :
  UtilsRest.getTableConfig settings TABLE_NAME = Some TABLE ->
  table_name (UtilsRest.info TABLE) = TABLE_NAME.
Proof.
  unfold UtilsRest.getTableConfig. intros Hfound.
  destruct (List.filter _ settings) as [|first rest] eqn:Hkept; [discriminate|].
  inversion Hfound. subst first.
  assert (Hin : In TABLE (TABLE :: rest)) by (left; reflexivity).
  rewrite <- Hkept in Hin. apply filter_In in Hin.
  apply String.eqb_eq. exact (proj2 Hin).
Qed.

Lemma paginate_cases (q : QueryBuilder) (page limit : PageParam) :
  paginate q page limit = q
  \/ exists a b, paginate q page limit = q ++ [Offset a; Limit b].
Proof.
  unfold paginate. cbv zeta.
  match goal with
  | |- context [if ?b then _ else _] => destruct b eqn:Hgt
  end.
  - right. eauto.
  - left. reflexivity.
Qed.

Lemma window_In (off lim : option num) (rows : list Row) (r : Row) :
  In r (window off lim rows) -> In r rows.
Proof.
  unfold window. intros Hin.
  assert (Hskip : In r match off with
                       | Some (Int k) => skipn (Z.to_nat k) rows
                       | _ => rows
                       end).
  { destruct lim as [[k| |n]|]; try exact Hin.
    match type of Hin with
    | In _ (firstn ?n ?l) => rewrite <- (firstn_skipn n l)
    end.
    apply in_or_app. left. exact Hin. }
  destruct off as [[k| |n]|]; try exact Hskip.
  rewrite <- (firstn_skipn (Z.to_nat k) rows). apply in_or_app. right. exact Hskip.
Qed.

Lemma execute_In (db : Database) (q : QueryBuilder) (t : string) (row : Row) :
  table_of q = Some t ->
  In row (execute db q) ->
  exists r, In r (rows_of db t)
            /\ satisfies (statements q) r = true
            /\ row = project (selection q) r.
Proof.
  intros Ht Hin. unfold execute in Hin. rewrite Ht in Hin.
  apply in_map_iff in Hin. destruct Hin as [r [<- Hr]].
  apply window_In, filter_In in Hr. destruct Hr as [Hr Hsat].
  exists r. auto.
Qed.

(** For an authorized caller, with a store and a response object, no
    hook on the table, no order asked and the values as stored,
    [getTableData] answers under [results] a list of rows and calls
    [next()] once.  Each row of the answer is a row of the table that
    satisfies the statements built from the request's filter and search,
    cut down to the columns [filterVisibleTableColumns] gives for the
    main page; when that list is not empty, no other column shows in the
    answer. *)
Theorem getTableData_matching_rows_visible_columns
  (settings : list UtilsRest.ITable) (req : UtilsRest.IMCRequest)
  (TABLE : UtilsRest.ITable) (w : Chain.World) (db : Database)
  (res_data : list (string * Value)) (QUERY : QueryBuilder) :
  UtilsRest.getTableConfig settings (UtilsRest.params_table req) = Some TABLE ->
  UtilsRest.hooks TABLE = None ->
  hasAuthorization (roles (UtilsRest.info TABLE)) (UtilsRest.user req) = true ->
  Chain.database w = Some db ->
  Chain.res w = Some res_data ->
  order (UtilsRest.query req) = None ->
  UtilsRest.query_friendlyData req = false ->
  let TABLE_NAME := UtilsRest.params_table req in
  let COLUMNS := filterVisibleTableColumns (UtilsRest.info TABLE) Main in
  applyQueryFiltersSearch [Select COLUMNS; From TABLE_NAME] (UtilsRest.query req)
    (UtilsRest.info TABLE) = (QUERY, Normal tt) ->
  exists rows,
    Listing.getTableData settings req true w
    = (after_answer w db res_data "results" (rows_value rows),
       Normal (VObj (set res_data "results" (rows_value rows))))
    /\ (forall row, In row rows ->
          exists r, In r (rows_of db TABLE_NAME)
                    /\ satisfies (statements QUERY) r = true
                    /\ row = project COLUMNS r)
    /\ (COLUMNS <> [] ->
        forall row k, In row rows -> In k (keys row) -> In k COLUMNS).
Proof.
  intros Hconfig Hhooks Hauth Hdb Hres Horder Hfriendly TABLE_NAME COLUMNS Hbuilt.
  pose proof (getTableConfig_name _ _ _ Hconfig) as Hname. fold TABLE_NAME in Hname.
  destruct (applyQueryFiltersSearch_only_wheres (UtilsRest.query req)
              (UtilsRest.info TABLE) [Select COLUMNS; From TABLE_NAME])
    as [calls [Hq Hcalls]].
  rewrite Hbuilt in Hq. cbn [fst] in Hq.
  destruct (wheres_keep_shape calls [Select COLUMNS; From TABLE_NAME] Hcalls)
    as [Ht [Hs _]].
  rewrite <- Hq in Ht, Hs.
  change (table_of [Select COLUMNS; From TABLE_NAME]) with (Some TABLE_NAME) in Ht.
  assert (Hsel : selection QUERY = COLUMNS).
  { rewrite Hs. unfold selection. cbn [flat_map]. rewrite !app_nil_r. reflexivity. }
  set (paged := paginate QUERY (page (UtilsRest.query req)) (limit (UtilsRest.query req))).
  assert (Hpaged : table_of paged = Some TABLE_NAME
                   /\ selection paged = COLUMNS
                   /\ statements paged = statements QUERY).
  { unfold paged.
    destruct (paginate_cases QUERY (page (UtilsRest.query req))
                (limit (UtilsRest.query req))) as [->|[a [b ->]]].
    - auto.
    - rewrite table_of_paginated, selection_paginated, statements_paginated. auto. }
  destruct Hpaged as [Htable [Hselection Hstatements]].
  exists (execute db paged). split; [|split].
  - unfold Listing.getTableData. rewrite Hconfig.
    unfold Chain.catch, Chain.andThen, Operations.requirementsCheck.
    rewrite Hauth, Hdb. cbn [negb Chain.resolve].
    unfold Chain.lift, UtilsRest.runHook. rewrite Hhooks.
    cbn [String.eqb Ascii.eqb Bool.eqb].
    unfold getTableData_query, Effect.bind. rewrite Hname. fold COLUMNS.
    rewrite Hbuilt, Horder. unfold Effect.ret.
    change (mergeHookFilter ?q VUndefined) with q.
    fold paged. unfold Operations.run, Chain.resolve. rewrite Hfriendly.
    unfold Operations.addToResponse, UtilsRest.addToResponse.
    cbn [Chain.res]. rewrite Hres.
    unfold Operations.nextAndReturn, Chain.andThen, Chain.call_next, after_answer.
    cbn [Chain.database Chain.res Chain.nexts Chain.cache Chain.resolve].
    rewrite Hdb. reflexivity.
  - intros row Hin.
    destruct (execute_In db paged TABLE_NAME row Htable Hin) as [r [Hr [Hsat Hrow]]].
    exists r. rewrite <- Hstatements, <- Hselection. auto.
  - intros Hshown row k Hin Hk.
    destruct (execute_In db paged TABLE_NAME row Htable Hin) as [r [_ [_ Hrow]]].
    rewrite Hselection in Hrow. subst row.
    exact (keys_project COLUMNS r k Hshown Hk).
Qed.

Lemma getTableData_matching_rows_visible_columns_witness :
  exists rows,
    Listing.getTableData desk_settings (desk_columns_request []) true (desk_cache_world [])
    = (after_answer (desk_cache_world []) desk [] "results" (rows_value rows),
       Normal (VObj (set [] "results" (rows_value rows))))
    /\ (forall row, In row rows ->
          exists r, In r (rows_of desk "tickets")
                    /\ satisfies
                         (statements
                            (fst (applyQueryFiltersSearch
                                    [Select (filterVisibleTableColumns tickets Main);
                                     From "tickets"]
                                    (UtilsRest.query (desk_columns_request [])) tickets)))
                         r = true
                    /\ row = project (filterVisibleTableColumns tickets Main) r)
    /\ (filterVisibleTableColumns tickets Main <> [] ->
        forall row k, In row rows -> In k (keys row) ->
                      In k (filterVisibleTableColumns tickets Main)).
Proof.
  apply (getTableData_matching_rows_visible_columns desk_settings
           (desk_columns_request [])
           {| UtilsRest.info := tickets; UtilsRest.hooks := None |}
           (desk_cache_world []) desk []); reflexivity.
Defined.

(** *** Instances of the statements on the gate and on display values *)

Lemma hasAuthorization_named_roles_witness :
  hasAuthorization (Some ["editor"; "admin"]) (Some administrator) = true <->
  ["editor"; "admin"] = []
  \/ In "all" ["editor"; "admin"]
  \/ exists r, In r ["editor"; "admin"] /\ In r (caller_roles (Some administrator)).
Proof.
  apply (hasAuthorization_named_roles ["editor"; "admin"] (Some administrator)).
  intros r [<-|[<-|[]]]; discriminate.
Defined.


Lemma addVerboseRelatedData_undefined_witness :
  exists out,
    addVerboseRelatedData
      [ [("id", VNum (Int 1)); ("categoryId", VNum (Int 9))] ] books library
    = Normal out
    /\ In [("id", VNum (Int 1)); ("categoryId", VUndefined)] out.
Proof.
  apply (addVerboseRelatedData_undefined
           [ [("id", VNum (Int 1)); ("categoryId", VNum (Int 9))] ] books library
           {| name := "categoryId"; type := "int(11)"; visible := shown;
              relation := Some {| rel_table := "categories"; rel_key := "id";
                                  rel_display := "name" |} |}
           {| rel_table := "categories"; rel_key := "id"; rel_display := "name" |}
           [("id", VNum (Int 1)); ("categoryId", VNum (Int 9))]);
    try reflexivity.
  - left. reflexivity.
  - intros r [<-|[<-|[]]] Hkey; vm_compute in Hkey; discriminate Hkey.
Defined.


(** *** Relations of a row that is not there *)

Section MissingRow.
Variable settings : list UtilsRest.ITable.
Variable req : UtilsRest.IMCRequest.
Variable TABLE : UtilsRest.ITable.
Variable w : Chain.World.
Variable db : Database.
Variable body_pk : list (string * Value).

Hypothesis table_configured :
  UtilsRest.getTableConfig settings (UtilsRest.params_table req) = Some TABLE.
Hypothesis authorized :
  hasAuthorization (roles (UtilsRest.info TABLE)) (UtilsRest.user req) = true.
Hypothesis connected : Chain.database w = Some db.
Hypothesis key_submitted : UtilsRest.body_pk req = Some body_pk.
Hypothesis key_columns_declared :
  forall k, In k (Spec.pk_columns (pk (UtilsRest.info TABLE))) ->
            In k (map name (columns (UtilsRest.info TABLE))).

(** When the key's predicates hold of no row and the relations are
    asked for, on a table whose first many-to-one relation has a join
    column, [getRowData] does not answer [undefined] as it does without
    relations: reading the join target of the missing row is a
    TypeError, which goes to [next], and the response is left as it
    was. *)
Theorem getRowData_relations_of_missing_row
  (rels : IRelations) (related_table : string) (c : IManyToOneRelation)
  (cs : list IManyToOneRelation)
  (others : list (string * list IManyToOneRelation)) :
  UtilsRest.query_includeRelations req = true ->
  key_fits (UtilsRest.info TABLE) body_pk ->
  relations (UtilsRest.info TABLE) = Some rels ->
  manyToOne rels = Some ((related_table, c :: cs) :: others) ->
  (forall r, In r (rows_of db (UtilsRest.params_table req)) ->
             key_matches (UtilsRest.info TABLE) body_pk r = false) ->
  Operations.getRowData settings req true w
  = (after_next w (Some TypeError), Normal VUndefined).
Proof.
  intros Hrelations Hfits Hrels Hone Hnone.
  unfold Operations.getRowData. rewrite table_configured.
  unfold Chain.catch, Chain.andThen, Operations.requirementsCheck.
  rewrite authorized, connected. cbn [negb Chain.resolve].
  unfold Operations.pk_filters. rewrite key_submitted.
  destruct (applyPKFilters_fitting
              [Select (filterVisibleTableColumns (UtilsRest.info TABLE) Detail);
               From (UtilsRest.params_table req)]
              body_pk (UtilsRest.info TABLE) key_columns_declared Hfits)
    as [calls [Hrun [Hwheres Hmatch]]].
  rewrite Hrun. unfold Operations.run, Chain.resolve.
  rewrite (execute_wheres db _ calls (UtilsRest.params_table req))
    by (reflexivity || exact Hwheres).
  rewrite (filter_ext _ _ Hmatch).
  rewrite (filter_none_kept (key_matches (UtilsRest.info TABLE) body_pk))
    by (apply forallb_forall; intros r Hr; rewrite (Hnone r Hr); reflexivity).
  cbn [map Operations.first_row]. rewrite Hrelations, connected.
  unfold Relations.getManyToOneRelationQueries. rewrite Hrels, Hone.
  cbn [map fst snd Relations.all_related].
  unfold Relations.getRelatedRow.
  destruct (UtilsRest.getTableConfig settings related_table) as [RELATED|];
    reflexivity.
Qed.
End MissingRow.

Lemma getRowData_relations_of_missing_row_witness :
  Operations.getRowData board_settings (board_request 99) true
    {| Chain.database := Some board; Chain.res := Some []; Chain.nexts := [];
       Chain.cache := [] |}
  = ({| Chain.database := Some board; Chain.res := Some [];
        Chain.nexts := [Some TypeError]; Chain.cache := [] |},
     Normal VUndefined).
Proof.
  apply (getRowData_relations_of_missing_row board_settings (board_request 99)
           {| UtilsRest.info := threads; UtilsRest.hooks := None |}
           {| Chain.database := Some board; Chain.res := Some []; Chain.nexts := [];
              Chain.cache := [] |}
           board [("id", VNum (Int 99))]
           eq_refl eq_refl eq_refl eq_refl)
    with (rels := {| manyToOne :=
                       Some [("comments", [ {| fk := "post_id"; target := "id" |} ])];
                     manyToMany := None |})
         (related_table := "comments") (c := {| fk := "post_id"; target := "id" |})
         (cs := []) (others := []).
  - simpl. intuition.
  - reflexivity.
  - split; [reflexivity|]. simpl. intuition.
  - reflexivity.
  - reflexivity.
  - intros r [<-|[]]. reflexivity.
Defined.


(** *** Many-to-many expansion of a parent row *)









